(** * github_code_review: the collection / analysis pipeline

    A shallow embedding of [config.py], [github_client.py], [llm_analyzer.py]
    and the three analysis entry points of [main.py], together with the
    properties of the pipeline: file filtering and capping, response
    parsing with its fallback, failure records and the session summary.
    The scan of [security_check.py], the file names and the text summary
    of [report_generator.py] and the [--pr] argument of [main.py] follow.

    Python values are modelled as they are at run time: [str] is a sequence
    of code points, [int] is [Z], [float] is IEEE-754 binary64 (the
    [spec_float] of the standard library at precision 53), a [dict] with
    string keys is an association list in insertion order. *)

From Stdlib Require Import ZArith NArith List String Ascii Bool Lia.
From Stdlib Require Import Floats.SpecFloat.
From Stdlib Require Import Sorting.Sorted Sorting.Permutation.
Import ListNotations.
Open Scope Z_scope.
Set Warnings "-register-all,-notation-for-abbreviation".

(* ================================================================== *)
(** ** Python strings *)

(** A [str] is a sequence of Unicode code points. *)
Definition str := list N.

(** Decoding of a UTF-8 literal of this file into code points: [acc] is the
    code point being assembled and [k] the continuation bytes still due. *)
Fixpoint utf8_go (s : string) (acc : N) (k : nat) : str :=
  match s with
  | EmptyString => []
  | String a s' =>
      let b := N_of_ascii a in
      match k with
      | O =>
          if (b <? 128)%N then b :: utf8_go s' 0%N O
          else if (b <? 224)%N then utf8_go s' (b - 192)%N 1%nat
          else if (b <? 240)%N then utf8_go s' (b - 224)%N 2%nat
          else utf8_go s' (b - 240)%N 3%nat
      | S O => (acc * 64 + (b - 128))%N :: utf8_go s' 0%N O
      | S k' => utf8_go s' (acc * 64 + (b - 128))%N k'
      end
  end.

Definition u8 (s : string) : str := utf8_go s 0%N O.

Definition str_eqb (a b : str) : bool :=
  if list_eq_dec N.eq_dec a b then true else false.

Definition str_len (s : str) : Z := Z.of_nat (List.length s).

(** [s[i:j]] on any sequence, with Python's treatment of negative and
    out-of-range bounds. *)
Definition clamp (n : Z) (i : Z) : Z :=
  if i <? 0 then Z.max (i + n) 0 else Z.min i n.

Definition slice {A : Type} (l : list A) (i j : Z) : list A :=
  let n := Z.of_nat (List.length l) in
  let i' := clamp n i in
  let j' := clamp n j in
  firstn (Z.to_nat (j' - i')) (skipn (Z.to_nat i') l).

(** [l[:n]] *)
Definition slice_to {A : Type} (l : list A) (n : Z) : list A :=
  slice l 0 n.

(** [s.find(c)] for a one-character needle: the lowest index, or -1. *)
Fixpoint find_from (c : N) (s : str) (i : Z) : Z :=
  match s with
  | [] => -1
  | x :: s' => if (x =? c)%N then i else find_from c s' (i + 1)
  end.

Definition str_find (s : str) (c : N) : Z := find_from c s 0.

(** [s.rfind(c)]: the highest index, or -1. *)
Fixpoint rfind_from (c : N) (s : str) (i : Z) : Z :=
  match s with
  | [] => -1
  | x :: s' =>
      let r := rfind_from c s' (i + 1) in
      if r =? -1 then (if (x =? c)%N then i else -1) else r
  end.

Definition str_rfind (s : str) (c : N) : Z := rfind_from c s 0.

(** [s.endswith(suffix)] *)
Definition str_endswith (s suffix : str) : bool :=
  (List.length suffix <=? List.length s)%nat
  && str_eqb (skipn (List.length s - List.length suffix) s) suffix.

(** [bool(s)]: a string is truthy when it is not empty. *)
Definition str_truthy (s : str) : bool :=
  match s with [] => false | _ => true end.

Definition lbrace : N := 123%N.
Definition rbrace : N := 125%N.
Definition dquote : N := 34%N.
Definition newline : N := 10%N.

(* ================================================================== *)
(** ** Python numbers *)

Definition prec : Z := 53.
Definition emax : Z := 1024.

Definition float := spec_float.

Definition fadd : float -> float -> float := SFadd prec emax.
Definition fdiv : float -> float -> float := SFdiv prec emax.

(** An integer as an unrounded binary value [m * 2^0]. *)
Definition exact (z : Z) : float :=
  match z with
  | Z0 => S754_zero false
  | Zpos p => S754_finite false p 0
  | Zneg p => S754_finite true p 0
  end.

(** The binary64 nearest to the rational [n / d] ([d > 0]), ties to even:
    what [float("...")], [int / int] and the last step of [round] compute. *)
Definition nearest (n d : Z) : float := fdiv (exact n) (exact d).

Definition is_inf (f : float) : bool :=
  match f with S754_infinity _ => true | _ => false end.

Inductive exc := TypeError | OverflowError | ZeroDivisionError | ValueError.

Inductive result (A : Type) :=
| Ok (a : A)
| Raise (e : exc).
Arguments Ok {A} a.
Arguments Raise {A} e.

Definition bind {A B} (r : result A) (k : A -> result B) : result B :=
  match r with Ok a => k a | Raise e => Raise e end.

(** A value of type [int] or [float]. *)
Inductive num :=
| NInt (z : Z)
| NFloat (f : float).

(** [float(z)] for an [int]: correctly rounded, OverflowError when the
    rounded value is not finite. *)
Definition int_to_float (z : Z) : result float :=
  let f := nearest z 1 in
  if is_inf f then Raise OverflowError else Ok f.

(** [a + b] *)
Definition py_add (a b : num) : result num :=
  match a, b with
  | NInt x, NInt y => Ok (NInt (x + y))
  | NInt x, NFloat g => bind (int_to_float x) (fun f => Ok (NFloat (fadd f g)))
  | NFloat f, NInt y => bind (int_to_float y) (fun g => Ok (NFloat (fadd f g)))
  | NFloat f, NFloat g => Ok (NFloat (fadd f g))
  end.

Definition is_zero (f : float) : bool :=
  match f with S754_zero _ => true | _ => false end.

(** [a / n] for an [int] divisor [n] (true division). *)
Definition py_truediv (a : num) (n : Z) : result num :=
  match a with
  | NInt x =>
      if n =? 0 then Raise ZeroDivisionError
      else
        let q := nearest (x * Z.sgn n) (Z.abs n) in
        if is_inf q then Raise OverflowError else Ok (NFloat q)
  | NFloat f =>
      bind (int_to_float n) (fun g =>
        if is_zero g then Raise ZeroDivisionError else Ok (NFloat (fdiv f g)))
  end.

(** The integer nearest to [10 * m * 2^e], ties to even. *)
Definition tenths (m : positive) (e : Z) : Z :=
  match e with
  | Zneg p =>
      let num := 10 * Zpos m in
      let den := Z.pow_pos 2 p in
      let q := num / den in
      let r := num mod den in
      match 2 * r ?= den with
      | Lt => q
      | Gt => q + 1
      | Eq => if Z.even q then q else q + 1
      end
  | _ => 10 * Zpos m * 2 ^ e
  end.

(** [round(x, 1)]: an [int] is returned unchanged; a finite [float] is
    rounded to the nearest multiple of one tenth of its exact value (ties
    to even) and that decimal is converted back to the nearest float;
    zeros, infinities and NaN round to themselves. *)
Definition py_round1 (x : num) : num :=
  match x with
  | NInt z => NInt z
  | NFloat (S754_finite s m e) =>
      let t := tenths m e in
      if t =? 0 then NFloat (S754_zero s)
      else NFloat (nearest (if s then - t else t) 10)
  | NFloat f => NFloat f
  end.

(** Float literals: the decimal [m * 10^e]. *)
Definition float_of_decimal (neg : bool) (m : Z) (e : Z) : float :=
  if m =? 0 then S754_zero neg
  else
    let s := if neg then - m else m in
    match e with
    | Zneg p => nearest s (Z.pow_pos 10 p)
    | _ => nearest (s * 10 ^ e) 1
    end.

Definition f0_0 : float := float_of_decimal false 0 0.
Definition f5_0 : float := float_of_decimal false 5 0.

(* ================================================================== *)
(** ** Python values and dictionaries *)

(** The values [json.loads] can build: [None], [bool], [int], [float],
    [str], [list] and [dict] with string keys. *)
Inductive pyval :=
| PyNone
| PyBool (b : bool)
| PyInt (z : Z)
| PyFloat (f : float)
| PyStr (s : str)
| PyList (l : list pyval)
| PyDict (d : list (str * pyval)).

(** A [dict] keeps its keys in insertion order; a key occurs once. *)
Definition dict := list (str * pyval).

(** [d.get(k)] *)
Fixpoint dict_get (d : dict) (k : str) : option pyval :=
  match d with
  | [] => None
  | (k', v) :: d' => if str_eqb k' k then Some v else dict_get d' k
  end.

(** [d.get(k, default)] *)
Definition dict_get_default (d : dict) (k : str) (default : pyval) : pyval :=
  match dict_get d k with Some v => v | None => default end.

(** [d[k] = v]: an existing key keeps its place, a new one goes last. *)
Fixpoint dict_set (d : dict) (k : str) (v : pyval) : dict :=
  match d with
  | [] => [(k, v)]
  | (k', v') :: d' =>
      if str_eqb k' k then (k', v) :: d' else (k', v') :: dict_set d' k v
  end.

(** [k in d] *)
Definition dict_has (d : dict) (k : str) : bool :=
  match dict_get d k with Some _ => true | None => false end.

(** [dict(pairs)]: later pairs overwrite earlier ones. *)
Definition dict_of_pairs (pairs : list (str * pyval)) : dict :=
  fold_left (fun d kv => dict_set d (fst kv) (snd kv)) pairs [].

(* ================================================================== *)
(** ** [json.loads]

    The decoder of the Python standard library in its default (strict)
    configuration, as [llm_analyzer.py] calls it: [None] stands for
    [json.JSONDecodeError]. Two limits of the interpreter are not
    modelled, its recursion limit on deeply nested documents and its cap
    on the number of digits of an integer literal: both raise inside
    [json.loads], which the callers handle like any other decoding
    failure. *)

Definition is_ws (c : N) : bool :=
  ((c =? 32) || (c =? 9) || (c =? 10) || (c =? 13))%N.

Fixpoint skip_ws (s : str) : str :=
  match s with
  | c :: s' => if is_ws c then skip_ws s' else s
  | [] => []
  end.

Definition is_digit (c : N) : bool := ((48 <=? c) && (c <=? 57))%N.

Definition digit_val (c : N) : Z := Z.of_N (c - 48).

Definition hex_val (c : N) : option N :=
  if ((48 <=? c) && (c <=? 57))%N then Some (c - 48)%N
  else if ((97 <=? c) && (c <=? 102))%N then Some (c - 87)%N
  else if ((65 <=? c) && (c <=? 70))%N then Some (c - 55)%N
  else None.

Definition hex4 (a b c d : N) : option N :=
  match hex_val a, hex_val b, hex_val c, hex_val d with
  | Some x, Some y, Some z, Some w => Some (((x * 16 + y) * 16 + z) * 16 + w)%N
  | _, _, _, _ => None
  end.

Definition backslash_char (e : N) : option N :=
  if (e =? 34)%N then Some 34%N            (* quote *)
  else if (e =? 92)%N then Some 92%N       (* backslash *)
  else if (e =? 47)%N then Some 47%N       (* slash *)
  else if (e =? 98)%N then Some 8%N        (* b: backspace *)
  else if (e =? 102)%N then Some 12%N      (* f: form feed *)
  else if (e =? 110)%N then Some 10%N      (* n: line feed *)
  else if (e =? 114)%N then Some 13%N      (* r: carriage return *)
  else if (e =? 116)%N then Some 9%N       (* t: tab *)
  else None.

Definition is_high_surrogate (c : N) : bool := ((55296 <=? c) && (c <=? 56319))%N.
Definition is_low_surrogate (c : N) : bool := ((56320 <=? c) && (c <=? 57343))%N.
Definition join_surrogates (hi lo : N) : N :=
  (65536 + (hi - 55296) * 1024 + (lo - 56320))%N.

Definition cons_char (c : N) (r : option (str * str)) : option (str * str) :=
  match r with Some (t, rest) => Some (c :: t, rest) | None => None end.

(** The body of a string, after its opening quote: the decoded text and
    what follows the closing quote. *)
Fixpoint scanstring (s : str) : option (str * str) :=
  match s with
  | [] => None
  | c :: s1 =>
      if (c =? 34)%N then Some ([], s1)
      else if (c =? 92)%N then
        match s1 with
        | [] => None
        | e :: s2 =>
            if (e =? 117)%N then
              match s2 with
              | h1 :: h2 :: h3 :: h4 :: s3 =>
                  match hex4 h1 h2 h3 h4 with
                  | None => None
                  | Some uni =>
                      match s3 with
                      | b :: v :: g1 :: g2 :: g3 :: g4 :: s4 =>
                          if is_high_surrogate uni && (b =? 92)%N && (v =? 117)%N then
                            match hex4 g1 g2 g3 g4 with
                            | None => None
                            | Some uni2 =>
                                if is_low_surrogate uni2
                                then cons_char (join_surrogates uni uni2) (scanstring s4)
                                else cons_char uni (scanstring s3)
                            end
                          else cons_char uni (scanstring s3)
                      | _ => cons_char uni (scanstring s3)
                      end
                  end
              | _ => None
              end
            else
              match backslash_char e with
              | Some x => cons_char x (scanstring s2)
              | None => None
              end
        end
      else if (c <? 32)%N then None
      else cons_char c (scanstring s1)
  end.

(** The longest prefix of digits, and the rest. *)
Fixpoint span_digits (s : str) : list N * str :=
  match s with
  | c :: s' =>
      if is_digit c then let (ds, r) := span_digits s' in (c :: ds, r)
      else ([], s)
  | [] => ([], [])
  end.

Definition digits_val (ds : list N) : Z :=
  fold_left (fun acc c => acc * 10 + digit_val c) ds 0.

(** The integer part [0|[1-9][0-9]*]. *)
Definition scan_int_part (s : str) : option (list N * str) :=
  match s with
  | c :: s' =>
      if (c =? 48)%N then Some ([c], s')
      else if is_digit c then Some (span_digits s)
      else None
  | [] => None
  end.

(** The fraction [.[0-9]+], when present. *)
Definition scan_frac (s : str) : list N * str :=
  match s with
  | c :: s' =>
      if (c =? 46)%N then
        match span_digits s' with
        | ([], _) => ([], s)
        | (ds, r) => (ds, r)
        end
      else ([], s)
  | [] => ([], s)
  end.

(** The exponent [[eE][-+]?[0-9]+], when present. *)
Definition scan_exp (s : str) : option Z * str :=
  match s with
  | c :: s' =>
      if ((c =? 101) || (c =? 69))%N then
        let (neg, s'') :=
          match s' with
          | sg :: t =>
              if (sg =? 45)%N then (true, t)
              else if (sg =? 43)%N then (false, t)
              else (false, s')
          | [] => (false, s')
          end in
        match span_digits s'' with
        | ([], _) => (None, s)
        | (ds, r) => (Some (if neg then - digits_val ds else digits_val ds), r)
        end
      else (None, s)
  | [] => (None, s)
  end.

(** A number: [int] without fraction and exponent, [float] otherwise. *)
Definition scan_number (s : str) : option (pyval * str) :=
  let (neg, s1) :=
    match s with
    | c :: s' => if (c =? 45)%N then (true, s') else (false, s)
    | [] => (false, s)
    end in
  match scan_int_part s1 with
  | None => None
  | Some (ids, s2) =>
      let (fds, s3) := scan_frac s2 in
      let (ex, s4) := scan_exp s3 in
      match fds, ex with
      | [], None =>
          let v := digits_val ids in
          Some (PyInt (if neg then - v else v), s4)
      | _, _ =>
          let m := digits_val (ids ++ fds) in
          let e := match ex with Some e => e | None => 0 end in
          Some (PyFloat (float_of_decimal neg m (e - Z.of_nat (List.length fds))), s4)
      end
  end.

(** [s] begins with the characters of [w]; what follows them. *)
Fixpoint strip_prefix (w s : str) : option str :=
  match w, s with
  | [], _ => Some s
  | a :: w', b :: s' => if (a =? b)%N then strip_prefix w' s' else None
  | _ :: _, [] => None
  end.

Definition scan_constant (s : str) : option (pyval * str) :=
  match strip_prefix (u8 "null") s with
  | Some r => Some (PyNone, r)
  | None =>
  match strip_prefix (u8 "true") s with
  | Some r => Some (PyBool true, r)
  | None =>
  match strip_prefix (u8 "false") s with
  | Some r => Some (PyBool false, r)
  | None =>
  match scan_number s with
  | Some r => Some r
  | None =>
  match strip_prefix (u8 "NaN") s with
  | Some r => Some (PyFloat S754_nan, r)
  | None =>
  match strip_prefix (u8 "Infinity") s with
  | Some r => Some (PyFloat (S754_infinity false), r)
  | None =>
  match strip_prefix (u8 "-Infinity") s with
  | Some r => Some (PyFloat (S754_infinity true), r)
  | None => None
  end end end end end end end.

(** [scan_once]: one value; [scan_items]: the elements of an array after
    its first bracket; [scan_pairs]: the members of an object from the
    quote of a key on. Every call consumes input, [fuel] bounds the depth. *)
Fixpoint scan_once (fuel : nat) (s : str) {struct fuel} : option (pyval * str) :=
  match fuel with
  | O => None
  | S fuel' =>
      match s with
      | [] => None
      | c :: s' =>
          if (c =? 34)%N then
            match scanstring s' with
            | Some (t, r) => Some (PyStr t, r)
            | None => None
            end
          else if (c =? 123)%N then
            match skip_ws s' with
            | c1 :: r1 =>
                if (c1 =? 125)%N then Some (PyDict [], r1)
                else
                  match scan_pairs fuel' (c1 :: r1) with
                  | Some (ps, r) => Some (PyDict (dict_of_pairs ps), r)
                  | None => None
                  end
            | [] => None
            end
          else if (c =? 91)%N then
            match skip_ws s' with
            | c1 :: r1 =>
                if (c1 =? 93)%N then Some (PyList [], r1)
                else
                  match scan_items fuel' (c1 :: r1) with
                  | Some (vs, r) => Some (PyList vs, r)
                  | None => None
                  end
            | [] => None
            end
          else scan_constant s
      end
  end
with scan_items (fuel : nat) (s : str) {struct fuel} : option (list pyval * str) :=
  match fuel with
  | O => None
  | S fuel' =>
      match scan_once fuel' s with
      | None => None
      | Some (v, r) =>
          match skip_ws r with
          | c :: r1 =>
              if (c =? 93)%N then Some ([v], r1)
              else if (c =? 44)%N then
                match scan_items fuel' (skip_ws r1) with
                | Some (vs, r2) => Some (v :: vs, r2)
                | None => None
                end
              else None
          | [] => None
          end
      end
  end
with scan_pairs (fuel : nat) (s : str) {struct fuel} : option (list (str * pyval) * str) :=
  match fuel with
  | O => None
  | S fuel' =>
      match s with
      | q :: s0 =>
          if (q =? 34)%N then
            match scanstring s0 with
            | None => None
            | Some (key, r) =>
                match skip_ws r with
                | c :: r1 =>
                    if (c =? 58)%N then
                      match scan_once fuel' (skip_ws r1) with
                      | None => None
                      | Some (v, r2) =>
                          match skip_ws r2 with
                          | c2 :: r3 =>
                              if (c2 =? 125)%N then Some ([(key, v)], r3)
                              else if (c2 =? 44)%N then
                                match scan_pairs fuel' (skip_ws r3) with
                                | Some (ps, r4) => Some ((key, v) :: ps, r4)
                                | None => None
                                end
                              else None
                          | [] => None
                          end
                      end
                    else None
                | [] => None
                end
            end
          else None
      | [] => None
      end
  end.

(** [json.loads(s)] *)
Definition json_loads (s : str) : option pyval :=
  match scan_once (2 * List.length s + 2) (skip_ws s) with
  | Some (v, r) => match skip_ws r with [] => Some v | _ => None end
  | None => None
  end.

(* ================================================================== *)
(** ** config.py *)

(** The settings [Config] reads from the environment when the process
    starts. *)
Record Config := {
  SUPPORTED_EXTENSIONS : list str;
  MAX_FILE_SIZE : Z;
  MAX_FILES_PER_ANALYSIS : Z
}.

(** The values used when the environment sets none. *)
Definition default_config : Config := {|
  SUPPORTED_EXTENSIONS :=
    [u8 ".py"; u8 ".js"; u8 ".ts"; u8 ".java"; u8 ".cpp"; u8 ".c"; u8 ".go";
     u8 ".rb"; u8 ".php"; u8 ".html"; u8 ".css"];
  MAX_FILE_SIZE := 50000;
  MAX_FILES_PER_ANALYSIS := 20
|}.

(** [any(name.endswith(ext) for ext in Config.SUPPORTED_EXTENSIONS)] *)
Definition supported (cfg : Config) (name : str) : bool :=
  existsb (fun ext => str_endswith name ext) (SUPPORTED_EXTENSIONS cfg).

(* ================================================================== *)
(** ** Data exchanged with the outside *)

(** One entry of a directory listing of the contents API. A directory
    carries the listing the API answers for it, [None] when that request
    fails. *)
Inductive item :=
| ItemFile (name path : str) (size : Z) (download_url : str)
| ItemDir (path : str) (contents : option (list item))
| ItemOther (path : str).

(** The dictionaries [get_all_files] builds. *)
Record remote_file := {
  rf_name : str;
  rf_path : str;
  rf_size : Z;
  rf_download_url : str
}.

(** The answer of the contents API for one path: its [type] and the result
    of decoding its base64 payload as UTF-8 ([None] when decoding raises). *)
Record content_data := {
  cd_type : str;
  cd_decoded : option str
}.

(** One entry of the changed-file list of a pull request. *)
Record pr_file := {
  pr_status : str;
  pr_filename : str;
  pr_changes : Z;
  pr_additions : Z;
  pr_deletions : Z
}.

(** A local directory tree: a file has its size on disk and what reading it
    returns ([None] when [open] or [read] raises). *)
Inductive fs_entry :=
| FsFile (name : str) (size : Z) (content : option str)
| FsDir (name : str) (children : list fs_entry).

(** What accompanies a path and its content in [files_with_content]. *)
Inductive file_meta :=
| MetaSize (size : Z)
| MetaChanges (changes additions deletions : Z).

(** An element of [files_with_content]. *)
Record file_info := {
  fi_path : str;
  fi_content : str;
  fi_meta : file_meta
}.

(** The outcome of the HTTP request to the inference service: the request
    raises, or answers with a status and a JSON body whose [response] field,
    when it has one, is the generated text. *)
Inductive ollama_outcome :=
| RequestException
| HttpResponse (status_code : Z) (response_field : option str).

(** ['summary'] and the report [analyze_multiple_files] returns. The two
    clock readings of the summary are left out. *)
Record Summary := {
  total_files : Z;
  average_score : num;
  total_issues : Z
}.

Record Report := {
  summary : Summary;
  files : list dict
}.

Definition dq : str := [dquote].
Definition nl : str := [newline].

(** The keys and notes the analyzer writes. *)
Definition k_overall_score : str := u8 "overall_score".
Definition k_issues : str := u8 "issues".
Definition k_improvements : str := u8 "improvements".
Definition k_positive_points : str := u8 "positive_points".
Definition k_raw_response : str := u8 "raw_response".
Definition k_error : str := u8 "error".
Definition k_file_path : str := u8 "file_path".

(* ================================================================== *)
(** ** The pipeline *)

Section Pipeline.

(** The state of the outside world, and the two requests that reach it
    during content fetching and analysis. *)
Variable World : Type.
Variable ollama_post : str -> World -> ollama_outcome * World.
Variable github_contents : str -> str -> World -> option content_data * World.

Variable cfg : Config.

(** *** github_client.py *)

(** [get_file_content] *)
Definition get_file_content (repo file_path : str) (w : World)
  : option str * World :=
  let (content_data, w') := github_contents repo file_path w in
  match content_data with
  | None => (None, w')
  | Some cd =>
      if negb (str_eqb (cd_type cd) (u8 "file")) then (None, w')
      else (cd_decoded cd, w')
  end.

(** One iteration of the loop of [_recursive_get_files]: a file with a
    supported extension is appended to [all_files], a directory is
    listed and walked in turn (nothing happens when its listing fails or
    is empty), anything else is skipped. *)
Fixpoint visit_item (it : item) (all_files : list remote_file)
  {struct it} : list remote_file :=
  match it with
  | ItemFile name path size url =>
      if supported cfg name
      then all_files ++ [{| rf_name := name; rf_path := path;
                            rf_size := size; rf_download_url := url |}]
      else all_files
  | ItemDir _ (Some sub) =>
      fold_left (fun acc x => visit_item x acc) sub all_files
  | ItemDir _ None => all_files
  | ItemOther _ => all_files
  end.

(** [_recursive_get_files] over the listing of one directory. *)
Definition recursive_get_files (contents : list item)
  (all_files : list remote_file) : list remote_file :=
  fold_left (fun acc x => visit_item x acc) contents all_files.

(** [get_all_files]: [root] is the answer of [get_repo_contents] for the
    starting path. *)
Definition get_all_files (root : option (list item)) : list remote_file :=
  match root with
  | Some contents => recursive_get_files contents []
  | None => []
  end.

(** *** llm_analyzer.py *)

(** [_call_ollama]: [None] when the request raises or the status is not
    200, else [response.json().get('response', '')]. *)
Definition _call_ollama (prompt : str) (w : World) : option str * World :=
  let (out, w') := ollama_post prompt w in
  match out with
  | RequestException => (None, w')
  | HttpResponse status_code response_field =>
      if status_code =? 200
      then (Some (match response_field with Some t => t | None => [] end), w')
      else (None, w')
  end.

Definition extension_map : list (str * str) :=
  [(u8 ".py", u8 "python"); (u8 ".js", u8 "javascript");
   (u8 ".ts", u8 "typescript"); (u8 ".java", u8 "java");
   (u8 ".cpp", u8 "cpp"); (u8 ".c", u8 "c"); (u8 ".go", u8 "go");
   (u8 ".rb", u8 "ruby"); (u8 ".php", u8 "php"); (u8 ".html", u8 "html");
   (u8 ".css", u8 "css")].

Fixpoint detect_in (m : list (str * str)) (file_path : str) : str :=
  match m with
  | [] => u8 "text"
  | (ext, lang) :: m' =>
      if str_endswith file_path ext then lang else detect_in m' file_path
  end.

(** [_detect_language] *)
Definition _detect_language (file_path : str) : str :=
  detect_in extension_map file_path.

(** The prompt of [analyze_code]. *)
Definition build_prompt (language file_path code : str) : str :=
  u8 "다음 " ++ language ++ u8 " 코드를 분석해서 JSON 형태로 결과를 반환해주세요:" ++ nl ++
  nl ++
  u8 "파일: " ++ file_path ++ nl ++
  nl ++
  u8 "코드:" ++ nl ++
  u8 "```" ++ language ++ nl ++
  code ++ nl ++
  u8 "```" ++ nl ++
  nl ++
  u8 "다음 형식으로 분석 결과를 반환해주세요:" ++ nl ++
  u8 "{" ++ nl ++
  u8 "    " ++ dq ++ u8 "overall_score" ++ dq ++ u8 ": 7.5," ++ nl ++
  u8 "    " ++ dq ++ u8 "issues" ++ dq ++ u8 ": [" ++ nl ++
  u8 "        {" ++ nl ++
  u8 "            " ++ dq ++ u8 "type" ++ dq ++ u8 ": " ++ dq ++ u8 "bug" ++ dq ++ u8 "," ++ nl ++
  u8 "            " ++ dq ++ u8 "severity" ++ dq ++ u8 ": " ++ dq ++ u8 "high" ++ dq ++ u8 "," ++ nl ++
  u8 "            " ++ dq ++ u8 "line" ++ dq ++ u8 ": 15," ++ nl ++
  u8 "            " ++ dq ++ u8 "message" ++ dq ++ u8 ": " ++ dq ++ u8 "잠재적 null pointer exception" ++ dq ++ u8 "," ++ nl ++
  u8 "            " ++ dq ++ u8 "suggestion" ++ dq ++ u8 ": " ++ dq ++ u8 "null 체크 추가 필요" ++ dq ++ nl ++
  u8 "        }" ++ nl ++
  u8 "    ]," ++ nl ++
  u8 "    " ++ dq ++ u8 "improvements" ++ dq ++ u8 ": [" ++ nl ++
  u8 "        " ++ dq ++ u8 "변수명을 더 명확하게 수정" ++ dq ++ u8 "," ++ nl ++
  u8 "        " ++ dq ++ u8 "주석 추가 필요" ++ dq ++ nl ++
  u8 "    ]," ++ nl ++
  u8 "    " ++ dq ++ u8 "positive_points" ++ dq ++ u8 ": [" ++ nl ++
  u8 "        " ++ dq ++ u8 "코드 구조가 깔끔함" ++ dq ++ u8 "," ++ nl ++
  u8 "        " ++ dq ++ u8 "에러 처리가 적절함" ++ dq ++ nl ++
  u8 "    ]" ++ nl ++
  u8 "}" ++ nl ++
  nl ++
  u8 "분석할 항목:" ++ nl ++
  u8 "- 버그 가능성" ++ nl ++
  u8 "- 보안 취약점" ++ nl ++
  u8 "- 성능 이슈" ++ nl ++
  u8 "- 코드 스타일" ++ nl ++
  u8 "- 가독성" ++ nl ++
  u8 "- 유지보수성" ++ nl.

(** [_parse_json_response]: both the explicit [ValueError] and the
    [JSONDecodeError] of [json.loads] (a [ValueError]) are [Raise]. *)
Definition _parse_json_response (response : str) : result pyval :=
  let start_idx := str_find response lbrace in
  let end_idx := str_rfind response rbrace in
  if negb (start_idx =? -1) && negb (end_idx =? -1) then
    let json_str := slice response start_idx (end_idx + 1) in
    match json_loads json_str with
    | Some v => Ok v
    | None => Raise ValueError
    end
  else Raise ValueError.

(** [_create_fallback_result] *)
Definition _create_fallback_result (response : str) : dict :=
  [(k_overall_score, PyFloat f5_0);
   (k_issues, PyList []);
   (k_improvements, PyList [PyStr (u8 "LLM 응답 파싱 실패")]);
   (k_positive_points, PyList []);
   (k_raw_response, PyStr (slice_to response 500))].

(** [_create_empty_result] *)
Definition _create_empty_result : dict :=
  [(k_overall_score, PyFloat f0_0);
   (k_issues, PyList []);
   (k_improvements, PyList [PyStr (u8 "분석 실패")]);
   (k_positive_points, PyList []);
   (k_error, PyStr (u8 "LLM 분석 실패"))].

(** [analyze_code]; the progress bar and the timing are display only. *)
Definition analyze_code (code file_path language : str) (w : World)
  : pyval * World :=
  let language :=
    if str_truthy language then language else _detect_language file_path in
  let prompt := build_prompt language file_path code in
  let (response, w') := _call_ollama prompt w in
  match response with
  | Some text =>
      if str_truthy text then
        match _parse_json_response text with
        | Ok res => (res, w')
        | Raise _ => (PyDict (_create_fallback_result text), w')
        end
      else (PyDict _create_empty_result, w')
  | None => (PyDict _create_empty_result, w')
  end.

(** [result['file_path'] = path]: only a [dict] takes a string key. *)
Definition set_file_path (res : pyval) (path : str) : result dict :=
  match res with
  | PyDict d => Ok (dict_set d k_file_path (PyStr path))
  | _ => Raise TypeError
  end.

(** The right operand of [total_score += ...]: a [bool] counts as an
    [int], anything that is not a number raises. *)
Definition as_num (v : pyval) : result num :=
  match v with
  | PyBool b => Ok (NInt (if b then 1 else 0))
  | PyInt z => Ok (NInt z)
  | PyFloat f => Ok (NFloat f)
  | _ => Raise TypeError
  end.

(** [len(v)] *)
Definition py_len (v : pyval) : result Z :=
  match v with
  | PyStr s => Ok (str_len s)
  | PyList l => Ok (Z.of_nat (List.length l))
  | PyDict d => Ok (Z.of_nat (List.length d))
  | _ => Raise TypeError
  end.

(** [result.get('overall_score', 5.0)] *)
Definition score_of (d : dict) : pyval :=
  dict_get_default d k_overall_score (PyFloat f5_0).

(** [r.get('issues', [])] *)
Definition issues_of (d : dict) : pyval :=
  dict_get_default d k_issues (PyList []).

(** The [for] loop of [analyze_multiple_files]. *)
Fixpoint analyze_loop (fs : list file_info) (results : list dict)
  (total_score : num) (w : World) : result (list dict * num) * World :=
  match fs with
  | [] => (Ok (results, total_score), w)
  | file_info :: rest =>
      if str_truthy (fi_content file_info) then
        let (res, w1) :=
          analyze_code (fi_content file_info) (fi_path file_info) [] w in
        match set_file_path res (fi_path file_info) with
        | Raise e => (Raise e, w1)
        | Ok d =>
            match bind (as_num (score_of d)) (py_add total_score) with
            | Raise e => (Raise e, w1)
            | Ok total_score' =>
                analyze_loop rest (results ++ [d]) total_score' w1
            end
        end
      else analyze_loop rest results total_score w
  end.

(** [sum(len(r.get('issues', [])) for r in results)] *)
Fixpoint sum_issues (results : list dict) (acc : Z) : result Z :=
  match results with
  | [] => Ok acc
  | r :: rest => bind (py_len (issues_of r)) (fun n => sum_issues rest (acc + n))
  end.

(** [total_score / len(results) if results else 0] *)
Definition avg_score (results : list dict) (total_score : num) : result num :=
  match results with
  | [] => Ok (NInt 0)
  | _ => py_truediv total_score (Z.of_nat (List.length results))
  end.

(** [analyze_multiple_files] *)
Definition analyze_multiple_files (fs : list file_info) (w : World)
  : result Report * World :=
  let (r, w') :=
    analyze_loop (slice_to fs (MAX_FILES_PER_ANALYSIS cfg)) [] (NInt 0) w in
  match r with
  | Raise e => (Raise e, w')
  | Ok (results, total_score) =>
      (bind (avg_score results total_score) (fun avg =>
       bind (sum_issues results 0) (fun issues =>
       Ok {| summary :=
               {| total_files := Z.of_nat (List.length results);
                  average_score := py_round1 avg;
                  total_issues := issues |};
             files := results |})), w')
  end.

(** *** main.py *)

(** [valid_files.sort(key=lambda x: x['size'])]: the sort is stable, so
    the result is the one arrangement in ascending size that keeps files
    of equal size in their earlier order; insertion computes it. *)
Fixpoint insert_by_size (f : remote_file) (l : list remote_file)
  : list remote_file :=
  match l with
  | [] => [f]
  | g :: l' =>
      if rf_size f <=? rf_size g then f :: l else g :: insert_by_size f l'
  end.

Definition sort_by_size (l : list remote_file) : list remote_file :=
  fold_right insert_by_size [] l.

(** The count the list is cut to in [analyze_repository]: [max_files]
    when it is given and not zero, else the configured maximum. *)
Definition file_cap (max_files : option Z) : Z :=
  match max_files with
  | Some n => if n =? 0 then MAX_FILES_PER_ANALYSIS cfg else n
  | None => MAX_FILES_PER_ANALYSIS cfg
  end.

(** [valid_files] of [analyze_repository]: filtered by size, sorted,
    cut. *)
Definition valid_files (max_files : option Z) (all_files : list remote_file)
  : list remote_file :=
  let valid :=
    filter (fun f => rf_size f <=? MAX_FILE_SIZE cfg) all_files in
  slice_to (sort_by_size valid) (file_cap max_files).

(** The download loop of [analyze_repository]. *)
Fixpoint download (repo : str) (fs : list remote_file)
  (files_with_content : list file_info) (w : World)
  : list file_info * World :=
  match fs with
  | [] => (files_with_content, w)
  | f :: rest =>
      let (content, w1) := get_file_content repo (rf_path f) w in
      let files_with_content' :=
        match content with
        | Some c =>
            if str_truthy c
            then files_with_content ++
                 [{| fi_path := rf_path f; fi_content := c;
                     fi_meta := MetaSize (rf_size f) |}]
            else files_with_content
        | None => files_with_content
        end in
      download repo rest files_with_content' w1
  end.

(** [bool(d)] for an optional [dict]. *)
Definition dict_truthy (d : option dict) : bool :=
  match d with Some (_ :: _) => true | _ => false end.

(** What an entry point hands to the report renderers: [None] stands for
    the empty [{}]. *)
Definition run_analysis (files_with_content : list file_info) (w : World)
  : result (option Report) * World :=
  match files_with_content with
  | [] => (Ok None, w)
  | _ =>
      let (r, w') := analyze_multiple_files files_with_content w in
      (bind r (fun rep => Ok (Some rep)), w')
  end.

(** [analyze_repository]: [repo_info] and [root] are the answers of
    [get_repo_info] and of the listing of the repository root. *)
Definition analyze_repository (repo_info : option dict)
  (root : option (list item)) (repo : str) (max_files : option Z)
  (w : World) : result (option Report) * World :=
  if negb (dict_truthy repo_info) then (Ok None, w)
  else
    match get_all_files root with
    | [] => (Ok None, w)
    | all_files =>
        let (files_with_content, w1) :=
          download repo (valid_files max_files all_files) [] w in
        run_analysis files_with_content w1
    end.

(** The loop over [pr_files] of [analyze_pull_request]. *)
Fixpoint pr_collect (repo : str) (entries : list pr_file)
  (files_with_content : list file_info) (w : World)
  : list file_info * World :=
  match entries with
  | [] => (files_with_content, w)
  | file_info :: rest =>
      if str_eqb (pr_status file_info) (u8 "removed")
      then pr_collect repo rest files_with_content w
      else
        let filename := pr_filename file_info in
        if negb (supported cfg filename)
        then pr_collect repo rest files_with_content w
        else
          let (content, w1) := get_file_content repo filename w in
          let files_with_content' :=
            match content with
            | Some c =>
                if str_truthy c
                then files_with_content ++
                     [{| fi_path := filename; fi_content := c;
                         fi_meta := MetaChanges (pr_changes file_info)
                                      (pr_additions file_info)
                                      (pr_deletions file_info) |}]
                else files_with_content
            | None => files_with_content
            end in
          pr_collect repo rest files_with_content' w1
  end.

(** [analyze_pull_request]: [pr_info] and [pr_files] are the answers of
    [get_pull_request] and [get_pr_files]. *)
Definition analyze_pull_request (pr_info : option dict)
  (pr_files : option (list pr_file)) (repo : str) (w : World)
  : result (option Report) * World :=
  if negb (dict_truthy pr_info) then (Ok None, w)
  else
    match pr_files with
    | None | Some [] => (Ok None, w)
    | Some entries =>
        let (files_with_content, w1) := pr_collect repo entries [] w in
        run_analysis files_with_content w1
    end.

(** A path collected by the directory walk, with what the file system
    answers for it: its size and the outcome of reading it. *)
Record local_file := {
  lf_path : str;
  lf_size : Z;
  lf_content : option str
}.

Definition excluded_dirs : list str :=
  [u8 ".git"; u8 "__pycache__"; u8 "node_modules"; u8 "venv"; u8 ".vscode"].

Definition is_excluded (name : str) : bool :=
  existsb (str_eqb name) excluded_dirs.

Definition sep : str := u8 "/".

(** The files of one directory that pass the extension and size tests;
    [prefix] is the directory relative to the project, with its
    separator. *)
Fixpoint files_here (prefix : str) (entries : list fs_entry)
  : list local_file :=
  match entries with
  | [] => []
  | FsFile name size content :: rest =>
      if supported cfg name && (size <=? MAX_FILE_SIZE cfg)
      then {| lf_path := prefix ++ name; lf_size := size;
              lf_content := content |} :: files_here prefix rest
      else files_here prefix rest
  | FsDir _ _ :: rest => files_here prefix rest
  end.

(** [os.walk] below one entry: a directory that is not excluded gives its
    own files first, then what lies below its subdirectories in turn. *)
Fixpoint walk_entry (prefix : str) (e : fs_entry) {struct e}
  : list local_file :=
  match e with
  | FsFile _ _ _ => []
  | FsDir name children =>
      if is_excluded name then []
      else
        let here := prefix ++ name ++ sep in
        files_here here children ++ flat_map (walk_entry here) children
  end.

(** [all_file_paths] of [analyze_local_project], before the cut. *)
Definition walk_project (top : list fs_entry) : list local_file :=
  files_here [] top ++ flat_map (walk_entry []) top.

(** [all_file_paths[:Config.MAX_FILES_PER_ANALYSIS]] *)
Definition all_file_paths (top : list fs_entry) : list local_file :=
  slice_to (walk_project top) (MAX_FILES_PER_ANALYSIS cfg).

(** The reading loop of [analyze_local_project]: a file that cannot be
    read is reported and skipped. *)
Fixpoint read_files (paths : list local_file) : list file_info :=
  match paths with
  | [] => []
  | f :: rest =>
      match lf_content f with
      | Some c =>
          {| fi_path := lf_path f; fi_content := c;
             fi_meta := MetaSize (lf_size f) |} :: read_files rest
      | None => read_files rest
      end
  end.

(** [analyze_local_project]: [project] is the tree at [project_path]
    ([None] when the path does not exist), [security_issues] the findings
    of the secret scan and [user_choice] the lowered answer to the
    question whether to go on. *)
Definition analyze_local_project (project : option (list fs_entry))
  (skip_security_check : bool) (security_issues : list (str * Z * str))
  (user_choice : str) (w : World) : result (option Report) * World :=
  match project with
  | None => (Ok None, w)
  | Some top =>
      let stop :=
        negb skip_security_check
        && match security_issues with
           | [] => false
           | _ => negb (str_eqb user_choice (u8 "y"))
           end in
      if stop then (Ok None, w)
      else run_analysis (read_files (all_file_paths top)) w
  end.

(** *** The contents a collection fetches *)

(** What [get_file_content] answers for the paths, asked for one after
    the other as the download loops do. *)
Fixpoint fetch_all (repo : str) (paths : list str) (w : World)
  : list (option str) * World :=
  match paths with
  | [] => ([], w)
  | path :: rest =>
      let (content, w1) := get_file_content repo path w in
      let (contents, w2) := fetch_all repo rest w1 in
      (content :: contents, w2)
  end.

(** [if content:] for what [get_file_content] answered. *)
Definition fetched (content : option str) : bool :=
  match content with Some c => str_truthy c | None => false end.

(** *** The aggregation of the results *)

(** The additions [total_score += result.get('overall_score', 5.0)] over
    a list of results, from left to right. *)
Fixpoint sum_scores (results : list dict) (total_score : num) : result num :=
  match results with
  | [] => Ok total_score
  | d :: rest =>
      bind (bind (as_num (score_of d)) (py_add total_score)) (sum_scores rest)
  end.

(** The mean the summary reports before rounding: a result without
    [overall_score] counts as 5.0, an empty list gives the integer 0. *)
Definition mean_score (results : list dict) : result num :=
  bind (sum_scores results (NInt 0)) (avg_score results).

(** The summary of a list of results. *)
Definition aggregate (results : list dict) : result Summary :=
  bind (mean_score results) (fun avg =>
  bind (sum_issues results 0) (fun issues =>
  Ok {| total_files := Z.of_nat (List.length results);
        average_score := py_round1 avg;
        total_issues := issues |})).





(** The range the data model gives [overall_score]: a number between 0
    and 10. *)
Definition score_in_range (v : pyval) : bool :=
  match v with
  | PyInt z => (0 <=? z) && (z <=? 10)
  | PyFloat f =>
      SFleb (float_of_decimal false 0 0) f && SFleb f (float_of_decimal false 10 0)
  | _ => false
  end.

(** [a] is [b] with some elements left out. *)
Inductive sublist {A : Type} : list A -> list A -> Prop :=
| sublist_nil : sublist [] []
| sublist_keep x a b : sublist a b -> sublist (x :: a) (x :: b)
| sublist_drop x a b : sublist a b -> sublist a (x :: b).

End Pipeline.

Arguments sublist {A} _ _.

(* ================================================================== *)
(** ** More of Python's strings and paths *)

Definition slash : N := 47%N.
Definition comma : N := 44%N.

(** [s.split(sep)] for a one-character separator: the fields between the
    separators, always at least one. *)
Fixpoint str_split (s : str) (sep : N) : list str :=
  match s with
  | [] => [[]]
  | c :: s' =>
      if (c =? sep)%N then [] :: str_split s' sep
      else
        match str_split s' sep with
        | field :: fields => (c :: field) :: fields
        | [] => [[c]]
        end
  end.

(** [sep.join(parts)] *)
Fixpoint str_join (sep : str) (parts : list str) : str :=
  match parts with
  | [] => []
  | p :: rest =>
      match rest with
      | [] => p
      | _ :: _ => p ++ sep ++ str_join sep rest
      end
  end.


(** [s.startswith(prefix)] *)
Definition str_startswith (s prefix : str) : bool :=
  match strip_prefix prefix s with Some _ => true | None => false end.

(** The characters [str.isspace] accepts, which [str.strip()] removes and
    [\s] matches. *)
Definition is_space (c : N) : bool :=
  ((9 <=? c) && (c <=? 13) || (28 <=? c) && (c <=? 32)
   || (c =? 133) || (c =? 160) || (c =? 5760)
   || (8192 <=? c) && (c <=? 8202)
   || (c =? 8232) || (c =? 8233) || (c =? 8239) || (c =? 8287)
   || (c =? 12288))%N.

(** [s.lstrip()] *)
Fixpoint str_lstrip (s : str) : str :=
  match s with
  | c :: s' => if is_space c then str_lstrip s' else s
  | [] => []
  end.

(** [s.strip()] *)
Definition str_strip (s : str) : str :=
  rev (str_lstrip (rev (str_lstrip s))).

Fixpoint uint_digits (d : Decimal.uint) : str :=
  match d with
  | Decimal.Nil => []
  | Decimal.D0 d' => 48%N :: uint_digits d'
  | Decimal.D1 d' => 49%N :: uint_digits d'
  | Decimal.D2 d' => 50%N :: uint_digits d'
  | Decimal.D3 d' => 51%N :: uint_digits d'
  | Decimal.D4 d' => 52%N :: uint_digits d'
  | Decimal.D5 d' => 53%N :: uint_digits d'
  | Decimal.D6 d' => 54%N :: uint_digits d'
  | Decimal.D7 d' => 55%N :: uint_digits d'
  | Decimal.D8 d' => 56%N :: uint_digits d'
  | Decimal.D9 d' => 57%N :: uint_digits d'
  end.

(** [str(z)] for an [int]. *)
Definition int_str (z : Z) : str :=
  match z with
  | Z0 => [48%N]
  | Zpos p => uint_digits (Pos.to_uint p)
  | Zneg p => 45%N :: uint_digits (Pos.to_uint p)
  end.

(** [os.path.join(a, b)] on a POSIX system. *)
Definition os_path_join (a b : str) : str :=
  if str_startswith b sep then b
  else if negb (str_truthy a) || str_endswith a sep then a ++ b
  else a ++ sep ++ b.

(* ================================================================== *)
(** ** config.py: the extensions read from the environment *)

Definition default_extensions : str :=
  u8 ".py,.js,.ts,.java,.cpp,.c,.go,.rb,.php,.html,.css".

(** [os.getenv('SUPPORTED_EXTENSIONS', '...').split(',')]: [env] is the
    value of the variable, [None] when it is not set. *)
Definition env_supported_extensions (env : option str) : list str :=
  str_split (match env with Some v => v | None => default_extensions end) comma.

(** The configuration with the extensions of the environment. *)
Definition with_extensions (cfg : Config) (env : option str) : Config := {|
  SUPPORTED_EXTENSIONS := env_supported_extensions env;
  MAX_FILE_SIZE := MAX_FILE_SIZE cfg;
  MAX_FILES_PER_ANALYSIS := MAX_FILES_PER_ANALYSIS cfg
|}.

(* ================================================================== *)
(** ** main.py: the argument of [--pr] *)

(** [parts = args.pr.split('/')]; with at least three parts, [repo] is
    ['/'.join(parts[:-1])] and [parts[-1]] is the text handed to [int];
    with fewer the argument is refused. *)
Definition pr_argument (pr : str) : option (str * str) :=
  let parts := str_split pr slash in
  if 3 <=? Z.of_nat (List.length parts)
  then Some (str_join [slash] (slice parts 0 (-1)), last parts [])
  else None.

(* ================================================================== *)
(** ** report_generator.py *)





(** [file_result.get('overall_score', 0)] *)
Definition report_score (file_result : dict) : pyval :=
  dict_get_default file_result k_overall_score (PyInt 0).

(** [score >= n] for a small [int] [n]: a [bool] counts as an [int], a
    [float] is compared with the float of [n] (a NaN is not greater),
    anything else raises. *)
Definition py_ge_int (score : pyval) (n : Z) : result bool :=
  match score with
  | PyBool b => Ok (n <=? (if b then 1 else 0))
  | PyInt z => Ok (n <=? z)
  | PyFloat f => Ok (SFleb (nearest n 1) f)
  | _ => Raise TypeError
  end.

(** ["✅" if score >= 8 else "⚠️" if score >= 6 else "❌"] *)
Definition status_emoji (score : pyval) : result str :=
  bind (py_ge_int score 8) (fun high =>
    if high then Ok (u8 "✅")
    else bind (py_ge_int score 6) (fun medium =>
           Ok (if medium then u8 "⚠️" else u8 "❌"))).

(** What one line of [generate_text_summary] interpolates: the mark, the
    path, the score and the number of issues of a file. *)
Record summary_row := {
  row_status : str;
  row_file_path : pyval;
  row_score : pyval;
  row_issues_count : Z
}.

(** The body of the loop of [generate_text_summary]. *)
Definition file_row (file_result : dict) : result summary_row :=
  let file_path := dict_get_default file_result k_file_path (PyStr (u8 "Unknown")) in
  let score := report_score file_result in
  bind (py_len (issues_of file_result)) (fun issues_count =>
  bind (status_emoji score) (fun status =>
  Ok {| row_status := status; row_file_path := file_path;
        row_score := score; row_issues_count := issues_count |})).

(** The lines of [generate_text_summary] for the files of a report. *)
Fixpoint file_rows (files : list dict) : result (list summary_row) :=
  match files with
  | [] => Ok []
  | file_result :: rest =>
      bind (file_row file_result) (fun row =>
      bind (file_rows rest) (fun rows => Ok (row :: rows)))
  end.

(* ================================================================== *)
(** ** security_check.py *)

(** The patterns of the scanner are sequences of character classes, each
    repeated between a least and, when there is one, a largest number of
    times. *)
Record atom := {
  at_class : N -> bool;
  at_min : nat;
  at_max : option nat
}.

Definition regex := list atom.

(** The length of the longest prefix of [s] in the class. *)
Fixpoint run_length (cls : N -> bool) (s : str) : nat :=
  match s with
  | c :: s' => if cls c then S (run_length cls s') else O
  | [] => O
  end.

(** A match of [r] starts at the beginning of [s]. *)
Fixpoint match_here (r : regex) (s : str) {struct r} : bool :=
  match r with
  | [] => true
  | a :: r' =>
      let run := run_length (at_class a) s in
      let most := match at_max a with Some n => Nat.min n run | None => run end in
      existsb (fun k => match_here r' (skipn k s))
              (seq (at_min a) (S most - at_min a))
  end.

(** [re.search(r, s)] finds a match. *)
Definition re_search (r : regex) (s : str) : bool :=
  existsb (fun i => match_here r (skipn i s)) (seq 0 (S (List.length s))).

(** Matching under [re.IGNORECASE]: the letters of both cases, and the
    four other characters whose case mapping is an ASCII letter (dotted
    capital I, dotless i, long s and the Kelvin sign). *)
Definition fold_case (c : N) : N :=
  if ((65 <=? c) && (c <=? 90))%N then (c + 32)%N
  else if ((c =? 304) || (c =? 305))%N then 105%N
  else if (c =? 383)%N then 115%N
  else if (c =? 8490)%N then 107%N
  else c.

(** A literal character. *)
Definition ci (p : N) : N -> bool := fun c => (fold_case c =? fold_case p)%N.

(** [[a-zA-Z0-9]], and [[0-9A-Z]] which is the same class when case is
    ignored. *)
Definition alnum : N -> bool :=
  fun c => is_digit c || ((97 <=? fold_case c) && (fold_case c <=? 122))%N.

(** The class of the two quote characters, double and single, and its
    complement. *)
Definition quote : N -> bool := fun c => ((c =? 34) || (c =? 39))%N.
Definition not_quote : N -> bool := fun c => negb (quote c).

(** [[_-]] *)
Definition dash : N -> bool := fun c => ((c =? 95) || (c =? 45))%N.

Definition once (cls : N -> bool) : atom :=
  {| at_class := cls; at_min := 1; at_max := Some 1%nat |}.
Definition times (cls : N -> bool) (n : nat) : atom :=
  {| at_class := cls; at_min := n; at_max := Some n |}.
Definition at_least (cls : N -> bool) (n : nat) : atom :=
  {| at_class := cls; at_min := n; at_max := None |}.
Definition optional (cls : N -> bool) : atom :=
  {| at_class := cls; at_min := 0; at_max := Some 1%nat |}.

Definition literal (s : string) : regex := map (fun p => once (ci p)) (u8 s).

(** Optional spaces, an equals sign, optional spaces, a quote, at least
    [n] characters that are no quotes, a quote. *)
Definition assignment (n : nat) : regex :=
  [at_least is_space 0; once (ci 61%N); at_least is_space 0;
   once quote; at_least not_quote n; once quote].

(** A pattern with its source text and its description. *)
Record pattern := {
  p_source : str;
  p_regex : regex;
  p_description : str
}.

Definition assignment_source (n : string) : str :=
  u8 "\s*=\s*[" ++ dq ++ u8 "\'][^" ++ dq ++ u8 "\']{" ++ u8 n ++ u8 ",}["
  ++ dq ++ u8 "\']".

Definition sensitive_patterns : list pattern :=
  [{| p_source := u8 "ghp_[a-zA-Z0-9]{36}";
      p_regex := literal "ghp_" ++ [times alnum 36];
      p_description := u8 "GitHub Personal Access Token" |};
   {| p_source := u8 "sk-[a-zA-Z0-9]{48}";
      p_regex := literal "sk-" ++ [times alnum 48];
      p_description := u8 "OpenAI API Key" |};
   {| p_source := u8 "AKIA[0-9A-Z]{16}";
      p_regex := literal "AKIA" ++ [times alnum 16];
      p_description := u8 "AWS Access Key" |};
   {| p_source := u8 "password" ++ assignment_source "3";
      p_regex := literal "password" ++ assignment 3;
      p_description := u8 "하드코딩된 비밀번호" |};
   {| p_source := u8 "secret" ++ assignment_source "3";
      p_regex := literal "secret" ++ assignment 3;
      p_description := u8 "하드코딩된 시크릿" |};
   {| p_source := u8 "token" ++ assignment_source "10";
      p_regex := literal "token" ++ assignment 10;
      p_description := u8 "하드코딩된 토큰" |};
   {| p_source := u8 "api[_-]?key" ++ assignment_source "10";
      p_regex := literal "api" ++ [optional dash] ++ literal "key" ++ assignment 10;
      p_description := u8 "API 키" |}].

Definition exclude_files : list str :=
  [u8 ".env"; u8 ".env.example"; u8 "security_check.py"; u8 "README.md"].

Definition exclude_dirs : list str :=
  [u8 ".git"; u8 "__pycache__"; u8 "venv"; u8 "node_modules"; u8 ".vscode";
   u8 ".idea"].

(** An entry of the list of findings. *)
Record issue := {
  i_file : str;
  i_line : Z;
  i_content : str;
  i_type : str;
  i_pattern : str
}.

(** [line.strip()[:50] + '...' if len(line.strip()) > 50 else line.strip()] *)
Definition issue_content (line : str) : str :=
  if 50 <? str_len (str_strip line)
  then slice_to (str_strip line) 50 ++ u8 "..."
  else str_strip line.

(** The inner loop of [check_file], over the patterns, for line [i]. *)
Definition check_line (file_path : str) (i : Z) (line : str)
  (issues : list issue) : list issue :=
  fold_left
    (fun issues p =>
       if re_search (p_regex p) line
       then issues ++ [{| i_file := file_path; i_line := i;
                          i_content := issue_content line;
                          i_type := p_description p;
                          i_pattern := p_source p |}]
       else issues)
    sensitive_patterns issues.

(** The outer loop, over [enumerate(lines, i)]. *)
Fixpoint check_lines (file_path : str) (lines : list str) (i : Z)
  (issues : list issue) : list issue :=
  match lines with
  | [] => issues
  | line :: rest =>
      check_lines file_path rest (i + 1) (check_line file_path i line issues)
  end.

(** [check_file]: [content] is what reading the file returns, [None] when
    [open] or [read] raises. *)
Definition check_file (file_path : str) (content : option str) : list issue :=
  match content with
  | Some text => check_lines file_path (str_split text newline) 1 []
  | None => []
  end.

(** The files of one directory that are scanned. *)
Fixpoint check_files (root : str) (entries : list fs_entry) : list issue :=
  match entries with
  | [] => []
  | FsFile file _ content :: rest =>
      if existsb (str_eqb file) exclude_files then check_files root rest
      else check_file (os_path_join root file) content ++ check_files root rest
  | FsDir _ _ :: rest => check_files root rest
  end.

(** [os.walk] below one entry of a directory, for the scan. *)
Fixpoint check_entry (root : str) (e : fs_entry) {struct e} : list issue :=
  match e with
  | FsFile _ _ _ => []
  | FsDir name children =>
      if existsb (str_eqb name) exclude_dirs then []
      else
        let here := os_path_join root name in
        check_files here children ++ flat_map (check_entry here) children
  end.

(** [check_directory]: [tree] is what lies at [directory], [None] when
    there is no such directory. *)
Definition check_directory (directory : str) (tree : option (list fs_entry))
  : list issue :=
  match tree with
  | Some top => check_files directory top ++ flat_map (check_entry directory) top
  | None => []
  end.

(** The file [name] with [content] lies in the tree below the directories
    [dirs], entered in turn from the top. *)
Inductive file_at : list fs_entry -> list str -> str -> option str -> Prop :=
| file_here entries name size content :
    In (FsFile name size content) entries ->
    file_at entries [] name content
| file_below entries d children dirs name content :
    In (FsDir d children) entries ->
    file_at children dirs name content ->
    file_at entries (d :: dirs) name content.

(** [issues_by_type[issue_type].append(issue)], with a new key going
    last. *)
Fixpoint group_append (issues_by_type : list (str * list issue))
  (issue_type : str) (i : issue) : list (str * list issue) :=
  match issues_by_type with
  | [] => [(issue_type, [i])]
  | (k, type_issues) :: rest =>
      if str_eqb k issue_type then (k, type_issues ++ [i]) :: rest
      else (k, type_issues) :: group_append rest issue_type i
  end.

(** The grouping loop of [generate_security_report]. *)
Definition issues_by_type (issues : list issue) : list (str * list issue) :=
  fold_left (fun acc i => group_append acc (i_type i) i) issues [].

(** The lines of one finding. *)
Definition issue_lines (i : issue) : str :=
  u8 "   " ++ i_file i ++ u8 ":" ++ int_str (i_line i) ++ nl ++
  u8 "      " ++ i_content i ++ nl.

(** The section of one type. *)
Definition type_section (entry : str * list issue) : str :=
  u8 "🚨 " ++ fst entry ++ u8 " ("
  ++ int_str (Z.of_nat (List.length (snd entry))) ++ u8 "개):" ++ nl
  ++ flat_map issue_lines (snd entry) ++ nl.

(** [generate_security_report] *)
Definition generate_security_report (issues : list issue) : str :=
  match issues with
  | [] => u8 "보안 검사 통과! 민감한 데이터가 발견되지 않았습니다."
  | _ =>
      int_str (Z.of_nat (List.length issues)) ++ u8 "개의 보안 이슈 발견!" ++ nl ++ nl
      ++ flat_map type_section (issues_by_type issues)
      ++ u8 "수정 방법:" ++ nl
      ++ u8 "   1. 민감한 데이터를 .env 파일로 이동" ++ nl
      ++ u8 "   2. .gitignore에 해당 파일 추가" ++ nl
      ++ u8 "   3. git reset으로 스테이징 취소" ++ nl
  end.

(* ================================================================== *)
(** ** github_client.py: the files of a listing, spelled out *)

(** The files below one entry of a listing, in the order of the listings,
    whatever their extension; a directory whose listing failed has none. *)
Fixpoint listed_files (it : item) : list remote_file :=
  match it with
  | ItemFile name path size url =>
      [{| rf_name := name; rf_path := path; rf_size := size;
          rf_download_url := url |}]
  | ItemDir _ (Some sub) => flat_map listed_files sub
  | ItemDir _ None => []
  | ItemOther _ => []
  end.

(* ================================================================== *)
(** ** The requests of a batch *)

Section Requests.

Variable World : Type.
Variable ollama_post : str -> World -> ollama_outcome * World.

(** The world after the prompts were posted one after the other. *)
Definition post_all (prompts : list str) (w : World) : World :=
  fold_left (fun w prompt => snd (ollama_post prompt w)) prompts w.

(** The prompt [analyze_multiple_files] sends for a record. *)
Definition prompt_of (file_info : file_info) : str :=
  build_prompt (_detect_language (fi_path file_info)) (fi_path file_info)
    (fi_content file_info).

End Requests.

(* ================================================================== *)
(** ** main.py: the local analysis behind its scan *)


Section LocalScan.

Variable World : Type.
Variable ollama_post : str -> World -> ollama_outcome * World.
Variable cfg : Config.


End LocalScan.

(* ================================================================== *)
(** ** Scripted surroundings for the examples *)

(** The inference service answers from a script, one outcome a call; when
    the script is over the request fails. *)
Definition script := list ollama_outcome.

Definition scripted_post (prompt : str) (w : script) : ollama_outcome * script :=
  match w with
  | [] => (RequestException, [])
  | o :: w' => (o, w')
  end.

(** A contents API that finds nothing. *)
Definition no_contents (repo path : str) (w : script)
  : option content_data * script := (None, w).

(** A contents API that answers every path with the same text file. *)
Definition same_contents (text : str) (repo path : str) (w : script)
  : option content_data * script :=
  (Some {| cd_type := u8 "file"; cd_decoded := Some text |}, w).

(** A 200 answer with the generated text. *)
Definition answers (text : str) : ollama_outcome := HttpResponse 200 (Some text).

(** [{"overall_score": <score>}] *)
Definition score_only (score : string) : str :=
  u8 "{" ++ dq ++ u8 "overall_score" ++ dq ++ u8 ": " ++ u8 score ++ u8 "}".

(** [{"overall_score": 1000...0}], an [int] of 401 digits. *)
Definition huge_score_json : str :=
  u8 "{" ++ dq ++ u8 "overall_score" ++ dq ++ u8 ": 1" ++ repeat 48%N 400
  ++ u8 "}".

(** [{"issues": []}] *)
Definition no_score_json : str :=
  u8 "{" ++ dq ++ u8 "issues" ++ dq ++ u8 ": []}".

(** [{"overall_score": 7, "error": "x"}] *)
Definition error_key_json : str :=
  u8 "{" ++ dq ++ u8 "overall_score" ++ dq ++ u8 ": 7, " ++
  dq ++ u8 "error" ++ dq ++ u8 ": " ++ dq ++ u8 "x" ++ dq ++ u8 "}".

(** The response text of the parser example. *)
Definition prose_json : str :=
  u8 "here is the result: {" ++ dq ++ u8 "overall_score" ++ dq ++ u8 ": 7, " ++
  dq ++ u8 "issues" ++ dq ++ u8 ": [], " ++
  dq ++ u8 "improvements" ++ dq ++ u8 ": [], " ++
  dq ++ u8 "positive_points" ++ dq ++ u8 ": []} thanks".

Definition file_a : file_info :=
  {| fi_path := u8 "a.py"; fi_content := u8 "x = 1"; fi_meta := MetaSize 5 |}.
Definition file_b : file_info :=
  {| fi_path := u8 "b.py"; fi_content := u8 "y = 2"; fi_meta := MetaSize 5 |}.
Definition file_c : file_info :=
  {| fi_path := u8 "c.py"; fi_content := u8 "z = 3"; fi_meta := MetaSize 5 |}.
Definition file_empty : file_info :=
  {| fi_path := u8 "__init__.py"; fi_content := []; fi_meta := MetaSize 0 |}.

(** A configuration that analyses at most three files. *)
Definition cap3_config : Config := {|
  SUPPORTED_EXTENSIONS := SUPPORTED_EXTENSIONS default_config;
  MAX_FILE_SIZE := MAX_FILE_SIZE default_config;
  MAX_FILES_PER_ANALYSIS := 3
|}.

Definition sized_file (name : string) (size : Z) : fs_entry :=
  FsFile (u8 name) size (Some (u8 "pass")).

Definition sized_remote (name : string) (size : Z) : remote_file :=
  {| rf_name := u8 name; rf_path := u8 name; rf_size := size;
     rf_download_url := [] |}.

(** Five files of sizes 50, 10, 30, 90 and 20, in listing order. *)
Definition five_local : list fs_entry :=
  [sized_file "a.py" 50; sized_file "b.py" 10; sized_file "c.py" 30;
   sized_file "d.py" 90; sized_file "e.py" 20].

Definition five_remote : list remote_file :=
  [sized_remote "a.py" 50; sized_remote "b.py" 10; sized_remote "c.py" 30;
   sized_remote "d.py" 90; sized_remote "e.py" 20].

(** A changed file of a pull request whose content is longer than
    [MAX_FILE_SIZE]. *)
Definition big_text : str := repeat 120%N (Z.to_nat 50001).

Definition big_pr_entry : pr_file :=
  {| pr_status := u8 "modified"; pr_filename := u8 "big.py";
     pr_changes := 1; pr_additions := 1; pr_deletions := 0 |}.

(** An inference service that refuses every connection. *)
Definition refused_post (prompt : str) (w : unit) : ollama_outcome * unit :=
  (RequestException, w).

(** [{"overall_score": 7, "file_path": "other.py"}] *)
Definition own_path_json : str :=
  u8 "{" ++ dq ++ u8 "overall_score" ++ dq ++ u8 ": 7, " ++
  dq ++ u8 "file_path" ++ dq ++ u8 ": " ++ dq ++ u8 "other.py" ++ dq ++ u8 "}".

(** A settings file with an AWS access key in its second line. *)
Definition aws_key_body : str := u8 "ABCDEFGHIJ234567".

Definition aws_key_text : str :=
  u8 "import os" ++ nl ++ u8 "key = AKIA" ++ aws_key_body ++ nl.

(** A file whose only line assigns a password. *)
Definition password_text : str :=
  u8 "password = " ++ dq ++ u8 "hunter2" ++ dq.

(** The settings file with the password assigned in a third line. *)
Definition two_secrets_text : str := aws_key_text ++ password_text.

(** The finding for that third line. *)
Definition password_finding : issue :=
  {| i_file := u8 "settings.py"; i_line := 3;
     i_content := password_text;
     i_type := u8 "하드코딩된 비밀번호";
     i_pattern := u8 "password" ++ assignment_source "3" |}.


(* ================================================================== *)
(** ** Slices and searches *)

Lemma clamp_zero (n : Z) : 0 <= n -> clamp n 0 = 0.
Proof. intros H. unfold clamp. simpl. lia. Qed.

Lemma slice_to_clamp {A : Type} (l : list A) (n : Z) :
  slice_to l n = firstn (Z.to_nat (clamp (Z.of_nat (List.length l)) n)) l.
Proof.
  unfold slice_to, slice.
  rewrite clamp_zero by lia. simpl. now rewrite Z.sub_0_r.
Qed.

Lemma slice_to_firstn {A : Type} (l : list A) (n : Z) :
  0 <= n -> slice_to l n = firstn (Z.to_nat n) l.
Proof.
  intros Hn. rewrite slice_to_clamp. unfold clamp.
  destruct (n <? 0) eqn:E; [apply Z.ltb_lt in E; lia|].
  destruct (Z.le_ge_cases n (Z.of_nat (List.length l))) as [H|H].
  - now rewrite Z.min_l.
  - rewrite Z.min_r by lia. rewrite Nat2Z.id.
    rewrite firstn_all. symmetry. apply firstn_all2. lia.
Qed.

Lemma slice_to_prefix {A : Type} (l : list A) (n : Z) :
  exists rest, l = slice_to l n ++ rest.
Proof.
  rewrite slice_to_clamp.
  eexists. symmetry. apply firstn_skipn.
Qed.

Lemma slice_to_all {A : Type} (l : list A) (n : Z) :
  Z.of_nat (List.length l) <= n -> slice_to l n = l.
Proof.
  intros H. rewrite slice_to_firstn by lia. apply firstn_all2. lia.
Qed.

Lemma slice_to_length {A : Type} (l : list A) (n : Z) :
  0 <= n ->
  Z.of_nat (List.length (slice_to l n)) = Z.min n (Z.of_nat (List.length l)).
Proof.
  intros H. rewrite slice_to_firstn by lia. rewrite length_firstn. lia.
Qed.

Lemma slice_middle {A : Type} (a b c : list A) :
  slice (a ++ b ++ c) (Z.of_nat (List.length a))
        (Z.of_nat (List.length a) + Z.of_nat (List.length b)) = b.
Proof.
  unfold slice, clamp. rewrite !length_app.
  destruct (Z.of_nat (List.length a) <? 0) eqn:E1; [apply Z.ltb_lt in E1; lia|].
  destruct (Z.of_nat (List.length a) + Z.of_nat (List.length b) <? 0) eqn:E2;
    [apply Z.ltb_lt in E2; lia|].
  rewrite !Z.min_l by lia.
  rewrite Nat2Z.id.
  replace (Z.to_nat (Z.of_nat (List.length a) + Z.of_nat (List.length b)
                     - Z.of_nat (List.length a))) with (List.length b) by lia.
  rewrite skipn_app, skipn_all, Nat.sub_diag. simpl.
  rewrite firstn_app, firstn_all, Nat.sub_diag. simpl. apply app_nil_r.
Qed.

Lemma find_from_absent (c : N) (s : str) (i : Z) :
  ~ In c s -> find_from c s i = -1.
Proof.
  revert i. induction s as [|x s IH]; intros i H; simpl; [reflexivity|].
  destruct (N.eqb_spec x c) as [->|_].
  - exfalso. apply H. now left.
  - apply IH. intros Hin. apply H. now right.
Qed.

Lemma find_from_first (c : N) (pre rest : str) (i : Z) :
  ~ In c pre ->
  find_from c (pre ++ c :: rest) i = i + Z.of_nat (List.length pre).
Proof.
  revert i. induction pre as [|x pre IH]; intros i H; simpl.
  - rewrite N.eqb_refl. lia.
  - destruct (N.eqb_spec x c) as [->|_].
    + exfalso. apply H. now left.
    + rewrite IH by (intros Hin; apply H; now right). lia.
Qed.

Lemma rfind_from_absent (c : N) (s : str) (i : Z) :
  ~ In c s -> rfind_from c s i = -1.
Proof.
  revert i. induction s as [|x s IH]; intros i H; simpl; [reflexivity|].
  rewrite IH by (intros Hin; apply H; now right). simpl.
  destruct (N.eqb_spec x c) as [->|_]; [|reflexivity].
  exfalso. apply H. now left.
Qed.

Lemma rfind_from_last (c : N) (pre post : str) (i : Z) :
  0 <= i -> ~ In c post ->
  rfind_from c (pre ++ c :: post) i = i + Z.of_nat (List.length pre).
Proof.
  revert i. induction pre as [|x pre IH]; intros i Hi H; simpl.
  - rewrite rfind_from_absent by assumption. simpl.
    rewrite N.eqb_refl. lia.
  - rewrite IH by (assumption || lia).
    destruct (i + 1 + Z.of_nat (List.length pre) =? -1) eqn:E.
    + apply Z.eqb_eq in E. lia.
    + lia.
Qed.

Lemma find_from_found (c : N) (s : str) (i : Z) :
  0 <= i -> find_from c s i <> -1 ->
  exists pre rest, s = pre ++ c :: rest /\ ~ In c pre /\
                   find_from c s i = i + Z.of_nat (List.length pre).
Proof.
  revert i. induction s as [|x s IH]; intros i Hi H; simpl in *.
  - congruence.
  - destruct (N.eqb_spec x c) as [->|Hne].
    + exists [], s. simpl. repeat split; auto. lia.
    + destruct (IH (i + 1)) as (pre & rest & -> & Hn & E); [lia|assumption|].
      exists (x :: pre), rest. simpl. repeat split.
      * intros [->|Hin]; [congruence|auto].
      * rewrite E. lia.
Qed.

(* ================================================================== *)
(** ** The decoder returns a mapping for a text that opens with a brace *)

Lemma json_loads_empty : json_loads [] = None.
Proof. reflexivity. Qed.

Lemma json_loads_object (s : str) (v : pyval) :
  json_loads (lbrace :: s) = Some v -> exists d, v = PyDict d.
Proof.
  unfold json_loads.
  destruct (2 * List.length (lbrace :: s) + 2)%nat as [|fuel]; [discriminate|].
  change (skip_ws (lbrace :: s)) with (lbrace :: s).
  cbn [scan_once].
  change ((lbrace =? 34)%N) with false.
  change ((lbrace =? 123)%N) with true.
  cbv iota.
  destruct (skip_ws s) as [|c1 r1]; [discriminate|].
  destruct (c1 =? 125)%N.
  - destruct (skip_ws r1); [|discriminate].
    intros [= <-]. now exists [].
  - destruct (scan_pairs fuel (c1 :: r1)) as [[ps r]|]; [|discriminate].
    destruct (skip_ws r); [|discriminate].
    intros [= <-]. eauto.
Qed.

Lemma slice_at_found {A : Type} (pre rest : list A) (x : A) (j : Z) :
  slice (pre ++ x :: rest) (Z.of_nat (List.length pre)) j = [] \/
  exists t, slice (pre ++ x :: rest) (Z.of_nat (List.length pre)) j = x :: t.
Proof.
  unfold slice.
  set (n := Z.of_nat (List.length (pre ++ x :: rest))).
  assert (Hc : clamp n (Z.of_nat (List.length pre)) = Z.of_nat (List.length pre)).
  { unfold clamp, n. rewrite length_app. simpl.
    destruct (Z.of_nat (List.length pre) <? 0) eqn:E; [apply Z.ltb_lt in E; lia|].
    lia. }
  rewrite Hc, Nat2Z.id.
  rewrite skipn_app, skipn_all, Nat.sub_diag. simpl.
  destruct (Z.to_nat (clamp n j - Z.of_nat (List.length pre))); simpl; eauto.
Qed.

Lemma parse_json_response_mapping (response : str) (v : pyval) :
  _parse_json_response response = Ok v -> exists d, v = PyDict d.
Proof.
  unfold _parse_json_response.
  destruct (str_find response lbrace =? -1) eqn:Es; simpl; [discriminate|].
  destruct (str_rfind response rbrace =? -1) eqn:Ee; simpl; [discriminate|].
  apply Z.eqb_neq in Es.
  destruct (find_from_found lbrace response 0) as (pre & rest & E & _ & Hi);
    [lia|exact Es|].
  unfold str_find. rewrite Hi. simpl. subst response.
  destruct (slice_at_found pre rest lbrace (str_rfind (pre ++ lbrace :: rest) rbrace + 1))
    as [->|[t ->]].
  - rewrite json_loads_empty. discriminate.
  - destruct (json_loads (lbrace :: t)) eqn:E; [|discriminate].
    intros [= <-]. eapply json_loads_object; eauto.
Qed.

Lemma parse_json_response_raise (response : str) (e : exc) :
  _parse_json_response response = Raise e -> e = ValueError.
Proof.
  unfold _parse_json_response.
  destruct (_ && _); [destruct (json_loads _)|]; congruence.
Qed.

(* ================================================================== *)
(** ** The float of a count *)

Lemma digits2_pos_lower (p : positive) :
  2 ^ (Zpos (digits2_pos p) - 1) <= Zpos p.
Proof.
  induction p as [p IH|p IH|]; simpl digits2_pos.
  - rewrite Pos2Z.inj_succ.
    replace (Z.succ (Zpos (digits2_pos p)) - 1)
      with (Z.succ (Zpos (digits2_pos p) - 1)) by lia.
    rewrite Z.pow_succ_r by lia. lia.
  - rewrite Pos2Z.inj_succ.
    replace (Z.succ (Zpos (digits2_pos p)) - 1)
      with (Z.succ (Zpos (digits2_pos p) - 1)) by lia.
    rewrite Z.pow_succ_r by lia. lia.
  - simpl. lia.
Qed.

Lemma digits2_pos_iter (p k : positive) :
  digits2_pos (Pos.iter xO p k) = (digits2_pos p + k)%positive.
Proof.
  induction k as [|k IH] using Pos.peano_ind.
  - simpl. lia.
  - rewrite Pos.iter_succ. simpl. rewrite IH. lia.
Qed.

Lemma shiftl_pos (p k : positive) :
  Z.shiftl (Zpos p) (Zpos k) = Zpos (Pos.iter xO p k).
Proof.
  unfold Z.shiftl.
  induction k as [|k IH] using Pos.peano_ind; [reflexivity|].
  rewrite !Pos.iter_succ, IH. reflexivity.
Qed.

(** A positive integer below [2^53] is a float: its conversion is exact,
    finite and positive. *)
Lemma nearest_count (p : positive) :
  Zpos p < 2 ^ 53 ->
  exists m e, nearest (Zpos p) 1 = S754_finite false m e.
Proof.
  intros Hp.
  pose proof (digits2_pos_lower p) as Hd.
  assert (Hd53 : Zpos (digits2_pos p) <= 53).
  { destruct (Z.le_gt_cases (Zpos (digits2_pos p)) 53) as [H|H]; [exact H|].
    exfalso.
    assert (2 ^ 53 <= 2 ^ (Zpos (digits2_pos p) - 1))
      by (apply Z.pow_le_mono_r; lia).
    lia. }
  set (d := digits2_pos p) in *.
  unfold nearest, fdiv, exact, SFdiv, SFdiv_core_binary.
  cbn [Zdigits2 digits2_pos]. fold d.
  assert (Ef : fexp prec emax (Zpos d + 0 - (1 + 0)) = Zpos d - 54).
  { unfold fexp, emin, prec, emax. lia. }
  rewrite Ef.
  replace (Z.min (Zpos d - 54) (0 - 0)) with (Zpos d - 54) by lia.
  replace (0 - 0 - (Zpos d - 54)) with (54 - Zpos d) by lia.
  destruct (54 - Zpos d) as [|k|k] eqn:Ek; try lia.
  rewrite shiftl_pos.
  assert (Ediv : Z.div_eucl (Zpos (Pos.iter xO p k)) 1
                 = (Zpos (Pos.iter xO p k), 0)).
  { pose proof (Z.div_1_r (Zpos (Pos.iter xO p k))) as H1.
    pose proof (Z.mod_1_r (Zpos (Pos.iter xO p k))) as H2.
    unfold Z.div, Z.modulo in H1, H2.
    destruct (Z.div_eucl (Zpos (Pos.iter xO p k)) 1). simpl in *. congruence. }
  rewrite Ediv.
  change (new_location 1 0) with loc_Exact.
  unfold binary_round_aux, shr_fexp.
  cbn [Zdigits2 shr_record_of_loc].
  rewrite digits2_pos_iter. fold d.
  assert (Ef2 : fexp prec emax (Zpos (d + k) + (Zpos d - 54)) - (Zpos d - 54) = 1).
  { unfold fexp, emin, prec, emax. lia. }
  rewrite Ef2.
  cbn [shr iter_pos].
  destruct (Pos.succ_pred_or k) as [E1|E1].
  - subst k. cbn [Pos.iter shr_1 shr_m shr_r shr_s orb loc_of_shr_record
                  round_nearest_even].
    cbn [Zdigits2 shr_record_of_loc].
    assert (Ef3 : fexp prec emax (Zpos (digits2_pos p) + (Zpos d - 54 + 1))
                  - (Zpos d - 54 + 1) = 0).
    { fold d. unfold fexp, emin, prec, emax. lia. }
    rewrite Ef3. cbn [shr shr_m].
    destruct (Zpos d - 54 + 1 <=? emax - prec) eqn:El; [eauto|].
    apply Z.leb_gt in El. unfold emax, prec in El. lia.
  - rewrite <- E1. rewrite Pos.iter_succ.
    cbn [shr_1 shr_m shr_r shr_s orb loc_of_shr_record round_nearest_even].
    cbn [Zdigits2 shr_record_of_loc].
    rewrite digits2_pos_iter. fold d.
    assert (Ef3 : fexp prec emax (Zpos (d + Pos.pred k) + (Zpos d - 54 + 1))
                  - (Zpos d - 54 + 1) = 0).
    { unfold fexp, emin, prec, emax. lia. }
    rewrite Ef3. cbn [shr shr_m].
    destruct (Zpos d - 54 + 1 <=? emax - prec) eqn:El; [eauto|].
    apply Z.leb_gt in El. unfold emax, prec in El. lia.
Qed.

(* ================================================================== *)
(** ** Properties of the pipeline *)

Section Properties.

Variable World : Type.
Variable ollama_post : str -> World -> ollama_outcome * World.
Variable github_contents : str -> str -> World -> option content_data * World.
Variable cfg : Config.

Local Notation call_ollama := (_call_ollama World ollama_post).
Local Notation analyze := (analyze_code World ollama_post).
Local Notation loop := (analyze_loop World ollama_post).
Local Notation analyze_files := (analyze_multiple_files World ollama_post cfg).
Local Notation prompt_for code file_path language :=
  (build_prompt
     (if str_truthy language then language else _detect_language file_path)
     file_path code).

(** *** The three ways [analyze_code] ends *)

Lemma analyze_code_no_response code file_path language w w' :
  call_ollama (prompt_for code file_path language) w = (None, w') ->
  analyze code file_path language w = (PyDict _create_empty_result, w').
Proof. intros H. unfold analyze_code. now rewrite H. Qed.

Lemma analyze_code_empty_text code file_path language w w' :
  call_ollama (prompt_for code file_path language) w = (Some [], w') ->
  analyze code file_path language w = (PyDict _create_empty_result, w').
Proof. intros H. unfold analyze_code. now rewrite H. Qed.

Lemma analyze_code_unparsed code file_path language w w' text e :
  call_ollama (prompt_for code file_path language) w = (Some text, w') ->
  text <> [] ->
  _parse_json_response text = Raise e ->
  analyze code file_path language w
  = (PyDict (_create_fallback_result text), w').
Proof.
  intros H Hne Hp. unfold analyze_code. rewrite H.
  destruct text as [|c t]; [congruence|]. simpl str_truthy. cbv iota.
  now rewrite Hp.
Qed.


Lemma analyze_code_mapping code file_path language w :
  exists d, fst (analyze code file_path language w) = PyDict d.
Proof.
  unfold analyze_code.
  destruct (call_ollama _ w) as [[text|] w']; simpl; eauto.
  destruct (str_truthy text); simpl; eauto.
  destruct (_parse_json_response text) eqn:E; simpl; eauto.
  eapply parse_json_response_mapping; eauto.
Qed.

(** *** Dictionaries *)

Lemma str_eqb_eq (a b : str) : str_eqb a b = true <-> a = b.
Proof.
  unfold str_eqb. destruct (list_eq_dec N.eq_dec a b); split; congruence.
Qed.

Lemma dict_get_set_other (d : dict) (k k' : str) (v : pyval) :
  k <> k' -> dict_get (dict_set d k v) k' = dict_get d k'.
Proof.
  intros Hne. induction d as [|[k0 v0] d IH]; simpl.
  - destruct (str_eqb k k') eqn:E; [apply str_eqb_eq in E; congruence|reflexivity].
  - destruct (str_eqb k0 k) eqn:E0; simpl.
    + apply str_eqb_eq in E0. subst k0.
      destruct (str_eqb k k') eqn:E; [apply str_eqb_eq in E; congruence|reflexivity].
    + destruct (str_eqb k0 k'); [reflexivity|exact IH].
Qed.

Lemma dict_get_set_same (d : dict) (k : str) (v : pyval) :
  dict_get (dict_set d k v) k = Some v.
Proof.
  induction d as [|[k0 v0] d IH]; simpl.
  - destruct (str_eqb k k) eqn:E; [reflexivity|].
    assert (str_eqb k k = true) by now apply str_eqb_eq. congruence.
  - destruct (str_eqb k0 k) eqn:E0; simpl; rewrite E0; [reflexivity|exact IH].
Qed.

Lemma score_of_set_file_path (d : dict) (path : str) :
  score_of (dict_set d k_file_path (PyStr path)) = score_of d.
Proof.
  unfold score_of, dict_get_default.
  rewrite dict_get_set_other; [reflexivity|discriminate].
Qed.

Lemma issues_of_set_file_path (d : dict) (path : str) :
  issues_of (dict_set d k_file_path (PyStr path)) = issues_of d.
Proof.
  unfold issues_of, dict_get_default.
  rewrite dict_get_set_other; [reflexivity|discriminate].
Qed.

(** One turn of the loop for a file with content: the result is stored
    under the file's path and its score added to the running total; the
    loop stops only when that addition raises. *)
Lemma analyze_loop_step f rest results total_score w w' d :
  str_truthy (fi_content f) = true ->
  analyze (fi_content f) (fi_path f) [] w = (PyDict d, w') ->
  loop (f :: rest) results total_score w
  = match bind (as_num (score_of d)) (py_add total_score) with
    | Ok total_score' =>
        loop rest (results ++ [dict_set d k_file_path (PyStr (fi_path f))])
             total_score' w'
    | Raise e => (Raise e, w')
    end.
Proof.
  intros Hc Ha. simpl. rewrite Hc, Ha. simpl.
  rewrite score_of_set_file_path. reflexivity.
Qed.

(** *** The loop: what it returns, and where it stops *)

Local Notation has_content := (fun f : file_info => str_truthy (fi_content f)).
Local Notation stored_for f d := (dict_set d k_file_path (PyStr (fi_path f))).

(** A result of the loop is the mapping [analyze_code] gave for a record,
    stored under the path of the record. *)
Local Notation result_of := (fun (d : dict) (f : file_info) =>
  exists w0 d0,
    fst (analyze (fi_content f) (fi_path f) [] w0) = PyDict d0
    /\ d = stored_for f d0).

(** When the loop returns it has appended one result for each record with
    content, in the order of the records, and the total has grown by the
    scores of these results. *)
Lemma analyze_loop_returns fs :
  forall results total_score w results' total_score' w',
    loop fs results total_score w = (Ok (results', total_score'), w') ->
    exists new,
      results' = results ++ new
      /\ sum_scores new total_score = Ok total_score'
      /\ Forall2 result_of new (filter has_content fs).
Proof.
  induction fs as [|f rest IH];
    intros results total_score w results' total_score' w'; simpl.
  - intros [= <- <- <-]. exists []. rewrite app_nil_r.
    repeat split. constructor.
  - destruct (str_truthy (fi_content f)) eqn:Ec; [|apply IH].
    destruct (analyze_code_mapping
                (fi_content f) (fi_path f) [] w) as [d0 Hd].
    destruct (analyze (fi_content f) (fi_path f) [] w) as [res w1] eqn:Ea.
    simpl in Hd. subst res. simpl set_file_path. cbv iota.
    destruct (bind (as_num (score_of (stored_for f d0))) (py_add total_score))
      as [t1|e] eqn:Eb; [|discriminate].
    intros E. destruct (IH _ _ _ _ _ _ E) as (new & -> & Hs & Hall).
    exists (stored_for f d0 :: new). split; [now rewrite <- app_assoc|].
    split.
    + cbn [sum_scores]. rewrite Eb. exact Hs.
    + constructor; [|exact Hall]. exists w, d0. rewrite Ea. auto.
Qed.

Lemma results_paths (new : list dict) (fs : list file_info) :
  Forall2 result_of new fs ->
  map (fun d => dict_get d k_file_path) new
  = map (fun f => Some (PyStr (fi_path f))) fs.
Proof.
  induction 1 as [|d f new fs (w0 & d0 & _ & ->) _ IH]; simpl; [reflexivity|].
  now rewrite dict_get_set_same, IH.
Qed.

Lemma results_length (new : list dict) (fs : list file_info) :
  Forall2 result_of new fs -> List.length new = List.length fs.
Proof. induction 1; simpl; congruence. Qed.

(** When the loop raises it has stopped at a record with content, on the
    addition of that record's score to the running total. *)
Lemma analyze_loop_raises fs : forall results total_score w e w2,
  loop fs results total_score w = (Raise e, w2) ->
  exists before f after collected t w1 d,
    fs = before ++ f :: after
    /\ loop before results total_score w = (Ok (collected, t), w1)
    /\ str_truthy (fi_content f) = true
    /\ analyze (fi_content f) (fi_path f) [] w1 = (PyDict d, w2)
    /\ bind (as_num (score_of d)) (py_add t) = Raise e.
Proof.
  induction fs as [|f rest IH]; intros results total_score w e w2; simpl;
    [discriminate|].
  destruct (str_truthy (fi_content f)) eqn:Ec.
  - destruct (analyze_code_mapping
                (fi_content f) (fi_path f) [] w) as [d0 Hd].
    destruct (analyze (fi_content f) (fi_path f) [] w) as [res w1] eqn:Ea.
    simpl in Hd. subst res. simpl set_file_path. cbv iota.
    rewrite score_of_set_file_path.
    destruct (bind (as_num (score_of d0)) (py_add total_score))
      as [t1|e1] eqn:Eb.
    + intros E.
      destruct (IH _ _ _ _ _ E)
        as (before & g & after & collected & t & w0 & d & -> & Hl & Hc & Ha & Hr).
      exists (f :: before), g, after, collected, t, w0, d.
      split; [reflexivity|]. split; [|auto].
      rewrite <- Hl. cbn [app].
      rewrite (analyze_loop_step f before results
                 total_score w w1 d0 Ec Ea), Eb.
      reflexivity.
    + intros [= <- <-].
      exists [], f, rest, results, total_score, w, d0. auto.
  - intros E.
    destruct (IH _ _ _ _ _ E)
      as (before & g & after & collected & t & w0 & d & -> & Hl & Hc & Ha & Hr).
    exists (f :: before), g, after, collected, t, w0, d.
    split; [reflexivity|]. split; [|auto].
    rewrite <- Hl. cbn [app analyze_loop]. now rewrite Ec.
Qed.


(** [analyze_multiple_files] by the outcome of its loop. *)
Lemma analyze_files_of_loop fs w :
  analyze_files fs w
  = match loop (slice_to fs (MAX_FILES_PER_ANALYSIS cfg)) [] (NInt 0) w with
    | (Ok (results, _), w') =>
        (bind (aggregate results)
              (fun s => Ok {| summary := s; files := results |}), w')
    | (Raise e, w') => (Raise e, w')
    end.
Proof.
  unfold analyze_multiple_files.
  destruct (loop (slice_to fs (MAX_FILES_PER_ANALYSIS cfg)) [] (NInt 0) w)
    as [[[results total_score]|e] w'] eqn:El; [|reflexivity].
  destruct (analyze_loop_returns _ _ _ _ _ _ _ El) as (new & E & Hs & _).
  simpl in E. subst new.
  unfold aggregate, mean_score. rewrite Hs. simpl.
  destruct (avg_score results total_score); simpl; [|reflexivity].
  destruct (sum_issues results 0); reflexivity.
Qed.

(** A returned report holds the results of the loop with their summary. *)
Lemma returned_report fs w report :
  fst (analyze_files fs w) = Ok report ->
  aggregate (files report) = Ok (summary report)
  /\ Forall2 result_of (files report)
       (filter has_content (slice_to fs (MAX_FILES_PER_ANALYSIS cfg)))
  /\ exists total_score w',
       loop (slice_to fs (MAX_FILES_PER_ANALYSIS cfg)) [] (NInt 0) w
       = (Ok (files report, total_score), w').
Proof.
  rewrite analyze_files_of_loop.
  destruct (loop (slice_to fs (MAX_FILES_PER_ANALYSIS cfg)) [] (NInt 0) w)
    as [[[results total_score]|e] w'] eqn:El; simpl; [|discriminate].
  destruct (aggregate results) as [s|e] eqn:Ea; simpl; [|discriminate].
  intros [= <-]. simpl. split; [exact Ea|].
  destruct (analyze_loop_returns _ _ _ _ _ _ _ El) as (new & E & _ & Hall).
  simpl in E. subst new. split; [exact Hall|eauto].
Qed.

Lemma returned_paths fs w report :
  fst (analyze_files fs w) = Ok report ->
  map (fun d => dict_get d k_file_path) (files report)
  = map (fun f => Some (PyStr (fi_path f)))
        (filter has_content (slice_to fs (MAX_FILES_PER_ANALYSIS cfg))).
Proof.
  intros E. destruct (returned_report _ _ _ E) as (_ & Hall & _).
  now apply results_paths.
Qed.

(** An [int] below [2^53] that is not negative converts to a float. *)
Lemma small_int_to_float (z : Z) :
  0 <= z < 2 ^ 53 ->
  exists g, int_to_float z = Ok g /\ is_zero g = (z =? 0).
Proof.
  intros [H0 H1]. unfold int_to_float.
  destruct z as [|p|p]; [| |lia].
  - exists (S754_zero false). split; reflexivity.
  - destruct (nearest_count p H1) as (m & e & ->). simpl. eauto.
Qed.




(** *** Parsing a response *)

Lemma slice_reversed {A : Type} (l : list A) (i j : Z) :
  0 <= j <= i -> slice l i j = [].
Proof.
  intros H. unfold slice, clamp.
  destruct (i <? 0) eqn:Ei; [apply Z.ltb_lt in Ei; lia|].
  destruct (j <? 0) eqn:Ej; [apply Z.ltb_lt in Ej; lia|].
  replace (Z.to_nat _) with O by lia. reflexivity.
Qed.

Lemma first_occurrence (c : N) (s : str) :
  In c s -> exists pre rest, s = pre ++ c :: rest /\ ~ In c pre.
Proof.
  induction s as [|x s IH]; simpl; [intros []|].
  destruct (N.eq_dec x c) as [->|Hne].
  - intros _. exists [], s. split; [reflexivity|intros []].
  - intros [Heq|Hin]; [contradiction|].
    destruct (IH Hin) as (pre & rest & -> & Hpre).
    exists (x :: pre), rest. split; [reflexivity|].
    intros [Heq|H]; [contradiction|auto].
Qed.

Lemma last_occurrence (c : N) (s : str) :
  In c s -> exists pre post, s = pre ++ c :: post /\ ~ In c post.
Proof.
  induction s as [|x s IH]; simpl; [intros []|].
  intros Hin.
  destruct (in_dec N.eq_dec c s) as [Hs|Hs].
  - destruct (IH Hs) as (pre & post & -> & Hpost).
    exists (x :: pre), post. split; [reflexivity|exact Hpost].
  - destruct Hin as [->|Hin]; [|contradiction].
    exists [], s. split; [reflexivity|exact Hs].
Qed.

(** The text between the first [{] and the last [}] is what gets decoded. *)
Lemma parse_between (pre mid post : str) :
  ~ In lbrace pre -> ~ In rbrace post ->
  _parse_json_response (pre ++ lbrace :: mid ++ rbrace :: post)
  = match json_loads (lbrace :: mid ++ [rbrace]) with
    | Some v => Ok v
    | None => Raise ValueError
    end.
Proof.
  intros Hpre Hpost. unfold _parse_json_response, str_find, str_rfind.
  rewrite find_from_first by assumption.
  replace (pre ++ lbrace :: mid ++ rbrace :: post)
    with ((pre ++ lbrace :: mid) ++ rbrace :: post)
    by (rewrite <- app_assoc; reflexivity).
  rewrite rfind_from_last by (assumption || lia).
  rewrite length_app. simpl List.length.
  destruct (0 + Z.of_nat (List.length pre) =? -1) eqn:E1;
    [apply Z.eqb_eq in E1; lia|].
  destruct (0 + Z.of_nat (List.length pre + S (List.length mid)) =? -1) eqn:E2;
    [apply Z.eqb_eq in E2; lia|].
  simpl negb. simpl andb. cbv iota.
  replace ((pre ++ lbrace :: mid) ++ rbrace :: post)
    with (pre ++ (lbrace :: mid ++ [rbrace]) ++ post)
    by (simpl; rewrite <- !app_assoc; reflexivity).
  replace (0 + Z.of_nat (List.length pre)) with (Z.of_nat (List.length pre)) by lia.
  replace (0 + Z.of_nat (List.length pre + S (List.length mid)) + 1)
    with (Z.of_nat (List.length pre)
          + Z.of_nat (List.length (lbrace :: mid ++ [rbrace])))
    by (simpl List.length; rewrite length_app; simpl List.length; lia).
  rewrite slice_middle. reflexivity.
Qed.

(** When the last [}] stands before the first [{] the slice is empty. *)
Lemma parse_reversed (a b c : str) :
  ~ In lbrace a -> ~ In lbrace b -> ~ In rbrace b -> ~ In rbrace c ->
  _parse_json_response (a ++ rbrace :: b ++ lbrace :: c) = Raise ValueError.
Proof.
  intros Ha Hb Hb' Hc. unfold _parse_json_response, str_find, str_rfind.
  rewrite rfind_from_last;
    [|lia|intros Hin; apply in_app_or in Hin; destruct Hin as [Hin|[Hin|Hin]];
          [auto|discriminate Hin|auto]].
  replace (a ++ rbrace :: b ++ lbrace :: c)
    with ((a ++ rbrace :: b) ++ lbrace :: c)
    by (rewrite <- app_assoc; reflexivity).
  rewrite find_from_first;
    [|intros Hin; apply in_app_or in Hin; destruct Hin as [Hin|[Hin|Hin]];
          [auto|discriminate Hin|auto]].
  rewrite length_app. simpl List.length.
  destruct (_ && _); [|reflexivity].
  rewrite slice_reversed by lia. reflexivity.
Qed.

Lemma parse_absent (response : str) :
  ~ In lbrace response \/ ~ In rbrace response ->
  _parse_json_response response = Raise ValueError.
Proof.
  intros [H|H]; unfold _parse_json_response, str_find, str_rfind.
  - rewrite find_from_absent by assumption. reflexivity.
  - rewrite rfind_from_absent by assumption.
    destruct (find_from lbrace response 0 =? -1); reflexivity.
Qed.

(** C4. For every response text that contains a [{] and a [}]: either the
    first [{] stands before the last [}], and the parser decodes exactly
    the substring from the one to the other, both included, returning the
    decoded value, a mapping, on success; or the last [}] stands before the
    first [{], nothing lies between them and parsing fails. When one of
    the two characters is absent parsing fails. The text of the example
    yields the object it embeds, the prose around it ignored. *)
Theorem parse_json_response_first_to_last :
  (forall response : str,
      In lbrace response -> In rbrace response ->
      (exists pre mid post,
          response = pre ++ lbrace :: mid ++ rbrace :: post
          /\ ~ In lbrace pre /\ ~ In rbrace post
          /\ _parse_json_response response
             = match json_loads (lbrace :: mid ++ [rbrace]) with
               | Some v => Ok v
               | None => Raise ValueError
               end)
      \/ (exists a b c,
            response = a ++ rbrace :: b ++ lbrace :: c
            /\ ~ In lbrace (a ++ rbrace :: b) /\ ~ In rbrace (b ++ lbrace :: c)
            /\ _parse_json_response response = Raise ValueError))
  /\ (forall (response : str) (v : pyval),
        _parse_json_response response = Ok v -> exists d, v = PyDict d)
  /\ (forall response : str,
        ~ In lbrace response \/ ~ In rbrace response ->
        _parse_json_response response = Raise ValueError)
  /\ _parse_json_response prose_json
     = Ok (PyDict [(k_overall_score, PyInt 7); (k_issues, PyList []);
                   (k_improvements, PyList []);
                   (k_positive_points, PyList [])]).
Proof.
  split; [|split; [|split]].
  - intros response Hl Hr.
    destruct (first_occurrence _ _ Hl) as (pre & rest & E1 & Hpre).
    destruct (last_occurrence _ _ Hr) as (x & post & E2 & Hpost).
    assert (E : pre ++ lbrace :: rest = x ++ rbrace :: post) by congruence.
    apply app_eq_app in E.
    destruct E as [l [[Ep Eq]|[Ex Eq]]].
    + destruct l as [|c l]; simpl in Eq; [discriminate Eq|].
      injection Eq as <- ->.
      right. exists x, l, rest. subst pre.
      assert (Ha : ~ In lbrace x) by (intros H; apply Hpre, in_or_app; now left).
      assert (Hb : ~ In lbrace l)
        by (intros H; apply Hpre, in_or_app; right; now right).
      assert (Hb' : ~ In rbrace l) by (intros H; apply Hpost, in_or_app; now left).
      assert (Hc : ~ In rbrace rest)
        by (intros H; apply Hpost, in_or_app; right; now right).
      repeat split.
      * rewrite E1, <- app_assoc. reflexivity.
      * exact Hpre.
      * exact Hpost.
      * rewrite E1, <- app_assoc. now apply parse_reversed.
    + destruct l as [|c l]; simpl in Eq; [discriminate Eq|].
      injection Eq as <- ->.
      left. exists pre, l, post. repeat split; auto.
      rewrite E1. now apply parse_between.
  - exact parse_json_response_mapping.
  - exact parse_absent.
  - vm_compute. reflexivity.
Qed.

(** *** The records the analyzer builds itself *)

Lemma fallback_result_fields (text : str) :
  dict_get (_create_fallback_result text) k_overall_score = Some (PyFloat f5_0)
  /\ dict_get (_create_fallback_result text) k_issues = Some (PyList [])
  /\ dict_get (_create_fallback_result text) k_improvements
     = Some (PyList [PyStr (u8 "LLM 응답 파싱 실패")])
  /\ dict_get (_create_fallback_result text) k_positive_points = Some (PyList [])
  /\ dict_get (_create_fallback_result text) k_raw_response
     = Some (PyStr (firstn 500 text))
  /\ dict_get (_create_fallback_result text) k_error = None.
Proof.
  repeat split; try reflexivity.
  change (dict_get (_create_fallback_result text) k_raw_response)
    with (Some (PyStr (slice_to text 500))).
  now rewrite slice_to_firstn by lia.
Qed.

Lemma empty_result_fields :
  dict_get _create_empty_result k_overall_score = Some (PyFloat f0_0)
  /\ dict_get _create_empty_result k_issues = Some (PyList [])
  /\ dict_get _create_empty_result k_improvements
     = Some (PyList [PyStr (u8 "분석 실패")])
  /\ dict_get _create_empty_result k_positive_points = Some (PyList [])
  /\ dict_get _create_empty_result k_error = Some (PyStr (u8 "LLM 분석 실패"))
  /\ dict_get _create_empty_result k_raw_response = None.
Proof. repeat split; reflexivity. Qed.

(** C5, amended. For every non-empty response text on which extraction or
    decoding fails, [analyze_code] returns the fallback record: score
    5.0, no issues, the one note about the unparsed response, no positive
    points, no error, and as [raw_response] the first 500 characters of
    the text, which is the whole text when it has at most 500. *)
Theorem fallback_for_unparsed_text code file_path language w w' text :
  call_ollama (prompt_for code file_path language) w = (Some text, w') ->
  text <> [] ->
  (forall v, _parse_json_response text <> Ok v) ->
  exists d,
    analyze code file_path language w = (PyDict d, w')
    /\ dict_get d k_overall_score = Some (PyFloat f5_0)
    /\ dict_get d k_issues = Some (PyList [])
    /\ dict_get d k_improvements = Some (PyList [PyStr (u8 "LLM 응답 파싱 실패")])
    /\ dict_get d k_positive_points = Some (PyList [])
    /\ dict_get d k_raw_response = Some (PyStr (firstn 500 text))
    /\ dict_get d k_error = None
    /\ ((List.length text <= 500)%nat -> firstn 500 text = text).
Proof.
  intros Hcall Hne Hfail.
  exists (_create_fallback_result text).
  destruct (_parse_json_response text) as [v|e] eqn:Hp;
    [exfalso; now apply (Hfail v)|].
  split; [eapply analyze_code_unparsed; eauto|].
  destruct (fallback_result_fields text) as (H1 & H2 & H3 & H4 & H5 & H6).
  repeat split; auto.
  intros Hlen. now apply firstn_all2.
Qed.

(** C3, amended. For every file with content whose inference call fails,
    [analyze_code] returns the failure record: score 0.0, no issues, no
    positive points, the one improvement note that the analysis failed,
    the error set and no raw response. The loop then appends the record
    under the path of the file, adds 0.0 to the running total and goes on
    with the next file, when the total is a float or an [int] that
    converts to a float, as the initial 0 and every [int] from 0 below
    [2^53] do; when the total is an [int] too large for a float the
    addition raises [OverflowError] and the batch ends at this file. *)
Theorem failed_call_gives_failure_record f rest results total_score w w' :
  str_truthy (fi_content f) = true ->
  call_ollama (prompt_for (fi_content f) (fi_path f) (@nil N)) w = (None, w') ->
  analyze (fi_content f) (fi_path f) [] w = (PyDict _create_empty_result, w')
  /\ dict_get _create_empty_result k_overall_score = Some (PyFloat f0_0)
  /\ dict_get _create_empty_result k_issues = Some (PyList [])
  /\ dict_get _create_empty_result k_improvements
     = Some (PyList [PyStr (u8 "분석 실패")])
  /\ dict_get _create_empty_result k_positive_points = Some (PyList [])
  /\ dict_get _create_empty_result k_error = Some (PyStr (u8 "LLM 분석 실패"))
  /\ dict_get _create_empty_result k_raw_response = None
  /\ match total_score with
     | NFloat t =>
         loop (f :: rest) results total_score w
         = loop rest (results ++ [stored_for f _create_empty_result])
             (NFloat (fadd t f0_0)) w'
     | NInt z =>
         match int_to_float z with
         | Ok g =>
             loop (f :: rest) results total_score w
             = loop rest (results ++ [stored_for f _create_empty_result])
                 (NFloat (fadd g f0_0)) w'
         | Raise e =>
             e = OverflowError
             /\ loop (f :: rest) results total_score w
                = (Raise OverflowError, w')
         end
     end
  /\ (forall z, 0 <= z < 2 ^ 53 -> exists g, int_to_float z = Ok g).
Proof.
  intros Hc Hcall.
  assert (Ha : analyze (fi_content f) (fi_path f) [] w
               = (PyDict _create_empty_result, w'))
    by (apply analyze_code_no_response; exact Hcall).
  destruct empty_result_fields as (H1 & H2 & H3 & H4 & H5 & H6).
  do 7 (split; [assumption|]).
  split.
  - rewrite (analyze_loop_step f rest results total_score
               w w' _ Hc Ha).
    change (as_num (score_of _create_empty_result)) with (Ok (NFloat f0_0)).
    cbn [bind]. destruct total_score as [z|t]; cbn [py_add]; [|reflexivity].
    unfold int_to_float. destruct (is_inf (nearest z 1)); cbn [bind]; auto.
  - intros z Hz. destruct (small_int_to_float z Hz) as (g & Hg & _). eauto.
Qed.

(** C7, amended. The analyzer does not check the score of a decoded
    response. The result of [analyze_code] is a mapping that follows the
    response received: without a response, or with an empty one, it is
    the failure record, whose score 0.0 lies in the range; with a text
    that does not parse it is the fallback record, whose score 5.0 lies
    in the range; with a text that parses it is the decoded mapping
    itself, with the score it carries or without one. Every result of a
    returned report is such a mapping stored under the path of its
    record, which leaves the score as it was. *)
Theorem overall_score_by_outcome code file_path language w :
  (exists d,
     fst (analyze code file_path language w) = PyDict d
     /\ match fst (call_ollama (prompt_for code file_path language) w) with
        | None | Some [] =>
            d = _create_empty_result
            /\ dict_get d k_overall_score = Some (PyFloat f0_0)
            /\ score_in_range (score_of d) = true
        | Some text =>
            match _parse_json_response text with
            | Raise _ =>
                d = _create_fallback_result text
                /\ dict_get d k_overall_score = Some (PyFloat f5_0)
                /\ score_in_range (score_of d) = true
            | Ok v => v = PyDict d
            end
        end)
  /\ (forall fs w0 report,
        fst (analyze_files fs w0) = Ok report ->
        Forall2 (fun d f =>
                   exists w1 d0,
                     fst (analyze (fi_content f) (fi_path f) [] w1) = PyDict d0
                     /\ d = dict_set d0 k_file_path (PyStr (fi_path f))
                     /\ dict_get d k_overall_score = dict_get d0 k_overall_score)
                (files report)
                (filter has_content
                   (slice_to fs (MAX_FILES_PER_ANALYSIS cfg)))).
Proof.
  split.
  - unfold analyze_code.
    destruct (call_ollama _ w) as [[[|c t]|] w']; simpl.
    + exists _create_empty_result. repeat split; reflexivity.
    + destruct (_parse_json_response (c :: t)) as [v|e] eqn:Hp; simpl.
      * destruct (parse_json_response_mapping _ _ Hp) as [d ->].
        exists d. split; reflexivity.
      * exists (_create_fallback_result (c :: t)). repeat split; reflexivity.
    + exists _create_empty_result. repeat split; reflexivity.
  - intros fs w0 report E.
    destruct (returned_report _ _ _ E) as (_ & Hall & _).
    eapply Forall2_impl; [|exact Hall].
    intros d f (w1 & d0 & Ha & ->). exists w1, d0.
    repeat split; [exact Ha|].
    apply dict_get_set_other. discriminate.
Qed.

(** C9, amended. By the way it was built a result is in exactly one of
    three states. Without a response, or with an empty one, it is the
    failure record, which has [error] and no [raw_response]; with a text
    that does not parse it is the fallback record, which has
    [raw_response] and no [error]; so a fallback and a failure always
    differ. With a text that parses it is the decoded mapping itself,
    whose keys are whatever the model wrote. *)
Theorem result_states code file_path language w :
  (exists d,
     fst (analyze code file_path language w) = PyDict d
     /\ match fst (call_ollama (prompt_for code file_path language) w) with
        | None | Some [] =>
            d = _create_empty_result
            /\ dict_has d k_error = true /\ dict_has d k_raw_response = false
        | Some text =>
            match _parse_json_response text with
            | Raise _ =>
                d = _create_fallback_result text
                /\ dict_has d k_raw_response = true /\ dict_has d k_error = false
            | Ok v => v = PyDict d
            end
        end)
  /\ (forall text, _create_fallback_result text <> _create_empty_result).
Proof.
  split.
  - unfold analyze_code.
    destruct (call_ollama _ w) as [[[|c t]|] w']; simpl.
    + exists _create_empty_result. repeat split; reflexivity.
    + destruct (_parse_json_response (c :: t)) as [v|e] eqn:Hp; simpl.
      * destruct (parse_json_response_mapping _ _ Hp) as [d ->].
        exists d. split; reflexivity.
      * exists (_create_fallback_result (c :: t)). repeat split; reflexivity.
    + exists _create_empty_result. repeat split; reflexivity.
  - intros text H. discriminate H.
Qed.

(** *** The batch and its summary *)

Lemma aggregate_fields results s :
  aggregate results = Ok s ->
  total_files s = Z.of_nat (List.length results)
  /\ (exists m, mean_score results = Ok m /\ average_score s = py_round1 m)
  /\ sum_issues results 0 = Ok (total_issues s).
Proof.
  unfold aggregate.
  destruct (mean_score results) as [m|e]; simpl; [|discriminate].
  destruct (sum_issues results 0) as [i|e]; simpl; [|discriminate].
  intros [= <-]. simpl. eauto.
Qed.

(** C8, amended. Given records already capped to the configured maximum,
    a batch that returns has exactly one result for each record whose
    content is not empty, in the order of the records: the mapping
    [analyze_code] gave for the record, stored under its path (a record
    with empty content is skipped), and [total_files] is their number. A
    batch that raises returns no result: either the loop stopped at a
    record, having collected one result for each record with content
    before it, or it went through all records and the summary of the
    results could not be computed. *)
Theorem one_result_per_record_with_content fs w :
  Z.of_nat (List.length fs) <= MAX_FILES_PER_ANALYSIS cfg ->
  match fst (analyze_files fs w) with
  | Ok report =>
      Forall2 (fun d f =>
                 exists w0 d0,
                   fst (analyze (fi_content f) (fi_path f) [] w0) = PyDict d0
                   /\ d = dict_set d0 k_file_path (PyStr (fi_path f)))
              (files report) (filter has_content fs)
      /\ List.length (files report) = List.length (filter has_content fs)
      /\ total_files (summary report)
         = Z.of_nat (List.length (filter has_content fs))
  | Raise e =>
      (exists before f after collected t w1 w2 d,
          fs = before ++ f :: after
          /\ loop before [] (NInt 0) w = (Ok (collected, t), w1)
          /\ List.length collected = List.length (filter has_content before)
          /\ str_truthy (fi_content f) = true
          /\ analyze (fi_content f) (fi_path f) [] w1 = (PyDict d, w2)
          /\ bind (as_num (score_of d)) (py_add t) = Raise e
          /\ analyze_files fs w = (Raise e, w2))
      \/ (exists results t w',
            loop fs [] (NInt 0) w = (Ok (results, t), w')
            /\ List.length results = List.length (filter has_content fs)
            /\ aggregate results = Raise e)
  end.
Proof.
  intros Hcap.
  destruct (fst (analyze_files fs w)) as [report|e] eqn:E.
  - destruct (returned_report _ _ _ E) as (Ha & Hall & _).
    rewrite slice_to_all in Hall by exact Hcap.
    pose proof (results_length _ _ Hall) as Hlen.
    split; [exact Hall|]. split; [exact Hlen|].
    destruct (aggregate_fields _ _ Ha) as (Ht & _). now rewrite Ht, Hlen.
  - pose proof (analyze_files_of_loop fs w) as H.
    rewrite slice_to_all in H by exact Hcap.
    destruct (loop fs [] (NInt 0) w) as [[[results t]|e1] w'] eqn:El.
    + right. exists results, t, w'. split; [reflexivity|].
      destruct (analyze_loop_returns _ _ _ _ _ _ _ El) as (new & En & _ & Hall).
      simpl in En. subst new.
      split; [now apply results_length|].
      rewrite H in E. simpl in E.
      destruct (aggregate results); simpl in E; congruence.
    + left. rewrite H in E. simpl in E. injection E as ->.
      destruct (analyze_loop_raises _ _ _ _ _ _ El)
        as (before & f & after & collected & t & w1 & d
            & Ef & Hl & Hc & Ha & Hr).
      exists before, f, after, collected, t, w1, w', d.
      split; [exact Ef|]. split; [exact Hl|].
      destruct (analyze_loop_returns _ _ _ _ _ _ _ Hl) as (new & En & _ & Hall).
      simpl in En. subst new.
      split; [now apply results_length|]. auto.
Qed.






(** *** Collection: what passes the filters *)

Local Notation le_size := (fun a b : remote_file => rf_size a <= rf_size b).

Lemma visit_item_invariant (P : remote_file -> Prop) :
  (forall name path size url,
      supported cfg name = true ->
      P {| rf_name := name; rf_path := path; rf_size := size;
           rf_download_url := url |}) ->
  forall it acc, Forall P acc -> Forall P (visit_item cfg it acc).
Proof.
  intros HP. fix IH 1.
  intros [name path size url|path [sub|]|path] acc Hacc; simpl; try assumption.
  - destruct (supported cfg name) eqn:E; [|assumption].
    apply Forall_app. split; [assumption|]. constructor; [|constructor].
    now apply HP.
  - revert acc Hacc.
    induction sub as [|x sub IHsub]; intros acc Hacc; simpl; [assumption|].
    apply IHsub. now apply IH.
Qed.

Lemma get_all_files_supported root :
  Forall (fun f => supported cfg (rf_name f) = true) (get_all_files cfg root).
Proof.
  destruct root as [contents|]; simpl; [|constructor].
  unfold recursive_get_files.
  assert (H : Forall (fun f => supported cfg (rf_name f) = true) (@nil remote_file))
    by constructor.
  revert H. generalize (@nil remote_file).
  induction contents as [|x contents IH]; intros acc Hacc; simpl; [assumption|].
  apply IH. apply visit_item_invariant; auto.
Qed.

Lemma insert_by_size_perm f l : Permutation (insert_by_size f l) (f :: l).
Proof.
  induction l as [|g l IH]; simpl; [apply Permutation_refl|].
  destruct (rf_size f <=? rf_size g); [apply Permutation_refl|].
  eapply Permutation_trans; [apply perm_skip, IH|apply perm_swap].
Qed.

Lemma sort_by_size_perm l : Permutation (sort_by_size l) l.
Proof.
  induction l as [|f l IH]; simpl; [constructor|].
  eapply Permutation_trans; [apply insert_by_size_perm|now apply perm_skip].
Qed.

Lemma insert_by_size_sorted f l :
  StronglySorted le_size l -> StronglySorted le_size (insert_by_size f l).
Proof.
  induction 1 as [|g l Hs IH Hall]; simpl.
  - constructor; constructor.
  - destruct (Z.leb_spec (rf_size f) (rf_size g)) as [Hle|Hgt].
    + constructor; [now constructor|].
      constructor; [exact Hle|].
      eapply Forall_impl; [|exact Hall]. simpl. intros. lia.
    + constructor; [exact IH|].
      eapply Permutation_Forall;
        [apply Permutation_sym, insert_by_size_perm|].
      constructor; [lia|exact Hall].
Qed.

Lemma sort_by_size_sorted l : StronglySorted le_size (sort_by_size l).
Proof.
  induction l as [|f l IH]; simpl; [constructor|].
  now apply insert_by_size_sorted.
Qed.

Lemma sorted_app_inv {A : Type} (R : A -> A -> Prop) (a b : list A) :
  StronglySorted R (a ++ b) ->
  StronglySorted R a /\ forall x y, In x a -> In y b -> R x y.
Proof.
  induction a as [|h a IH]; simpl; intros H.
  - split; [constructor|intros x y []].
  - inversion H as [|? ? Hs Hall]; subst.
    destruct (IH Hs) as [Ha Hab].
    apply Forall_app in Hall. destruct Hall as [Hha Hhb].
    split; [now constructor|].
    intros x y [<-|Hx] Hy; [|now apply Hab].
    rewrite Forall_forall in Hhb. now apply Hhb.
Qed.

Lemma valid_files_in max_files all_files f :
  In f (valid_files cfg max_files all_files) ->
  In f all_files /\ rf_size f <= MAX_FILE_SIZE cfg.
Proof.
  unfold valid_files. intros Hin.
  destruct (slice_to_prefix
              (sort_by_size (filter (fun f => rf_size f <=? MAX_FILE_SIZE cfg) all_files))
              (file_cap cfg max_files)) as [rest E].
  assert (H : In f (sort_by_size
                      (filter (fun f => rf_size f <=? MAX_FILE_SIZE cfg) all_files)))
    by (rewrite E; apply in_or_app; now left).
  apply (Permutation_in _ (sort_by_size_perm _)) in H.
  apply filter_In in H. destruct H as [H1 H2].
  split; [exact H1|now apply Z.leb_le].
Qed.

Lemma download_in repo fs : forall acc w fi,
  In fi (fst (download World github_contents repo fs acc w)) ->
  In fi acc
  \/ exists f, In f fs /\ fi_path fi = rf_path f
               /\ fi_meta fi = MetaSize (rf_size f).
Proof.
  induction fs as [|f rest IH]; intros acc w fi; simpl; [now left|].
  destruct (get_file_content World github_contents repo (rf_path f) w)
    as [content w1].
  intros Hin. apply IH in Hin. destruct Hin as [Hin|(g & Hg & Hp & Hm)].
  - destruct content as [c|]; [|now left].
    destruct (str_truthy c); [|now left].
    apply in_app_or in Hin. destruct Hin as [Hin|[<-|[]]]; [now left|].
    right. exists f. simpl. auto.
  - right. exists g. auto.
Qed.

Lemma endswith_app (prefix name ext : str) :
  str_endswith name ext = true -> str_endswith (prefix ++ name) ext = true.
Proof.
  unfold str_endswith. intros H.
  apply andb_true_iff in H. destruct H as [Hlen Heq].
  apply Nat.leb_le in Hlen.
  apply andb_true_iff. split.
  - apply Nat.leb_le. rewrite length_app. lia.
  - rewrite length_app, skipn_app.
    rewrite skipn_all2 by lia. simpl.
    replace (List.length prefix + List.length name - List.length ext
             - List.length prefix)%nat
      with (List.length name - List.length ext)%nat by lia.
    exact Heq.
Qed.

Lemma supported_app (prefix name : str) :
  supported cfg name = true -> supported cfg (prefix ++ name) = true.
Proof.
  unfold supported. intros H.
  apply existsb_exists in H. destruct H as (ext & Hin & He).
  apply existsb_exists. exists ext. split; [exact Hin|now apply endswith_app].
Qed.

Local Notation passes := (fun lf : local_file =>
  supported cfg (lf_path lf) = true /\ lf_size lf <= MAX_FILE_SIZE cfg).

Lemma files_here_pass prefix entries :
  Forall passes (files_here cfg prefix entries).
Proof.
  induction entries as [|[name size content|name children] rest IH]; simpl;
    [constructor| |exact IH].
  destruct (supported cfg name && (size <=? MAX_FILE_SIZE cfg)) eqn:E;
    [|exact IH].
  apply andb_true_iff in E. destruct E as [Hs Hz].
  constructor; [|exact IH]. simpl. split.
  - now apply supported_app.
  - now apply Z.leb_le.
Qed.

Lemma walk_entry_pass : forall e prefix,
  Forall passes (walk_entry cfg prefix e).
Proof.
  fix IH 1. intros [name size content|name children] prefix; simpl;
    [constructor|].
  destruct (is_excluded name); [constructor|].
  apply Forall_app. split; [apply files_here_pass|].
  induction children as [|c children IHc]; simpl; [constructor|].
  apply Forall_app. split; [apply IH|exact IHc].
Qed.

Lemma walk_project_pass top : Forall passes (walk_project cfg top).
Proof.
  unfold walk_project. apply Forall_app. split; [apply files_here_pass|].
  induction top as [|c top IH]; simpl; [constructor|].
  apply Forall_app. split; [apply walk_entry_pass|exact IH].
Qed.

Lemma all_file_paths_pass top : Forall passes (all_file_paths cfg top).
Proof.
  unfold all_file_paths.
  destruct (slice_to_prefix (walk_project cfg top) (MAX_FILES_PER_ANALYSIS cfg))
    as [rest E].
  pose proof (walk_project_pass top) as H. rewrite E in H.
  apply Forall_app in H. tauto.
Qed.

Lemma read_files_in paths fi :
  In fi (read_files paths) ->
  exists lf, In lf paths /\ fi_path fi = lf_path lf
             /\ fi_meta fi = MetaSize (lf_size lf).
Proof.
  induction paths as [|lf rest IH]; simpl; [intros []|].
  destruct (lf_content lf) as [c|].
  - intros [<-|Hin].
    + exists lf. simpl. auto.
    + destruct (IH Hin) as (g & Hg & H). exists g. auto.
  - intros Hin. destruct (IH Hin) as (g & Hg & H). exists g. auto.
Qed.

Lemma pr_collect_in repo entries : forall acc w fi,
  In fi (fst (pr_collect World github_contents cfg repo entries acc w)) ->
  In fi acc
  \/ exists e, In e entries /\ pr_filename e = fi_path fi
               /\ pr_status e <> u8 "removed"
               /\ supported cfg (pr_filename e) = true.
Proof.
  induction entries as [|e rest IH]; intros acc w fi; simpl; [now left|].
  destruct (str_eqb (pr_status e) (u8 "removed")) eqn:Er.
  { intros Hin. apply IH in Hin. destruct Hin as [Hin|(g & Hg & H)];
      [now left|right; exists g; auto]. }
  destruct (supported cfg (pr_filename e)) eqn:Es; simpl.
  2:{ intros Hin. apply IH in Hin. destruct Hin as [Hin|(g & Hg & H)];
      [now left|right; exists g; auto]. }
  destruct (get_file_content World github_contents repo (pr_filename e) w)
    as [content w1].
  intros Hin. apply IH in Hin. destruct Hin as [Hin|(g & Hg & H)];
    [|right; exists g; auto].
  assert (Hne : pr_status e <> u8 "removed").
  { intros Heq. apply str_eqb_eq in Heq. congruence. }
  destruct content as [c|]; [|now left].
  destruct (str_truthy c); [|now left].
  apply in_app_or in Hin. destruct Hin as [Hin|[<-|[]]]; [now left|].
  right. exists e. simpl. auto.
Qed.

(** C6, amended. In remote mode every record passed on comes from a
    listed file whose name ends with a configured extension and whose size
    is at most [MAX_FILE_SIZE]; in local mode every record has a path that
    ends with a configured extension and a size of at most
    [MAX_FILE_SIZE]; in pull-request mode every record comes from an entry
    that is not removed and whose file name ends with a configured
    extension. *)
Theorem collected_files_pass_filters :
  (forall root repo max_files w fi,
      In fi (fst (download World github_contents repo
                    (valid_files cfg max_files (get_all_files cfg root)) [] w)) ->
      exists f,
        In f (get_all_files cfg root)
        /\ fi_path fi = rf_path f /\ fi_meta fi = MetaSize (rf_size f)
        /\ supported cfg (rf_name f) = true
        /\ rf_size f <= MAX_FILE_SIZE cfg)
  /\ (forall top fi,
        In fi (read_files (all_file_paths cfg top)) ->
        supported cfg (fi_path fi) = true
        /\ exists size, fi_meta fi = MetaSize size /\ size <= MAX_FILE_SIZE cfg)
  /\ (forall repo entries w fi,
        In fi (fst (pr_collect World github_contents cfg repo entries [] w)) ->
        supported cfg (fi_path fi) = true
        /\ exists e, In e entries /\ pr_filename e = fi_path fi
                     /\ pr_status e <> u8 "removed").
Proof.
  split; [|split].
  - intros root repo max_files w fi Hin.
    apply download_in in Hin. destruct Hin as [[]|(f & Hf & Hp & Hm)].
    apply valid_files_in in Hf. destruct Hf as [Hall Hsize].
    exists f. repeat split; auto.
    pose proof (get_all_files_supported root) as Hs.
    rewrite Forall_forall in Hs. now apply Hs.
  - intros top fi Hin.
    apply read_files_in in Hin. destruct Hin as (lf & Hlf & Hp & Hm).
    pose proof (all_file_paths_pass top) as Hs.
    rewrite Forall_forall in Hs. destruct (Hs lf Hlf) as [H1 H2].
    rewrite Hp. split; [exact H1|]. exists (lf_size lf). auto.
  - intros repo entries w fi Hin.
    apply pr_collect_in in Hin. destruct Hin as [[]|(e & He & Hp & Hr & Hs)].
    rewrite <- Hp. split; [exact Hs|]. exists e. auto.
Qed.

(** *** Collection: order and cut *)

Lemma pr_collect_sublist repo entries : forall acc w,
  exists tail,
    map fi_path (fst (pr_collect World github_contents cfg repo entries acc w))
    = map fi_path acc ++ tail
    /\ sublist tail (map pr_filename entries).
Proof.
  induction entries as [|e rest IH]; intros acc w; simpl.
  - exists []. rewrite app_nil_r. split; [reflexivity|constructor].
  - destruct (str_eqb (pr_status e) (u8 "removed")).
    { destruct (IH acc w) as (tail & E & S). exists tail.
      split; [exact E|now constructor]. }
    destruct (supported cfg (pr_filename e)); simpl.
    2:{ destruct (IH acc w) as (tail & E & S). exists tail.
        split; [exact E|now constructor]. }
    destruct (get_file_content World github_contents repo (pr_filename e) w)
      as [[c|] w1].
    + destruct (str_truthy c).
      * destruct (IH (acc ++ [{| fi_path := pr_filename e; fi_content := c;
                                 fi_meta := MetaChanges (pr_changes e)
                                              (pr_additions e) (pr_deletions e) |}])
                     w1) as (tail & E & S).
        exists (pr_filename e :: tail). split; [|now constructor].
        rewrite E, map_app, <- app_assoc. reflexivity.
      * destruct (IH acc w1) as (tail & E & S). exists tail.
        split; [exact E|now constructor].
    + destruct (IH acc w1) as (tail & E & S). exists tail.
      split; [exact E|now constructor].
Qed.

(** The entries of a pull request that pass the two tests of the loop,
    and the record made of one of them with what was fetched for it. *)
Local Notation pr_kept := (fun e : pr_file =>
  negb (str_eqb (pr_status e) (u8 "removed")) && supported cfg (pr_filename e)).
Local Notation pr_record := (fun ec : pr_file * option str =>
  match snd ec with
  | Some c =>
      if str_truthy c
      then [{| fi_path := pr_filename (fst ec); fi_content := c;
               fi_meta := MetaChanges (pr_changes (fst ec))
                            (pr_additions (fst ec)) (pr_deletions (fst ec)) |}]
      else []
  | None => []
  end).

Lemma fetch_all_length repo paths : forall w,
  List.length (fst (fetch_all World github_contents repo paths w))
  = List.length paths.
Proof.
  induction paths as [|path rest IH]; intros w; cbn [fetch_all];
    [reflexivity|].
  destruct (get_file_content World github_contents repo path w) as [c w1].
  specialize (IH w1).
  destruct (fetch_all World github_contents repo rest w1) as [cs w2].
  cbn [fst List.length] in *. now rewrite IH.
Qed.

(** The loop over a pull request fetches the content of every entry that
    passes the two tests, in the order of the listing, and makes a record
    of each content that is not empty, however many there are. *)
Lemma pr_collect_fetched repo entries : forall acc w,
  pr_collect World github_contents cfg repo entries acc w
  = (acc ++ flat_map pr_record
              (combine (filter pr_kept entries)
                 (fst (fetch_all World github_contents repo
                         (map pr_filename (filter pr_kept entries)) w))),
     snd (fetch_all World github_contents repo
            (map pr_filename (filter pr_kept entries)) w)).
Proof.
  induction entries as [|e rest IH]; intros acc w;
    cbn [pr_collect filter].
  - cbn [map fetch_all combine flat_map fst snd]. now rewrite app_nil_r.
  - destruct (str_eqb (pr_status e) (u8 "removed")); cbn [negb andb];
      [apply IH|].
    destruct (supported cfg (pr_filename e)); cbn [negb]; [|apply IH].
    cbn [map fetch_all].
    destruct (get_file_content World github_contents repo (pr_filename e) w)
      as [content w1].
    rewrite IH.
    destruct (fetch_all World github_contents repo
                (map pr_filename (filter pr_kept rest)) w1) as [cs w2].
    cbn [fst snd combine flat_map].
    destruct content as [c|]; [|reflexivity].
    destruct (str_truthy c); [|reflexivity].
    now rewrite <- app_assoc.
Qed.

(** C1, amended. In remote mode the files within the size limit are sorted
    by ascending size and then cut to [max_files] when it is given and
    not zero, else to [MAX_FILES_PER_ANALYSIS]: the files kept are in
    ascending order of size and none of them is larger than a file left
    out. In local mode the filtered paths are only cut: the paths kept
    are the first paths of the walk, in its order, as many as
    [MAX_FILES_PER_ANALYSIS] allows. In pull-request mode nothing is
    sorted or cut: the content of every entry that is not removed and has
    a configured extension is fetched, in the order of the listing, and
    every content that is not empty gives a record. *)
Theorem capping_by_mode :
  (forall max_files all_files,
      let candidates :=
        filter (fun f => rf_size f <=? MAX_FILE_SIZE cfg) all_files in
      let kept := valid_files cfg max_files all_files in
      StronglySorted le_size kept
      /\ (exists dropped,
            Permutation (kept ++ dropped) candidates
            /\ forall a b, In a kept -> In b dropped -> rf_size a <= rf_size b)
      /\ (0 <= file_cap cfg max_files ->
          Z.of_nat (List.length kept)
          = Z.min (file_cap cfg max_files) (Z.of_nat (List.length candidates))))
  /\ (file_cap cfg None = MAX_FILES_PER_ANALYSIS cfg
      /\ file_cap cfg (Some 0) = MAX_FILES_PER_ANALYSIS cfg
      /\ forall n, n <> 0 -> file_cap cfg (Some n) = n)
  /\ (forall top,
        (exists dropped,
            walk_project cfg top = all_file_paths cfg top ++ dropped)
        /\ (0 <= MAX_FILES_PER_ANALYSIS cfg ->
            all_file_paths cfg top
            = firstn (Z.to_nat (MAX_FILES_PER_ANALYSIS cfg))
                (walk_project cfg top)
            /\ Z.of_nat (List.length (all_file_paths cfg top))
               = Z.min (MAX_FILES_PER_ANALYSIS cfg)
                       (Z.of_nat (List.length (walk_project cfg top)))))
  /\ (forall repo entries w,
        let kept := filter pr_kept entries in
        let contents :=
          fst (fetch_all World github_contents repo (map pr_filename kept) w) in
        let records :=
          fst (pr_collect World github_contents cfg repo entries [] w) in
        List.length contents = List.length kept
        /\ records = flat_map pr_record (combine kept contents)
        /\ sublist (map fi_path records) (map pr_filename entries)).
Proof.
  split; [|split; [|split]].
  - intros max_files all_files candidates kept.
    destruct (slice_to_prefix (sort_by_size candidates) (file_cap cfg max_files))
      as [dropped E].
    change (sort_by_size candidates = kept ++ dropped) in E.
    pose proof (sort_by_size_sorted candidates) as Hs. rewrite E in Hs.
    apply sorted_app_inv in Hs. destruct Hs as [Hk Hle].
    split; [exact Hk|]. split.
    + exists dropped. split; [|exact Hle].
      rewrite <- E. apply sort_by_size_perm.
    + intros Hcap. unfold kept, valid_files. fold candidates.
      rewrite slice_to_length by exact Hcap.
      now rewrite (Permutation_length (sort_by_size_perm candidates)).
  - unfold file_cap. repeat split.
    intros n Hn. destruct (Z.eqb_spec n 0); [contradiction|reflexivity].
  - intros top. split.
    + apply slice_to_prefix.
    + intros Hcap. unfold all_file_paths.
      split; [now apply slice_to_firstn|now apply slice_to_length].
  - intros repo entries w kept contents records.
    split; [unfold contents; now rewrite fetch_all_length, length_map|].
    split.
    + unfold records. now rewrite pr_collect_fetched.
    + unfold records.
      destruct (pr_collect_sublist repo entries [] w) as (tail & E & S).
      rewrite E. exact S.
Qed.

End Properties.

(* ================================================================== *)
(** ** The properties on concrete runs *)

(** C1, counterexample. Five local files of sizes 50, 10, 30, 90 and 20
    with a maximum of three files: local mode keeps the first three of the
    walk, 50, 10 and 30, not the three smallest. *)
Lemma local_cap_keeps_walk_order :
  map lf_size (walk_project cap3_config five_local) = [50; 10; 30; 90; 20]
  /\ MAX_FILES_PER_ANALYSIS cap3_config = 3
  /\ map lf_size (all_file_paths cap3_config five_local) = [50; 10; 30]
  /\ map fi_path (read_files (all_file_paths cap3_config five_local))
     = [u8 "a.py"; u8 "b.py"; u8 "c.py"]
  /\ map lf_size (all_file_paths cap3_config five_local) <> [10; 20; 30].
Proof.
  repeat split; try (vm_compute; reflexivity).
  vm_compute. discriminate.
Qed.

(** C1, witness. The same five sizes in remote mode with [max_files = 3]:
    the files kept are 10, 20 and 30, in that order. *)
Lemma remote_cap_keeps_smallest :
  map rf_size (valid_files default_config (Some 3) five_remote) = [10; 20; 30]
  /\ StronglySorted (fun a b => rf_size a <= rf_size b)
       (valid_files default_config (Some 3) five_remote)
  /\ Z.of_nat (List.length (valid_files default_config (Some 3) five_remote))
     = Z.min 3 5.
Proof.
  destruct (capping_by_mode script no_contents default_config) as [H _].
  destruct (H (Some 3) five_remote) as (Hs & _ & Hl).
  split; [vm_compute; reflexivity|].
  split; [exact Hs|].
  apply Hl. vm_compute. discriminate.
Defined.



(** C3, counterexample. After a failed request the record's improvements
    are not empty: they hold the note that the analysis failed. *)
Lemma failure_record_keeps_a_note :
  fst (analyze_code script scripted_post (u8 "x = 1") (u8 "a.py") []
         [RequestException])
  = PyDict _create_empty_result
  /\ dict_get _create_empty_result k_improvements
     = Some (PyList [PyStr (u8 "분석 실패")])
  /\ dict_get _create_empty_result k_improvements <> Some (PyList []).
Proof.
  repeat split; try (vm_compute; reflexivity).
  vm_compute. discriminate.
Qed.

(** C3, witness. The first of two files fails, the second is answered: the
    loop goes on and ends with two results. *)
Lemma failed_call_then_next_file :
  str_truthy (fi_content file_a) = true
  /\ _call_ollama script scripted_post
       (build_prompt (_detect_language (fi_path file_a)) (fi_path file_a)
          (fi_content file_a))
       [RequestException; answers (score_only "8")]
     = (None, [answers (score_only "8")])
  /\ analyze_loop script scripted_post [file_a; file_b] [] (NInt 0)
       [RequestException; answers (score_only "8")]
     = analyze_loop script scripted_post [file_b]
         [dict_set _create_empty_result k_file_path (PyStr (fi_path file_a))]
         (NFloat f0_0) [answers (score_only "8")]
  /\ match fst (analyze_loop script scripted_post [file_a; file_b] [] (NInt 0)
                  [RequestException; answers (score_only "8")]) with
     | Ok (results, _) => List.length results = 2%nat
     | Raise _ => False
     end.
Proof.
  assert (H1 : str_truthy (fi_content file_a) = true) by reflexivity.
  assert (H2 : _call_ollama script scripted_post
                 (build_prompt (if str_truthy (@nil N) then @nil N
                                else _detect_language (fi_path file_a))
                    (fi_path file_a) (fi_content file_a))
                 [RequestException; answers (score_only "8")]
               = (None, [answers (score_only "8")])) by reflexivity.
  pose proof (failed_call_gives_failure_record script scripted_post
                file_a [file_b] [] (NInt 0)
                [RequestException; answers (score_only "8")]
                [answers (score_only "8")] H1 H2) as H.
  destruct H as (_ & _ & _ & _ & _ & _ & _ & Hloop & _).
  split; [exact H1|]. split; [exact H2|]. split; [exact Hloop|].
  vm_compute. reflexivity.
Defined.

(** C3, the other outcome. A first file is answered with an [int] score
    of 401 digits, which no float holds: at the failed call for the second
    file the addition of 0.0 to that total raises [OverflowError], the
    batch ends there and the third file is not analysed. *)
Lemma failed_call_after_a_huge_score :
  analyze_multiple_files script scripted_post default_config
    [file_a; file_b; file_c]
    [answers huge_score_json; RequestException; answers (score_only "8")]
  = (Raise OverflowError, [answers (score_only "8")]).
Proof. vm_compute. reflexivity. Qed.

(** C4, witness. [so: {} ok] has both braces, the first [{] before the
    last [}]: what lies from the one to the other is decoded, to the empty
    mapping. *)
Lemma parse_between_prose :
  In lbrace (u8 "so: {} ok")
  /\ In rbrace (u8 "so: {} ok")
  /\ (exists pre mid post,
        u8 "so: {} ok" = pre ++ lbrace :: mid ++ rbrace :: post
        /\ _parse_json_response (u8 "so: {} ok")
           = match json_loads (lbrace :: mid ++ [rbrace]) with
             | Some v => Ok v
             | None => Raise ValueError
             end)
  /\ _parse_json_response (u8 "so: {} ok") = Ok (PyDict []).
Proof.
  assert (H1 : In lbrace (u8 "so: {} ok")) by (cbv; intuition).
  assert (H2 : In rbrace (u8 "so: {} ok")) by (cbv; intuition).
  split; [exact H1|]. split; [exact H2|].
  split; [|vm_compute; reflexivity].
  destruct (proj1 parse_json_response_first_to_last _ H1 H2)
    as [(pre & mid & post & E & _ & _ & Hp)|(a & b & c & _ & _ & _ & Hf)].
  - exists pre, mid, post. split; assumption.
  - exfalso. vm_compute in Hf. discriminate Hf.
Defined.

(** C5, counterexample. The service answers 200 with an empty text:
    extraction fails on it, yet the result is the failure record, with
    score 0.0 and no raw response, not a fallback record. *)
Lemma empty_text_is_a_failure :
  fst (_call_ollama script scripted_post
         (build_prompt (u8 "python") (u8 "a.py") (u8 "x = 1")) [answers []])
  = Some []
  /\ _parse_json_response [] = Raise ValueError
  /\ fst (analyze_code script scripted_post (u8 "x = 1") (u8 "a.py") []
            [answers []])
     = PyDict _create_empty_result
  /\ dict_get _create_empty_result k_overall_score = Some (PyFloat f0_0)
  /\ dict_get _create_empty_result k_raw_response = None
  /\ _create_empty_result <> _create_fallback_result [].
Proof.
  repeat split; try (vm_compute; reflexivity).
  vm_compute. discriminate.
Qed.

(** C5, witness. A plain sentence as response gives the fallback record
    with the sentence as raw response. *)
Lemma fallback_for_a_sentence :
  _call_ollama script scripted_post
    (build_prompt (_detect_language (u8 "a.py")) (u8 "a.py") (u8 "x = 1"))
    [answers (u8 "I cannot review this file.")]
  = (Some (u8 "I cannot review this file."), [])
  /\ u8 "I cannot review this file." <> []
  /\ (forall v, _parse_json_response (u8 "I cannot review this file.") <> Ok v)
  /\ exists d,
       analyze_code script scripted_post (u8 "x = 1") (u8 "a.py") []
         [answers (u8 "I cannot review this file.")]
       = (PyDict d, [])
       /\ dict_get d k_overall_score = Some (PyFloat f5_0)
       /\ dict_get d k_raw_response
          = Some (PyStr (u8 "I cannot review this file.")).
Proof.
  assert (H1 : _call_ollama script scripted_post
                 (build_prompt (if str_truthy (@nil N) then @nil N
                                else _detect_language (u8 "a.py"))
                    (u8 "a.py") (u8 "x = 1"))
                 [answers (u8 "I cannot review this file.")]
               = (Some (u8 "I cannot review this file."), [])) by reflexivity.
  assert (H2 : u8 "I cannot review this file." <> [])
    by (vm_compute; discriminate).
  assert (H3 : forall v,
             _parse_json_response (u8 "I cannot review this file.") <> Ok v)
    by (intros v; vm_compute; discriminate).
  split; [exact H1|]. split; [exact H2|]. split; [exact H3|].
  destruct (fallback_for_unparsed_text script scripted_post
              (u8 "x = 1") (u8 "a.py") [] _ _ _ H1 H2 H3)
    as (d & Ha & Hs & _ & _ & _ & Hr & _ & Hall).
  exists d. split; [exact Ha|]. split; [exact Hs|].
  rewrite Hr. rewrite Hall; [reflexivity|].
  vm_compute. repeat constructor.
Defined.

(** C6, counterexample. A changed file of a pull request whose content is
    longer than [MAX_FILE_SIZE] is passed on to the analysis. *)
Lemma pull_request_file_over_size_limit :
  map fi_path
    (fst (pr_collect script (same_contents big_text) default_config (u8 "o/r")
            [big_pr_entry] [] []))
  = [u8 "big.py"]
  /\ map fi_content
       (fst (pr_collect script (same_contents big_text) default_config (u8 "o/r")
               [big_pr_entry] [] []))
     = [big_text]
  /\ MAX_FILE_SIZE default_config < str_len big_text.
Proof.
  repeat split; vm_compute; reflexivity.
Qed.

(** C6, witness. The first of the five local files is passed on: its path
    ends with a configured extension and its size is within the limit. *)
Lemma local_record_passes_filters :
  In {| fi_path := u8 "a.py"; fi_content := u8 "pass"; fi_meta := MetaSize 50 |}
     (read_files (all_file_paths default_config five_local))
  /\ supported default_config (u8 "a.py") = true
  /\ exists size, MetaSize 50 = MetaSize size
                  /\ size <= MAX_FILE_SIZE default_config.
Proof.
  assert (Hin : In {| fi_path := u8 "a.py"; fi_content := u8 "pass";
                      fi_meta := MetaSize 50 |}
                   (read_files (all_file_paths default_config five_local)))
    by (vm_compute; left; reflexivity).
  split; [exact Hin|].
  destruct (collected_files_pass_filters script no_contents default_config)
    as (_ & Hlocal & _).
  exact (Hlocal five_local _ Hin).
Defined.

(** C7, counterexample. The model answers with a score of 42: the report
    carries that score, outside the range; answered without a score, the
    report carries none. *)
Lemma decoded_score_out_of_range :
  match fst (analyze_multiple_files script scripted_post default_config
               [file_a; file_b]
               [answers (score_only "42"); answers no_score_json]) with
  | Ok report =>
      map (fun d => dict_get d k_overall_score) (files report)
      = [Some (PyInt 42); None]
      /\ score_in_range (PyInt 42) = false
  | Raise _ => False
  end.
Proof.
  vm_compute. split; reflexivity.
Qed.

(** C8, counterexample. A local project with an empty [__init__.py] and one
    other file: two records are read, within the maximum, and the report
    has one result. *)
Lemma empty_file_gets_no_result :
  read_files
    (all_file_paths default_config
       [FsFile (u8 "__init__.py") 0 (Some []);
        FsFile (u8 "a.py") 5 (Some (u8 "x = 1"))])
  = [file_empty; file_a]
  /\ Z.of_nat (List.length [file_empty; file_a])
     <= MAX_FILES_PER_ANALYSIS default_config
  /\ match fst (analyze_local_project script scripted_post default_config
                  (Some [FsFile (u8 "__init__.py") 0 (Some []);
                         FsFile (u8 "a.py") 5 (Some (u8 "x = 1"))])
                  true [] [] [answers (score_only "8")]) with
     | Ok (Some report) =>
         List.length (files report) = 1%nat
         /\ total_files (summary report) = 1
         /\ List.length (files report) <> List.length [file_empty; file_a]
     | _ => False
     end.
Proof.
  split; [vm_compute; reflexivity|].
  split; [vm_compute; discriminate|].
  vm_compute. repeat split. discriminate.
Qed.

(** C8, witness. Three records, the second one empty: two results, for
    the first and for the third record. *)
Lemma two_results_for_three_records :
  Z.of_nat (List.length [file_a; file_empty; file_b])
  <= MAX_FILES_PER_ANALYSIS default_config
  /\ match fst (analyze_multiple_files script scripted_post default_config
                  [file_a; file_empty; file_b]
                  [answers (score_only "8"); RequestException]) with
     | Ok report =>
         List.length (files report) = 2%nat
         /\ total_files (summary report) = 2
         /\ map (fun d => dict_get d k_file_path) (files report)
            = [Some (PyStr (u8 "a.py")); Some (PyStr (u8 "b.py"))]
     | Raise _ => False
     end.
Proof.
  assert (H : Z.of_nat (List.length [file_a; file_empty; file_b])
              <= MAX_FILES_PER_ANALYSIS default_config)
    by (vm_compute; discriminate).
  split; [exact H|].
  generalize (one_result_per_record_with_content script scripted_post
                default_config [file_a; file_empty; file_b]
                [answers (score_only "8"); RequestException] H).
  destruct (fst (analyze_multiple_files script scripted_post default_config
                   [file_a; file_empty; file_b]
                   [answers (score_only "8"); RequestException]))
    as [report|e] eqn:E.
  - intros (_ & Hlen & Ht).
    split; [exact Hlen|]. split; [exact Ht|].
    vm_compute in E. injection E as <-. reflexivity.
  - vm_compute in E. discriminate E.
Defined.

(** C9, counterexample. The model answers with a mapping that has an
    [error] key: the call did not fail and the text parsed, yet the result
    has [error]. *)
Lemma decoded_mapping_with_error_key :
  fst (_call_ollama script scripted_post
         (build_prompt (u8 "python") (u8 "a.py") (u8 "x = 1"))
         [answers error_key_json])
  = Some error_key_json
  /\ _parse_json_response error_key_json
     = Ok (PyDict [(k_overall_score, PyInt 7); (k_error, PyStr (u8 "x"))])
  /\ fst (analyze_code script scripted_post (u8 "x = 1") (u8 "a.py") []
            [answers error_key_json])
     = PyDict [(k_overall_score, PyInt 7); (k_error, PyStr (u8 "x"))]
  /\ dict_has [(k_overall_score, PyInt 7); (k_error, PyStr (u8 "x"))] k_error
     = true
  /\ [(k_overall_score, PyInt 7); (k_error, PyStr (u8 "x"))]
     <> _create_empty_result.
Proof.
  repeat split; try (vm_compute; reflexivity).
  vm_compute. discriminate.
Qed.


(* ================================================================== *)
(** ** Splitting and joining *)

Lemma str_split_cons (s : str) (sep : N) :
  exists field fields, str_split s sep = field :: fields.
Proof.
  destruct s as [|c s]; simpl; [eauto|].
  destruct (c =? sep)%N; [eauto|].
  destruct (str_split s sep); eauto.
Qed.

Lemma str_join_cons (sep p : str) (q : str) (rest : list str) :
  str_join sep (p :: q :: rest) = p ++ sep ++ str_join sep (q :: rest).
Proof. reflexivity. Qed.

Lemma str_split_join (s : str) (sep : N) :
  str_join [sep] (str_split s sep) = s.
Proof.
  induction s as [|c s IH]; simpl; [reflexivity|].
  destruct (N.eqb_spec c sep) as [->|Hne].
  - destruct (str_split_cons s sep) as (f & fs & E). rewrite E in *.
    rewrite str_join_cons. cbn [app]. now rewrite IH.
  - destruct (str_split_cons s sep) as (f & fs & E). rewrite E in *.
    destruct fs as [|g fs]; simpl in *; now rewrite <- IH.
Qed.

Lemma str_split_no_sep (s : str) (sep : N) :
  Forall (fun field => ~ In sep field) (str_split s sep).
Proof.
  induction s as [|c s IH]; simpl.
  - constructor; [intros []|constructor].
  - destruct (N.eqb_spec c sep) as [->|Hne].
    + constructor; [intros []|exact IH].
    + destruct (str_split s sep) as [|f fs].
      * constructor; [|constructor]. intros [H|[]]. congruence.
      * inversion IH; subst. constructor; [|assumption].
        intros [H|H]; [congruence|contradiction].
Qed.

Lemma str_split_length (s : str) (sep : N) :
  List.length (str_split s sep) = S (count_occ N.eq_dec s sep).
Proof.
  induction s as [|c s IH]; simpl; [reflexivity|].
  destruct (N.eqb_spec c sep) as [->|Hne].
  - destruct (N.eq_dec sep sep); [|congruence]. simpl. now rewrite IH.
  - destruct (N.eq_dec c sep); [congruence|].
    destruct (str_split s sep); simpl in *; lia.
Qed.

(** A text without separator is one field. *)
Lemma str_split_one (s : str) (sep : N) :
  ~ In sep s -> str_split s sep = [s].
Proof.
  induction s as [|c s IH]; simpl; intros H; [reflexivity|].
  destruct (N.eqb_spec c sep) as [->|Hne]; [exfalso; apply H; now left|].
  rewrite IH by (intros Hin; apply H; now right). reflexivity.
Qed.

(** The fields of [a ++ sep :: b] are those of [a], then those of [b]:
    the last field of [a] and the first of [b] stay apart. *)
Lemma str_split_app (a b : str) (sep : N) :
  str_split (a ++ sep :: b) sep = str_split a sep ++ str_split b sep.
Proof.
  induction a as [|c a IH]; simpl.
  - now rewrite N.eqb_refl.
  - destruct (N.eqb_spec c sep) as [->|Hne]; simpl; [now rewrite IH|].
    rewrite IH.
    destruct (str_split_cons a sep) as (f & fs & E). rewrite E. reflexivity.
Qed.

Lemma str_join_app (sep : str) (xs : list str) (y : str) :
  xs <> [] -> str_join sep (xs ++ [y]) = str_join sep xs ++ sep ++ y.
Proof.
  induction xs as [|x xs IH]; [congruence|]. intros _.
  destruct xs as [|x' xs]; [reflexivity|].
  change ((x :: x' :: xs) ++ [y]) with (x :: (x' :: xs) ++ [y]).
  simpl app at 1. rewrite str_join_cons.
  change (x' :: xs ++ [y]) with ((x' :: xs) ++ [y]).
  rewrite IH by discriminate.
  rewrite str_join_cons. now rewrite <- !app_assoc.
Qed.

Lemma slice_all_but_last {A : Type} (l : list A) :
  slice l 0 (-1) = removelast l.
Proof.
  rewrite removelast_firstn_len.
  unfold slice, clamp.
  change (0 <? 0) with false. change (-1 <? 0) with true. cbv iota.
  rewrite Z.min_l by lia. simpl skipn.
  f_equal. lia.
Qed.
(* ================================================================== *)
(** ** config.py: the extensions of the environment *)

Lemma endswith_empty (name : str) : str_endswith name [] = true.
Proof.
  unfold str_endswith. simpl List.length. rewrite Nat.sub_0_r, skipn_all.
  reflexivity.
Qed.

Lemma empty_extension_supports (cfg : Config) (name : str) :
  In [] (SUPPORTED_EXTENSIONS cfg) -> supported cfg name = true.
Proof.
  intros H. unfold supported. apply existsb_exists.
  exists []. split; [exact H|apply endswith_empty].
Qed.

(** X1. The extensions are the fields of the variable between its commas:
    joined with commas they give the value back, none of them holds a
    comma, and there is one more of them than there are commas; without
    the variable they are the eleven extensions of the default. *)
Theorem extensions_are_the_fields_of_the_variable :
  env_supported_extensions None = SUPPORTED_EXTENSIONS default_config
  /\ forall v : str,
       str_join [comma] (env_supported_extensions (Some v)) = v
       /\ Forall (fun ext => ~ In comma ext) (env_supported_extensions (Some v))
       /\ List.length (env_supported_extensions (Some v))
          = S (count_occ N.eq_dec v comma).
Proof.
  split; [vm_compute; reflexivity|].
  intros v. unfold env_supported_extensions.
  split; [apply str_split_join|].
  split; [apply str_split_no_sep|apply str_split_length].
Qed.

(** X2. An empty field in the variable, which an empty value, a comma at
    either end or two commas in a row leave, is an extension every name
    ends with: the extension filter then lets every file through. *)
Theorem empty_extension_admits_every_file (cfg : Config) (name : str) :
  supported (with_extensions cfg (Some [])) name = true
  /\ (forall b, supported (with_extensions cfg (Some (comma :: b))) name = true)
  /\ (forall a, supported (with_extensions cfg (Some (a ++ [comma]))) name = true)
  /\ (forall a b,
        supported (with_extensions cfg (Some (a ++ comma :: comma :: b))) name
        = true).
Proof.
  split; [|split; [|split]]; intros; apply empty_extension_supports;
    unfold with_extensions, env_supported_extensions;
    cbn [SUPPORTED_EXTENSIONS].
  - now left.
  - simpl. now left.
  - rewrite str_split_app. apply in_or_app. right. now left.
  - rewrite str_split_app. apply in_or_app. right.
    simpl. now left.
Qed.

(* ================================================================== *)
(** ** main.py: the argument of [--pr] *)

Lemma str_join_has_sep (sep : N) (p q : str) (rest : list str) :
  In sep (str_join [sep] (p :: q :: rest)).
Proof.
  rewrite str_join_cons. apply in_or_app. right. now left.
Qed.

(** X3. An argument with at least two slashes is cut at its last slash:
    the repository is all that stands before it, itself with a slash, and
    the number text all that stands after it; an argument with fewer than
    two slashes is refused. *)
Theorem pr_argument_is_cut_at_the_last_slash (pr : str) :
  match pr_argument pr with
  | Some (repo, number) =>
      pr = repo ++ slash :: number /\ ~ In slash number /\ In slash repo
  | None => (count_occ N.eq_dec pr slash < 2)%nat
  end.
Proof.
  unfold pr_argument.
  pose proof (str_split_length pr slash) as Hlen.
  pose proof (str_split_join pr slash) as Hjoin.
  pose proof (str_split_no_sep pr slash) as Hsep.
  destruct (Z.leb_spec 3 (Z.of_nat (List.length (str_split pr slash)))) as [H|H];
    [|lia].
  rewrite slice_all_but_last.
  set (parts := str_split pr slash) in *. clearbody parts.
  assert (Hne : parts <> []) by (intros E; rewrite E in H; simpl in H; lia).
  pose proof (app_removelast_last [] Hne) as E.
  assert (Hrl : exists p q rest, removelast parts = p :: q :: rest).
  { pose proof (f_equal (@List.length _) E) as E'.
    rewrite length_app in E'. simpl in E'.
    unfold str in *.
    destruct (removelast parts) as [|p [|q rest]]; simpl in E'; try lia.
    eauto. }
  destruct Hrl as (p & q & rest & Er).
  split; [|split].
  - rewrite <- Hjoin at 1. rewrite E at 1.
    rewrite str_join_app; [reflexivity|].
    intros E0. unfold str in *. congruence.
  - rewrite Forall_forall in Hsep. apply Hsep.
    rewrite E at 2. apply in_or_app. right. now left.
  - unfold str in *. rewrite Er. apply str_join_has_sep.
Qed.

(* ================================================================== *)
(** ** report_generator.py: where the report files go *)





(* ================================================================== *)
(** ** llm_analyzer.py: the language of a file *)

Lemma endswith_skipn (s x : str) :
  str_endswith s x = true ->
  (List.length x <= List.length s)%nat
  /\ skipn (List.length s - List.length x) s = x.
Proof.
  unfold str_endswith. intros H.
  apply andb_true_iff in H. destruct H as [Hl He].
  apply Nat.leb_le in Hl. apply str_eqb_eq in He. auto.
Qed.

Lemma endswith_refl (x : str) : str_endswith x x = true.
Proof.
  unfold str_endswith. rewrite Nat.leb_refl, Nat.sub_diag. simpl.
  now apply str_eqb_eq.
Qed.

(** Two endings of one text: the shorter is an ending of the longer. *)
Lemma endswith_comparable (s a b : str) :
  str_endswith s a = true -> str_endswith s b = true ->
  (List.length b <= List.length a)%nat ->
  str_endswith a b = true.
Proof.
  intros Ha Hb Hlen.
  apply endswith_skipn in Ha. destruct Ha as [Hla Ea].
  apply endswith_skipn in Hb. destruct Hb as [Hlb Eb].
  unfold str_endswith. apply andb_true_iff. split; [now apply Nat.leb_le|].
  apply str_eqb_eq.
  rewrite <- Ea at 2. rewrite skipn_skipn.
  replace (List.length a - List.length b + (List.length s - List.length a))%nat
    with (List.length s - List.length b)%nat by lia.
  exact Eb.
Qed.

Lemma endswith_app_cases (stem ext ext' : str) :
  str_endswith (stem ++ ext) ext' = true ->
  str_endswith ext ext' = true \/ str_endswith ext' ext = true.
Proof.
  intros H.
  assert (He : str_endswith (stem ++ ext) ext = true)
    by (apply endswith_app, endswith_refl).
  destruct (Nat.le_ge_cases (List.length ext') (List.length ext)).
  - left. eapply endswith_comparable; eauto.
  - right. eapply endswith_comparable; eauto.
Qed.

Lemma detect_in_entry (m : list (str * str)) (ext lang stem : str) :
  In (ext, lang) m ->
  (forall ext' lang', In (ext', lang') m ->
     (ext' = ext /\ lang' = lang)
     \/ (str_endswith ext ext' = false /\ str_endswith ext' ext = false)) ->
  detect_in m (stem ++ ext) = lang.
Proof.
  induction m as [|[e0 l0] m IH]; intros Hin Hsep; [contradiction|].
  simpl. destruct (str_endswith (stem ++ ext) e0) eqn:E.
  - destruct (Hsep e0 l0 (or_introl eq_refl)) as [[_ ->]|[H1 H2]];
      [reflexivity|].
    apply endswith_app_cases in E. destruct E; congruence.
  - destruct Hin as [Hin|Hin].
    + injection Hin as -> ->.
      rewrite endswith_app in E by apply endswith_refl. discriminate.
    + apply IH; [exact Hin|].
      intros ext' lang' H'. apply Hsep. now right.
Qed.

(** X5. A path that ends with one of the extensions of the language map
    is given the language of that extension, whatever stands before it
    and whatever the order of the map: no extension of the map is the
    ending of another. *)
Theorem language_follows_the_extension :
  Forall (fun entry => forall stem : str,
            _detect_language (stem ++ fst entry) = snd entry)
         extension_map.
Proof.
  apply Forall_forall. intros [ext lang] Hin stem. simpl fst. simpl snd.
  apply detect_in_entry; [exact Hin|].
  intros ext' lang' Hin'.
  unfold extension_map in Hin, Hin'. simpl In in Hin, Hin'.
  repeat (destruct Hin as [Hin|Hin]); try contradiction;
    injection Hin as <- <-;
    repeat (destruct Hin' as [Hin'|Hin']); try contradiction;
    injection Hin' as <- <-;
    ((left; split; reflexivity)
     || (right; split; vm_compute; reflexivity)).
Qed.

Lemma detect_in_text (m : list (str * str)) (file_path : str) :
  Forall (fun entry => snd entry <> u8 "text") m ->
  (existsb (fun ext => str_endswith file_path ext) (map fst m) = true
   <-> detect_in m file_path <> u8 "text").
Proof.
  induction 1 as [|[e l] m Hl _ IH]; simpl.
  - split; [discriminate|congruence].
  - destruct (str_endswith file_path e); simpl; [|exact IH].
    split; [intros _; exact Hl|reflexivity].
Qed.

(** X6. With the extensions of the default configuration, the files the
    extension filter lets through are exactly those the analyzer knows a
    language for: a path is supported if and only if its language is not
    the catch-all [text]. *)
Theorem supported_files_have_a_language (file_path : str) :
  supported default_config file_path = true
  <-> _detect_language file_path <> u8 "text".
Proof.
  unfold _detect_language.
  rewrite <- detect_in_text.
  - reflexivity.
  - unfold extension_map. repeat constructor; vm_compute; discriminate.
Qed.

(* ================================================================== *)
(** ** github_client.py: the listing *)

Section Listing.

Variable cfg : Config.

Local Notation keep := (fun f : remote_file => supported cfg (rf_name f)).

Lemma visit_item_filter : forall it acc,
  visit_item cfg it acc = acc ++ filter keep (listed_files it).
Proof.
  fix IH 1.
  intros [name path size url|path [sub|]|path] acc; simpl.
  - destruct (supported cfg name); [reflexivity|now rewrite app_nil_r].
  - revert acc.
    induction sub as [|x sub IHsub]; intros acc; simpl;
      [now rewrite app_nil_r|].
    rewrite IHsub, IH, filter_app, app_assoc. reflexivity.
  - now rewrite app_nil_r.
  - now rewrite app_nil_r.
Qed.

Lemma recursive_get_files_filter (contents : list item) : forall acc,
  recursive_get_files cfg contents acc
  = acc ++ filter keep (flat_map listed_files contents).
Proof.
  unfold recursive_get_files.
  induction contents as [|x contents IH]; intros acc; simpl;
    [now rewrite app_nil_r|].
  rewrite IH, visit_item_filter, filter_app, app_assoc. reflexivity.
Qed.

(** X7. The walk over the listings returns every file of the tree whose
    name ends with a configured extension, once, in the order of the
    listings, directories entered where they stand; a directory whose
    listing fails adds nothing, and a failed root listing gives no
    file. *)
Theorem get_all_files_lists_every_supported_file (root : option (list item)) :
  get_all_files cfg root
  = match root with
    | Some contents => filter keep (flat_map listed_files contents)
    | None => []
    end.
Proof.
  destruct root as [contents|]; [|reflexivity].
  unfold get_all_files. now rewrite recursive_get_files_filter.
Qed.

End Listing.

(* ================================================================== *)
(** ** main.py: the records of remote mode *)

Lemma sublist_in {A : Type} (a b : list A) (x : A) :
  sublist a b -> In x a -> In x b.
Proof.
  induction 1 as [|y a b _ IH|y a b _ IH]; simpl; intuition.
Qed.

Lemma sublist_sorted {A : Type} (R : A -> A -> Prop) (a b : list A) :
  sublist a b -> StronglySorted R b -> StronglySorted R a.
Proof.
  induction 1 as [|y a b S IH|y a b S IH]; intros Hs.
  - constructor.
  - inversion Hs as [|? ? Hs' Hall]; subst.
    constructor; [now apply IH|].
    rewrite Forall_forall in *. intros x Hx. apply Hall.
    eapply sublist_in; eauto.
  - inversion Hs; subst. now apply IH.
Qed.

Section Remote.

Variable World : Type.
Variable github_contents : str -> str -> World -> option content_data * World.
Variable cfg : Config.

(** The record made of a listed file with what was fetched for it. *)
Local Notation remote_record := (fun fc : remote_file * option str =>
  match snd fc with
  | Some c =>
      if str_truthy c
      then [{| fi_path := rf_path (fst fc); fi_content := c;
               fi_meta := MetaSize (rf_size (fst fc)) |}]
      else []
  | None => []
  end).
Local Notation was_fetched :=
  (fun fc : remote_file * option str => fetched (snd fc)).

(** The download loop fetches the content of every file it is given, in
    order, and makes a record of each content that is not empty. *)
Lemma download_fetched repo fs : forall acc w,
  download World github_contents repo fs acc w
  = (acc ++ flat_map remote_record
              (combine fs
                 (fst (fetch_all World github_contents repo
                         (map rf_path fs) w))),
     snd (fetch_all World github_contents repo (map rf_path fs) w)).
Proof.
  induction fs as [|f rest IH]; intros acc w; cbn [download map fetch_all].
  - cbn [combine flat_map fst snd]. now rewrite app_nil_r.
  - destruct (get_file_content World github_contents repo (rf_path f) w)
      as [content w1].
    rewrite IH.
    destruct (fetch_all World github_contents repo (map rf_path rest) w1)
      as [cs w2].
    cbn [fst snd combine flat_map].
    destruct content as [c|]; [|reflexivity].
    destruct (str_truthy c); [|reflexivity].
    now rewrite <- app_assoc.
Qed.

Lemma combine_fst_snd {A B : Type} (a : list A) : forall b : list B,
  List.length b = List.length a ->
  map fst (combine a b) = a /\ map snd (combine a b) = b.
Proof.
  induction a as [|x a IH]; intros [|y b]; simpl; try discriminate; auto.
  intros [= H]. destruct (IH b H) as [-> ->]. auto.
Qed.

Lemma records_of_fetched (l : list (remote_file * option str)) :
  map fi_path (flat_map remote_record l)
  = map rf_path (map fst (filter was_fetched l))
  /\ map fi_meta (flat_map remote_record l)
     = map (fun f => MetaSize (rf_size f)) (map fst (filter was_fetched l))
  /\ map (fun r => Some (fi_content r)) (flat_map remote_record l)
     = filter fetched (map snd l)
  /\ Forall (fun r => fi_content r <> []) (flat_map remote_record l)
  /\ sublist (map fst (filter was_fetched l)) (map fst l).
Proof.
  induction l as [|[f content] l (Hp & Hm & Hc & Hn & Hs)];
    cbn [flat_map filter map fst snd fetched app].
  - repeat split; constructor.
  - destruct content as [c|]; cbn [fetched].
    + destruct (str_truthy c) eqn:Et; cbn [app map fst fi_path fi_meta fi_content].
      * rewrite Hp, Hm, Hc. repeat split; [|now constructor].
        constructor; [|exact Hn]. cbn [fi_content].
        intros ->. discriminate Et.
      * repeat split; try assumption. now constructor.
    + repeat split; try assumption. now constructor.
Qed.

(** X8. In remote mode the content of every file kept after sorting and
    cutting is fetched, in that order, and the records handed to the
    analysis are those of the files whose content came back and is not
    empty, each with its own path, size and content: they reach the
    analysis in ascending order of size. *)
Theorem remote_records_come_smallest_first
  (root : option (list item)) (repo : str) (max_files : option Z) (w : World) :
  let valid := valid_files cfg max_files (get_all_files cfg root) in
  let contents :=
    fst (fetch_all World github_contents repo (map rf_path valid) w) in
  let kept := map fst (filter was_fetched (combine valid contents)) in
  let records := fst (download World github_contents repo valid [] w) in
  List.length contents = List.length valid
  /\ records = flat_map remote_record (combine valid contents)
  /\ sublist kept valid
  /\ map fi_path records = map rf_path kept
  /\ map fi_meta records = map (fun f => MetaSize (rf_size f)) kept
  /\ map (fun r => Some (fi_content r)) records = filter fetched contents
  /\ StronglySorted (fun a b => rf_size a <= rf_size b) kept
  /\ Forall (fun r => fi_content r <> []) records.
Proof.
  intros valid contents kept records.
  assert (Hlen : List.length contents = List.length valid).
  { unfold contents. now rewrite fetch_all_length, length_map. }
  assert (Hr : records = flat_map remote_record (combine valid contents)).
  { unfold records. now rewrite download_fetched. }
  destruct (combine_fst_snd valid contents Hlen) as [Hfst Hsnd].
  destruct (records_of_fetched (combine valid contents))
    as (Hp & Hm & Hc & Hn & Hs).
  rewrite Hfst in Hs. rewrite Hsnd in Hc. rewrite <- Hr in Hp, Hm, Hc, Hn.
  fold kept in Hp, Hm, Hs.
  repeat (split; [assumption|]). split; [|exact Hn].
  apply (sublist_sorted _ _ _ Hs).
  unfold valid, valid_files.
  destruct (slice_to_prefix
              (sort_by_size
                 (filter (fun f => rf_size f <=? MAX_FILE_SIZE cfg)
                    (get_all_files cfg root)))
              (file_cap cfg max_files)) as [dropped E].
  pose proof (sort_by_size_sorted
                (filter (fun f => rf_size f <=? MAX_FILE_SIZE cfg)
                   (get_all_files cfg root))) as Hsorted.
  rewrite E in Hsorted. apply sorted_app_inv in Hsorted. tauto.
Qed.

End Remote.

(* ================================================================== *)
(** ** llm_analyzer.py: the batch as a whole *)

Section Batch.

Variable World : Type.
Variable ollama_post : str -> World -> ollama_outcome * World.
Variable github_contents : str -> str -> World -> option content_data * World.
Variable cfg : Config.

Local Notation analyze := (analyze_code World ollama_post).
Local Notation loop := (analyze_loop World ollama_post).
Local Notation analyze_files := (analyze_multiple_files World ollama_post cfg).
Local Notation has_content := (fun f : file_info => str_truthy (fi_content f)).
Local Notation analysed fs :=
  (filter has_content (slice_to fs (MAX_FILES_PER_ANALYSIS cfg))).
Local Notation posted := (post_all World ollama_post).

Lemma analyze_code_world (code file_path : str) (w : World) :
  snd (analyze code file_path [] w)
  = snd (ollama_post (build_prompt (_detect_language file_path) file_path code) w).
Proof.
  unfold analyze_code, _call_ollama. simpl str_truthy. cbv iota.
  destruct (ollama_post _ w) as [[|status field] w']; simpl; [reflexivity|].
  destruct (status =? 200); simpl; [|reflexivity].
  destruct (str_truthy _); [|reflexivity].
  destruct (_parse_json_response _); reflexivity.
Qed.

Lemma analyze_loop_world (fs : list file_info) : forall results total_score w,
  let sent := map prompt_of (filter has_content fs) in
  match fst (loop fs results total_score w) with
  | Ok _ => snd (loop fs results total_score w) = posted sent w
  | Raise _ =>
      exists k, snd (loop fs results total_score w) = posted (firstn k sent) w
  end.
Proof.
  induction fs as [|f rest IH]; intros results total_score w; simpl;
    [reflexivity|].
  destruct (str_truthy (fi_content f)) eqn:Ec; [|apply IH].
  pose proof (analyze_code_world (fi_content f) (fi_path f) w) as Hw.
  destruct (analyze (fi_content f) (fi_path f) [] w) as [res w1].
  simpl in Hw.
  assert (Hone : exists k,
             w1 = posted (firstn k (prompt_of f
                                      :: map prompt_of (filter has_content rest))) w).
  { exists 1%nat. simpl. exact Hw. }
  destruct (set_file_path res (fi_path f)) as [d|e]; simpl; [|exact Hone].
  destruct (bind (as_num (score_of d)) (py_add total_score)) as [t|e]; simpl;
    [|exact Hone].
  specialize (IH (results ++ [d]) t w1). simpl in IH.
  destruct (fst (loop rest (results ++ [d]) t w1)).
  - rewrite IH, Hw. reflexivity.
  - destruct IH as [k IH]. exists (S k). rewrite IH, Hw. reflexivity.
Qed.

(** X9. A batch posts one prompt for every record with content among the
    first [MAX_FILES_PER_ANALYSIS], in the order of the records, each
    built from the record's path, its content and the language of its
    extension, and nothing for a record with empty content; when the
    batch raises, the prompts posted are the first of these. *)
Theorem one_request_per_file_with_content (fs : list file_info) (w : World) :
  let sent := map prompt_of (analysed fs) in
  match fst (analyze_files fs w) with
  | Ok _ => snd (analyze_files fs w) = posted sent w
  | Raise _ => exists k, snd (analyze_files fs w) = posted (firstn k sent) w
  end.
Proof.
  intros sent. unfold analyze_multiple_files.
  pose proof (analyze_loop_world (slice_to fs (MAX_FILES_PER_ANALYSIS cfg))
                [] (NInt 0) w) as H.
  simpl in H. fold sent in H.
  destruct (loop (slice_to fs (MAX_FILES_PER_ANALYSIS cfg)) [] (NInt 0) w)
    as [[[results total_score]|e] w']; simpl in *; [|exact H].
  destruct (bind (avg_score results total_score) _); [exact H|].
  exists (List.length sent). now rewrite firstn_all.
Qed.

(** *** The number of results *)

Lemma analysed_length (fs : list file_info) :
  0 <= MAX_FILES_PER_ANALYSIS cfg ->
  Z.of_nat (List.length (analysed fs)) <= MAX_FILES_PER_ANALYSIS cfg.
Proof.
  intros H.
  pose proof (filter_length_le has_content
                (slice_to fs (MAX_FILES_PER_ANALYSIS cfg))) as Hf.
  pose proof (slice_to_length fs _ H) as Hs. lia.
Qed.

Lemma report_length (fs : list file_info) (w : World) (report : Report) :
  fst (analyze_files fs w) = Ok report ->
  total_files (summary report) = Z.of_nat (List.length (files report))
  /\ List.length (files report) = List.length (analysed fs).
Proof.
  intros E. destruct (returned_report _ _ _ _ _ _ E) as (Ha & Hall & _).
  destruct (aggregate_fields _ _ Ha) as (Ht & _).
  split; [exact Ht|]. exact (results_length _ _ _ _ Hall).
Qed.

Lemma run_analysis_report (records : list file_info) (w : World) (report : Report) :
  fst (run_analysis World ollama_post cfg records w) = Ok (Some report) ->
  fst (analyze_files records w) = Ok report.
Proof.
  unfold run_analysis. destruct records as [|r records]; [discriminate|].
  destruct (analyze_files (r :: records) w) as [[rep|e] w']; simpl;
    [|discriminate].
  now intros [= ->].
Qed.

(** X10. With a maximum that is not negative, no report counts more than
    [MAX_FILES_PER_ANALYSIS] files, whatever the entry point: the batch
    cuts what it is given once more, so a larger [max_files] in remote
    mode and the uncut list of pull-request mode end at the maximum
    too. *)
Theorem never_more_than_the_maximum :
  0 <= MAX_FILES_PER_ANALYSIS cfg ->
  (forall fs w report,
      fst (analyze_files fs w) = Ok report ->
      total_files (summary report) = Z.of_nat (List.length (files report))
      /\ total_files (summary report) <= MAX_FILES_PER_ANALYSIS cfg)
  /\ (forall repo_info root repo max_files w report,
        fst (analyze_repository World ollama_post github_contents cfg
               repo_info root repo max_files w) = Ok (Some report) ->
        total_files (summary report) <= MAX_FILES_PER_ANALYSIS cfg)
  /\ (forall pr_info pr_files repo w report,
        fst (analyze_pull_request World ollama_post github_contents cfg
               pr_info pr_files repo w) = Ok (Some report) ->
        total_files (summary report) <= MAX_FILES_PER_ANALYSIS cfg)
  /\ (forall project skip_security_check security_issues user_choice w report,
        fst (analyze_local_project World ollama_post cfg project
               skip_security_check security_issues user_choice w)
        = Ok (Some report) ->
        total_files (summary report) <= MAX_FILES_PER_ANALYSIS cfg).
Proof.
  intros Hmax.
  assert (Hfiles : forall fs w report,
             fst (analyze_files fs w) = Ok report ->
             total_files (summary report) = Z.of_nat (List.length (files report))
             /\ total_files (summary report) <= MAX_FILES_PER_ANALYSIS cfg).
  { intros fs w report E. destruct (report_length _ _ _ E) as [Ht Hl].
    split; [exact Ht|]. rewrite Ht, Hl. now apply analysed_length. }
  assert (Hrun : forall records w report,
             fst (run_analysis World ollama_post cfg records w) = Ok (Some report) ->
             total_files (summary report) <= MAX_FILES_PER_ANALYSIS cfg).
  { intros records w report E. apply run_analysis_report in E.
    now apply (Hfiles _ _ _ E). }
  split; [exact Hfiles|]. split; [|split].
  - intros repo_info root repo max_files w report. unfold analyze_repository.
    destruct (negb (dict_truthy repo_info)); [discriminate|].
    destruct (get_all_files cfg root) as [|f all_files]; [discriminate|].
    destruct (download _ _ _ _ _ _) as [records w1]. apply Hrun.
  - intros pr_info pr_files repo w report. unfold analyze_pull_request.
    destruct (negb (dict_truthy pr_info)); [discriminate|].
    destruct pr_files as [[|e entries]|]; try discriminate.
    destruct (pr_collect _ _ _ _ _ _ _) as [records w1]. apply Hrun.
  - intros project skip issues choice w report. unfold analyze_local_project.
    destruct project as [top|]; [|discriminate].
    destruct (_ && _); [discriminate|]. apply Hrun.
Qed.

(** *** The path of each result *)

(** X11. In a returned report the results stand in the order of the
    records analysed, and each carries under [file_path] the path of its
    record, whatever the decoded response said about a [file_path] of its
    own. *)
Theorem results_carry_the_paths_of_their_records
  (fs : list file_info) (w : World) (report : Report) :
  fst (analyze_files fs w) = Ok report ->
  map (fun d => dict_get d k_file_path) (files report)
  = map (fun f => Some (PyStr (fi_path f))) (analysed fs).
Proof.
  intros E. exact (returned_paths _ _ _ _ _ _ E).
Qed.

End Batch.

(* ================================================================== *)
(** ** report_generator.py: the lines of the text summary *)

Lemma report_score_set_file_path (d : dict) (path : str) :
  report_score (dict_set d k_file_path (PyStr path)) = report_score d.
Proof.
  unfold report_score, dict_get_default.
  rewrite dict_get_set_other; [reflexivity|discriminate].
Qed.

Lemma status_emoji_of_number (d : dict) (n : num) :
  as_num (score_of d) = Ok n -> exists s, status_emoji (report_score d) = Ok s.
Proof.
  unfold score_of, report_score, dict_get_default.
  destruct (dict_get d k_overall_score) as [v|]; [|intros _; now eexists].
  destruct v; simpl; try discriminate; intros _; unfold status_emoji; simpl.
  - destruct (8 <=? _); simpl; [eauto|]. destruct (6 <=? _); eauto.
  - destruct (8 <=? z); simpl; [eauto|]. destruct (6 <=? z); eauto.
  - destruct (SFleb (nearest 8 1) f); simpl; [eauto|].
    destruct (SFleb (nearest 6 1) f); eauto.
Qed.

Lemma sum_scores_numbers (results : list dict) : forall total t,
  sum_scores results total = Ok t ->
  Forall (fun d => exists n, as_num (score_of d) = Ok n) results.
Proof.
  induction results as [|d rest IH]; intros total t; simpl; [constructor|].
  destruct (as_num (score_of d)) as [n|e] eqn:En; simpl; [|discriminate].
  destruct (py_add total n) as [t1|e]; simpl; [|discriminate].
  intros H. constructor; [eauto|]. eapply IH; eauto.
Qed.

Lemma sum_issues_counts (results : list dict) : forall acc n,
  sum_issues results acc = Ok n ->
  exists counts,
    Forall2 (fun d k => py_len (issues_of d) = Ok k) results counts
    /\ n = acc + fold_right Z.add 0 counts.
Proof.
  induction results as [|d rest IH]; intros acc n; simpl.
  - intros [= <-]. exists []. split; [apply Forall2_nil|simpl; lia].
  - destruct (py_len (issues_of d)) as [k|e] eqn:Ek; simpl; [|discriminate].
    intros H. destruct (IH _ _ H) as (counts & Hc & ->).
    exists (k :: counts). split; [now constructor|]. simpl. lia.
Qed.

Lemma file_rows_of_counts (results : list dict) (counts : list Z) :
  Forall2 (fun d k => py_len (issues_of d) = Ok k) results counts ->
  Forall (fun d => exists n, as_num (score_of d) = Ok n) results ->
  exists rows,
    file_rows results = Ok rows
    /\ map row_issues_count rows = counts
    /\ map row_score rows = map report_score results
    /\ map row_file_path rows
       = map (fun d => dict_get_default d k_file_path (PyStr (u8 "Unknown")))
             results.
Proof.
  induction 1 as [|d k results counts Hk _ IH]; intros Hn.
  - exists []. repeat split; reflexivity.
  - inversion Hn as [|? ? [n Hd] Hrest]; subst.
    destruct (IH Hrest) as (rows & Hr & Hc & Hs & Hp).
    destruct (status_emoji_of_number _ _ Hd) as [s Hs'].
    eexists. simpl. unfold file_row. rewrite Hk. simpl. rewrite Hs'. simpl.
    rewrite Hr. simpl. split; [reflexivity|]. simpl.
    now rewrite Hc, Hs, Hp.
Qed.

Section Summary.

Variable World : Type.
Variable ollama_post : str -> World -> ollama_outcome * World.
Variable cfg : Config.

Local Notation analyze_files := (analyze_multiple_files World ollama_post cfg).
Local Notation has_content := (fun f : file_info => str_truthy (fi_content f)).
Local Notation analysed fs :=
  (filter has_content (slice_to fs (MAX_FILES_PER_ANALYSIS cfg))).

(** X12. For a report the analyzer returned, the lines of the text
    summary can always be computed: neither the comparison of a score
    nor the length of the issues raises. There is one line for each
    result, with the path of its record, and the issue counts of the
    lines add up to the [total_issues] of the summary. *)
Theorem text_summary_of_a_returned_report
  (fs : list file_info) (w : World) (report : Report) :
  fst (analyze_files fs w) = Ok report ->
  exists rows,
    file_rows (files report) = Ok rows
    /\ Z.of_nat (List.length rows) = total_files (summary report)
    /\ fold_right Z.add 0 (map row_issues_count rows)
       = total_issues (summary report)
    /\ map row_file_path rows = map (fun f => PyStr (fi_path f)) (analysed fs)
    /\ map row_score rows = map report_score (files report).
Proof.
  intros E.
  destruct (returned_report _ _ _ _ _ _ E) as (Ha & _).
  destruct (aggregate_fields _ _ Ha) as (Ht & (m & Hm & _) & Hi).
  unfold mean_score in Hm.
  destruct (sum_scores (files report) (NInt 0)) as [t|e] eqn:Es;
    [|discriminate Hm].
  apply sum_scores_numbers in Es.
  destruct (sum_issues_counts _ _ _ Hi) as (counts & Hc & Hsum).
  destruct (file_rows_of_counts _ _ Hc Es) as (rows & Hr & Hrc & Hrs & Hrp).
  exists rows. split; [exact Hr|].
  split.
  { rewrite Ht. rewrite <- (length_map row_score rows), Hrs, length_map.
    reflexivity. }
  split; [rewrite Hrc; lia|].
  split; [|exact Hrs].
  rewrite Hrp.
  pose proof (returned_paths World ollama_post cfg fs w report E) as Hp.
  revert Hp. generalize (analysed fs). generalize (files report).
  induction l as [|d l IH]; intros [|f l0]; simpl; try discriminate;
    [reflexivity|].
  intros [= Hd Hl]. unfold dict_get_default at 1. rewrite Hd.
  f_equal. now apply IH.
Qed.

End Summary.

(** X13. A file whose analysis failed and a file whose response could not
    be parsed are both marked with the cross, with the scores 0.0 and
    5.0 and no issue; a result without [overall_score] is shown with the
    score 0 and the cross, although the average of the summary counted
    5.0 for it. *)
Theorem failed_and_unscored_files_are_marked_low :
  (forall path : str,
      file_row (dict_set _create_empty_result k_file_path (PyStr path))
      = Ok {| row_status := u8 "❌"; row_file_path := PyStr path;
              row_score := PyFloat f0_0; row_issues_count := 0 |})
  /\ (forall text path : str,
        file_row (dict_set (_create_fallback_result text) k_file_path (PyStr path))
        = Ok {| row_status := u8 "❌"; row_file_path := PyStr path;
                row_score := PyFloat f5_0; row_issues_count := 0 |})
  /\ (forall (d : dict) (path : str) (n : Z),
        dict_get d k_overall_score = None ->
        py_len (issues_of d) = Ok n ->
        file_row (dict_set d k_file_path (PyStr path))
        = Ok {| row_status := u8 "❌"; row_file_path := PyStr path;
                row_score := PyInt 0; row_issues_count := n |}
        /\ score_of (dict_set d k_file_path (PyStr path)) = PyFloat f5_0).
Proof.
  split; [|split].
  - intros path. reflexivity.
  - intros text path. unfold file_row.
    rewrite issues_of_set_file_path, report_score_set_file_path.
    unfold dict_get_default. rewrite dict_get_set_same. reflexivity.
  - intros d path n Hnone Hlen. unfold file_row.
    rewrite issues_of_set_file_path, report_score_set_file_path, Hlen.
    rewrite score_of_set_file_path.
    unfold dict_get_default at 1. rewrite dict_get_set_same.
    unfold report_score, score_of, dict_get_default. rewrite Hnone.
    split; reflexivity.
Qed.

(* ================================================================== *)
(** ** llm_analyzer.py: when the batch raises, and when the service is down *)

Section Failures.

Variable World : Type.
Variable ollama_post : str -> World -> ollama_outcome * World.
Variable cfg : Config.

Local Notation analyze := (analyze_code World ollama_post).
Local Notation loop := (analyze_loop World ollama_post).
Local Notation analyze_files := (analyze_multiple_files World ollama_post cfg).
Local Notation has_content := (fun f : file_info => str_truthy (fi_content f)).
Local Notation analysed fs :=
  (filter has_content (slice_to fs (MAX_FILES_PER_ANALYSIS cfg))).
Local Notation failure_of f :=
  (dict_set _create_empty_result k_file_path (PyStr (fi_path f))).

Lemma analyze_loop_app (a b : list file_info) : forall results total_score w,
  loop (a ++ b) results total_score w
  = match loop a results total_score w with
    | (Ok (results', total_score'), w') => loop b results' total_score' w'
    | (Raise e, w') => (Raise e, w')
    end.
Proof.
  induction a as [|f a IH]; intros results total_score w; simpl;
    [reflexivity|].
  destruct (str_truthy (fi_content f)); [|apply IH].
  destruct (analyze (fi_content f) (fi_path f) [] w) as [res w1].
  destruct (set_file_path res (fi_path f)) as [d|e]; [|reflexivity].
  destruct (bind (as_num (score_of d)) (py_add total_score)) as [t|e];
    [apply IH|reflexivity].
Qed.

(** X14. A decoded response whose [overall_score] is not a number, a
    text or [null] for instance, aborts the whole batch with a
    [TypeError] at that file: the results of the files analysed before
    it are not returned, and the files after it are not analysed. *)
Theorem uncountable_score_aborts_the_batch
  (before : list file_info) (f : file_info) (rest : list file_info)
  (results : list dict) (total_score : num) (w w1 w2 : World) (d : dict) :
  Z.of_nat (List.length (before ++ f :: rest)) <= MAX_FILES_PER_ANALYSIS cfg ->
  loop before [] (NInt 0) w = (Ok (results, total_score), w1) ->
  str_truthy (fi_content f) = true ->
  analyze (fi_content f) (fi_path f) [] w1 = (PyDict d, w2) ->
  as_num (score_of d) = Raise TypeError ->
  analyze_files (before ++ f :: rest) w = (Raise TypeError, w2).
Proof.
  intros Hcap Hbefore Hc Ha Hs.
  unfold analyze_multiple_files.
  rewrite slice_to_all by exact Hcap.
  rewrite analyze_loop_app, Hbefore.
  rewrite (analyze_loop_step World ollama_post f rest results total_score
             w1 w2 d Hc Ha).
  rewrite Hs. reflexivity.
Qed.

(** *** The service cannot be reached *)

Hypothesis service_down : forall prompt w,
  match fst (ollama_post prompt w) with
  | RequestException => True
  | HttpResponse status_code _ => status_code <> 200
  end.

Lemma analyze_code_down (code file_path language : str) (w : World) :
  fst (analyze code file_path language w) = PyDict _create_empty_result.
Proof.
  unfold analyze_code, _call_ollama.
  pose proof (service_down
                (build_prompt
                   (if str_truthy language then language
                    else _detect_language file_path) file_path code) w) as H.
  destruct (ollama_post _ w) as [[|status field] w']; simpl in *;
    [reflexivity|].
  destruct (Z.eqb_spec status 200); [contradiction|reflexivity].
Qed.

Lemma analyze_loop_down (fs : list file_info) : forall results total_score w,
  total_score = NInt 0 \/ (exists t, total_score = NFloat t) ->
  exists total_score' w',
    loop fs results total_score w
    = (Ok (results ++ map (fun f => failure_of f) (filter has_content fs),
           total_score'), w').
Proof.
  induction fs as [|f rest IH]; intros results total_score w Ht;
    cbn [analyze_loop filter].
  - cbn [map]. rewrite app_nil_r. eauto.
  - destruct (str_truthy (fi_content f)); [|now apply IH].
    pose proof (analyze_code_down (fi_content f) (fi_path f) [] w) as H.
    destruct (analyze (fi_content f) (fi_path f) [] w) as [res w1].
    cbn [fst] in H. subst res. cbn [set_file_path].
    rewrite score_of_set_file_path.
    change (as_num (score_of _create_empty_result)) with (Ok (NFloat f0_0)).
    cbn [bind].
    assert (Hadd : exists t, py_add total_score (NFloat f0_0) = Ok (NFloat t)).
    { destruct Ht as [->|[t ->]]; eexists; reflexivity. }
    destruct Hadd as [t ->].
    destruct (IH (results ++ [failure_of f]) (NFloat t) w1) as (t' & w' & E);
      [right; eauto|].
    exists t', w'. rewrite E. cbn [map]. now rewrite <- app_assoc.
Qed.

Lemma sum_scores_failures (fs : list file_info) :
  sum_scores (map (fun f => failure_of f) fs) (NFloat f0_0) = Ok (NFloat f0_0).
Proof.
  induction fs as [|f rest IH]; [reflexivity|].
  cbn [map sum_scores]. rewrite score_of_set_file_path.
  change (bind (as_num (score_of _create_empty_result)) (py_add (NFloat f0_0)))
    with (Ok (NFloat f0_0)).
  cbn [bind]. exact IH.
Qed.

Lemma sum_issues_failures (fs : list file_info) :
  sum_issues (map (fun f => failure_of f) fs) 0 = Ok 0.
Proof.
  induction fs as [|f rest IH]; [reflexivity|].
  cbn [map sum_issues]. rewrite issues_of_set_file_path.
  change (py_len (issues_of _create_empty_result)) with (@Ok Z 0).
  cbn [bind]. exact IH.
Qed.

Lemma aggregate_failures (fs : list file_info) :
  Z.of_nat (List.length fs) < 2 ^ 53 ->
  aggregate (map (fun f => failure_of f) fs)
  = Ok {| total_files := Z.of_nat (List.length fs);
          average_score := match fs with [] => NInt 0 | _ => NFloat f0_0 end;
          total_issues := 0 |}.
Proof.
  intros Hlen. destruct fs as [|f rest]; [reflexivity|].
  unfold aggregate, mean_score.
  rewrite sum_issues_failures.
  change (sum_scores (map (fun f => failure_of f) (f :: rest)) (NInt 0))
    with (bind (bind (as_num (score_of (failure_of f))) (py_add (NInt 0)))
               (sum_scores (map (fun f => failure_of f) rest))).
  rewrite score_of_set_file_path.
  change (bind (as_num (score_of _create_empty_result)) (py_add (NInt 0)))
    with (Ok (NFloat f0_0)).
  cbn [bind]. rewrite sum_scores_failures. cbn [bind].
  rewrite length_map.
  assert (Eavg : avg_score (map (fun f => failure_of f) (f :: rest)) (NFloat f0_0)
                 = py_truediv (NFloat f0_0) (Z.of_nat (List.length (f :: rest)))).
  { rewrite <- (length_map (fun f => failure_of f) (f :: rest)). reflexivity. }
  rewrite Eavg. clear Eavg.
  unfold py_truediv, int_to_float.
  destruct (Z.of_nat (List.length (f :: rest))) as [|p|p] eqn:Ep;
    [simpl in Ep; lia| |lia].
  destruct (nearest_count p Hlen) as (m & e & ->).
  reflexivity.
Qed.

(** X15. When the inference service cannot be reached, every request
    raising or answered with another status than 200, the batch still
    returns: every record with content gets the failure record under its
    path, and the summary counts these files, no issue and an average of
    0.0 (the integer 0 when there is no file), the maximum being a number
    of files below [2^53]. *)
Theorem unreachable_service_gives_failure_records
  (fs : list file_info) (w : World) :
  0 <= MAX_FILES_PER_ANALYSIS cfg < 2 ^ 53 ->
  exists report,
    fst (analyze_files fs w) = Ok report
    /\ files report = map (fun f => failure_of f) (analysed fs)
    /\ total_files (summary report) = Z.of_nat (List.length (analysed fs))
    /\ total_issues (summary report) = 0
    /\ average_score (summary report)
       = match analysed fs with [] => NInt 0 | _ => NFloat f0_0 end.
Proof.
  intros Hmax.
  destruct (analyze_loop_down (slice_to fs (MAX_FILES_PER_ANALYSIS cfg))
              [] (NInt 0) w) as (t & w' & El); [now left|].
  rewrite (analyze_files_of_loop World ollama_post cfg fs w), El.
  cbn [app fst].
  rewrite aggregate_failures.
  - eexists. split; [reflexivity|]. simpl. repeat split.
  - pose proof (analysed_length cfg fs (proj1 Hmax)). lia.
Qed.

End Failures.

(* ================================================================== *)
(** ** security_check.py: the findings of a file *)

Local Notation finding file_path i line p :=
  {| i_file := file_path; i_line := i; i_content := issue_content line;
     i_type := p_description p; i_pattern := p_source p |}.

Lemma check_patterns_app (file_path : str) (i : Z) (line : str)
  (ps : list pattern) : forall issues,
  fold_left
    (fun issues p =>
       if re_search (p_regex p) line
       then issues ++ [finding file_path i line p]
       else issues) ps issues
  = issues
    ++ flat_map (fun p => if re_search (p_regex p) line
                          then [finding file_path i line p] else []) ps.
Proof.
  induction ps as [|p ps IH]; intros issues; simpl;
    [now rewrite app_nil_r|].
  rewrite IH. destruct (re_search (p_regex p) line); simpl;
    [now rewrite <- app_assoc|reflexivity].
Qed.

Lemma check_line_app (file_path : str) (i : Z) (line : str) (issues : list issue) :
  check_line file_path i line issues
  = issues ++ check_line file_path i line [].
Proof.
  unfold check_line. now rewrite !check_patterns_app.
Qed.

Lemma check_line_in (file_path : str) (i : Z) (line : str) (x : issue) :
  In x (check_line file_path i line [])
  <-> exists p, In p sensitive_patterns
                /\ re_search (p_regex p) line = true
                /\ x = finding file_path i line p.
Proof.
  unfold check_line. rewrite check_patterns_app, app_nil_l.
  rewrite in_flat_map. split.
  - intros (p & Hp & Hx). exists p.
    destruct (re_search (p_regex p) line); [|contradiction].
    destruct Hx as [<-|[]]. auto.
  - intros (p & Hp & Hr & ->). exists p. split; [exact Hp|].
    rewrite Hr. now left.
Qed.

Lemma check_lines_app (file_path : str) (lines : list str) :
  forall i issues,
    check_lines file_path lines i issues
    = issues ++ check_lines file_path lines i [].
Proof.
  induction lines as [|line rest IH]; intros i issues; simpl;
    [now rewrite app_nil_r|].
  rewrite IH, (IH _ (check_line file_path i line [])), check_line_app.
  now rewrite app_assoc.
Qed.

Lemma check_lines_cons (file_path line : str) (rest : list str) (i : Z) :
  check_lines file_path (line :: rest) i []
  = check_line file_path i line [] ++ check_lines file_path rest (i + 1) [].
Proof. simpl. now rewrite check_lines_app. Qed.

Lemma check_lines_in (file_path : str) (lines : list str) : forall i x,
  In x (check_lines file_path lines i [])
  <-> exists k line, nth_error lines k = Some line
                     /\ In x (check_line file_path (i + Z.of_nat k) line []).
Proof.
  induction lines as [|line rest IH]; intros i x.
  - simpl. split; [intros []|]. intros ([|k] & l & H & _); discriminate H.
  - rewrite check_lines_cons, in_app_iff, IH. split.
    + intros [H|(k & l & Hk & H)].
      * exists O, line. split; [reflexivity|].
        now replace (i + Z.of_nat 0) with i by lia.
      * exists (S k), l. split; [exact Hk|].
        now replace (i + Z.of_nat (S k)) with (i + 1 + Z.of_nat k) by lia.
    + intros ([|k] & l & Hk & H).
      * injection Hk as <-. left.
        now replace (i + Z.of_nat 0) with i in H by lia.
      * right. exists k, l. split; [exact Hk|].
        now replace (i + Z.of_nat (S k)) with (i + 1 + Z.of_nat k) in H by lia.
Qed.

Lemma check_line_lines (file_path : str) (i : Z) (line : str) :
  Forall (fun x => i_line x = i) (check_line file_path i line []).
Proof.
  apply Forall_forall. intros x H. apply check_line_in in H.
  destruct H as (p & _ & _ & ->). reflexivity.
Qed.

Lemma sorted_app {A : Type} (R : A -> A -> Prop) (a b : list A) :
  StronglySorted R a -> StronglySorted R b ->
  (forall x y, In x a -> In y b -> R x y) ->
  StronglySorted R (a ++ b).
Proof.
  induction 1 as [|x a Ha IH Hall]; intros Hb Hab; simpl; [exact Hb|].
  constructor.
  - apply IH; [exact Hb|]. intros; apply Hab; simpl; auto.
  - apply Forall_app. split; [exact Hall|].
    apply Forall_forall. intros y Hy. apply Hab; simpl; auto.
Qed.

Lemma sorted_constant {A : Type} (f : A -> Z) (c : Z) (l : list A) :
  Forall (fun x => f x = c) l ->
  StronglySorted (fun a b => f a <= f b) l.
Proof.
  induction 1 as [|x l Hx Hl IH]; constructor; [exact IH|].
  eapply Forall_impl; [|exact Hl]. simpl. intros. lia.
Qed.

Lemma check_lines_sorted (file_path : str) (lines : list str) : forall i,
  StronglySorted (fun a b => i_line a <= i_line b)
    (check_lines file_path lines i [])
  /\ Forall (fun x => i <= i_line x) (check_lines file_path lines i []).
Proof.
  induction lines as [|line rest IH]; intros i.
  - simpl. split; constructor.
  - rewrite check_lines_cons.
    destruct (IH (i + 1)) as [Hs Hge].
    pose proof (check_line_lines file_path i line) as Hl.
    pose proof Hl as Hc.
    rewrite Forall_forall in Hl, Hge.
    split.
    + apply sorted_app; [exact (sorted_constant _ i _ Hc)|exact Hs|].
      intros x y Hx Hy. rewrite (Hl x Hx). specialize (Hge y Hy). lia.
    + apply Forall_app. split; apply Forall_forall; intros x Hx.
      * rewrite (Hl x Hx). lia.
      * specialize (Hge x Hx). lia.
Qed.

Lemma issue_content_length (line : str) : str_len (issue_content line) <= 53.
Proof.
  unfold issue_content.
  destruct (Z.ltb_spec 50 (str_len (str_strip line))) as [H|H]; [|lia].
  unfold str_len in *. rewrite length_app.
  pose proof (slice_to_length (str_strip line) 50) as Hs.
  change (List.length (u8 "...")) with 3%nat. lia.
Qed.

Lemma check_file_in (file_path text : str) (x : issue) :
  In x (check_file file_path (Some text))
  <-> exists k line p,
        nth_error (str_split text newline) k = Some line
        /\ In p sensitive_patterns
        /\ re_search (p_regex p) line = true
        /\ x = finding file_path (Z.of_nat k + 1) line p.
Proof.
  unfold check_file. rewrite check_lines_in. split.
  - intros (k & line & Hk & H). apply check_line_in in H.
    destruct H as (p & Hp & Hr & ->). exists k, line, p.
    repeat split; auto. f_equal. lia.
  - intros (k & line & p & Hk & Hp & Hr & ->). exists k, line.
    split; [exact Hk|]. apply check_line_in. exists p.
    repeat split; auto. f_equal. lia.
Qed.

(** X16. The findings of a file are exactly the pairs of a line and a
    pattern that matches it: each carries the path of the file, the number
    of the line counted from 1, the stripped line cut to fifty characters
    and three dots when it is longer, and the description and source of
    the pattern. They come in the order of the lines, a reported line
    never has more than 53 characters, and a file that cannot be read has
    no finding. *)
Theorem findings_are_the_matching_lines (file_path text : str) :
  (forall x : issue,
      In x (check_file file_path (Some text))
      <-> exists k line p,
            nth_error (str_split text newline) k = Some line
            /\ In p sensitive_patterns
            /\ re_search (p_regex p) line = true
            /\ x = finding file_path (Z.of_nat k + 1) line p)
  /\ StronglySorted (fun a b => i_line a <= i_line b)
       (check_file file_path (Some text))
  /\ Forall (fun x => str_len (i_content x) <= 53)
       (check_file file_path (Some text))
  /\ check_file file_path None = [].
Proof.
  split; [intros x; apply check_file_in|]. split; [|split; [|reflexivity]].
  - apply check_lines_sorted.
  - apply Forall_forall. intros x Hx. apply check_file_in in Hx.
    destruct Hx as (k & line & p & _ & _ & _ & ->). simpl.
    apply issue_content_length.
Qed.

(* ================================================================== *)
(** ** security_check.py: what the patterns find *)


Lemma run_length_app (cls : N -> bool) (body s : str) :
  forallb cls body = true ->
  (List.length body <= run_length cls (body ++ s))%nat.
Proof.
  induction body as [|c body IH]; simpl; [lia|].
  intros H. apply andb_true_iff in H. destruct H as [Hc Hb].
  rewrite Hc. specialize (IH Hb). lia.
Qed.

(** An atom takes a run of characters of its class whose length lies
    within its bounds. *)
Lemma match_here_atom (a : atom) (r : regex) (body s : str) :
  forallb (at_class a) body = true ->
  (at_min a <= List.length body)%nat ->
  match at_max a with
  | Some n => (List.length body <= n)%nat
  | None => True
  end ->
  match_here r s = true ->
  match_here (a :: r) (body ++ s) = true.
Proof.
  intros Hcls Hmin Hmax Hr. cbn [match_here].
  apply existsb_exists. exists (List.length body). split.
  - apply in_seq. pose proof (run_length_app _ _ s Hcls) as Hrun.
    destruct (at_max a) as [n|]; lia.
  - rewrite skipn_app, skipn_all, Nat.sub_diag. exact Hr.
Qed.

Lemma match_here_literal (w : str) (r : regex) (s : str) :
  match_here r s = true ->
  match_here (map (fun p => once (ci p)) w ++ r) (w ++ s) = true.
Proof.
  intros Hr. induction w as [|c w IH]; [exact Hr|].
  cbn [map app].
  apply (match_here_atom (once (ci c)) _ [c] (w ++ s));
    [|simpl; lia|simpl; lia|exact IH].
  simpl. unfold ci. now rewrite N.eqb_refl.
Qed.

Lemma re_search_at (r : regex) (pre s : str) :
  match_here r s = true -> re_search r (pre ++ s) = true.
Proof.
  intros H. unfold re_search. apply existsb_exists.
  exists (List.length pre). split.
  - apply in_seq. rewrite length_app. lia.
  - rewrite skipn_app, skipn_all, Nat.sub_diag. exact H.
Qed.

(** A prefix followed by [n] letters or digits. *)
Lemma key_found (prefix : string) (n : nat) (pre body post : str) :
  List.length body = n -> forallb alnum body = true ->
  re_search (literal prefix ++ [times alnum n])
            (pre ++ u8 prefix ++ body ++ post) = true.
Proof.
  intros Hlen Hb. apply re_search_at. unfold literal.
  apply match_here_literal.
  apply match_here_atom; [exact Hb|simpl; lia|simpl; lia|reflexivity].
Qed.

(** Spaces, an equals sign, spaces, a quote, at least [n] characters that
    are no quotes, a quote. *)
Lemma assignment_found (n : nat) (spaces1 spaces2 : str) (q1 : N)
  (body : str) (q2 : N) (post : str) :
  forallb is_space spaces1 = true -> forallb is_space spaces2 = true ->
  quote q1 = true -> quote q2 = true ->
  forallb not_quote body = true -> (n <= List.length body)%nat ->
  match_here (assignment n)
    (spaces1 ++ 61%N :: spaces2 ++ q1 :: body ++ q2 :: post) = true.
Proof.
  intros H1 H2 Hq1 Hq2 Hb Hn. unfold assignment.
  apply match_here_atom; [exact H1|simpl; lia|exact I|].
  apply (match_here_atom _ _ [61%N]); [reflexivity|simpl; lia|simpl; lia|].
  apply match_here_atom; [exact H2|simpl; lia|exact I|].
  apply (match_here_atom _ _ [q1]);
    [simpl; now rewrite Hq1|simpl; lia|simpl; lia|].
  apply match_here_atom; [exact Hb|simpl; lia|exact I|].
  apply (match_here_atom _ _ [q2]);
    [simpl; now rewrite Hq2|simpl; lia|simpl; lia|reflexivity].
Qed.

Lemma secret_found (name : string) (n : nat) (pre spaces1 spaces2 : str)
  (q1 : N) (body : str) (q2 : N) (post : str) :
  forallb is_space spaces1 = true -> forallb is_space spaces2 = true ->
  quote q1 = true -> quote q2 = true ->
  forallb not_quote body = true -> (n <= List.length body)%nat ->
  re_search (literal name ++ assignment n)
    (pre ++ u8 name ++ spaces1 ++ 61%N :: spaces2 ++ q1 :: body ++ q2 :: post)
  = true.
Proof.
  intros. apply re_search_at. unfold literal. apply match_here_literal.
  now apply assignment_found.
Qed.

Lemma check_file_finds (file_path text : str) (k : nat) (line : str)
  (source : str) (rx : regex) (description : str) :
  nth_error (str_split text newline) k = Some line ->
  In {| p_source := source; p_regex := rx; p_description := description |}
     sensitive_patterns ->
  re_search rx line = true ->
  In {| i_file := file_path; i_line := Z.of_nat k + 1;
        i_content := issue_content line;
        i_type := description; i_pattern := source |}
     (check_file file_path (Some text)).
Proof.
  intros Hk Hp Hr. apply check_file_in.
  exists k, line,
    {| p_source := source; p_regex := rx; p_description := description |}.
  auto.
Qed.

(** X17. A line that holds an access key is reported, wherever the key
    stands in the line and whatever follows it: [ghp_] and 36 letters or
    digits as a GitHub token, [sk-] and 48 as an OpenAI key, [AKIA] and 16
    as an AWS key, each with the number of the line. *)
Theorem access_keys_are_reported
  (file_path text : str) (k : nat) (pre body post : str) :
  forallb alnum body = true ->
  (nth_error (str_split text newline) k = Some (pre ++ u8 "ghp_" ++ body ++ post) ->
   List.length body = 36%nat ->
   In {| i_file := file_path; i_line := Z.of_nat k + 1;
         i_content := issue_content (pre ++ u8 "ghp_" ++ body ++ post);
         i_type := u8 "GitHub Personal Access Token";
         i_pattern := u8 "ghp_[a-zA-Z0-9]{36}" |}
      (check_file file_path (Some text)))
  /\ (nth_error (str_split text newline) k = Some (pre ++ u8 "sk-" ++ body ++ post) ->
      List.length body = 48%nat ->
      In {| i_file := file_path; i_line := Z.of_nat k + 1;
            i_content := issue_content (pre ++ u8 "sk-" ++ body ++ post);
            i_type := u8 "OpenAI API Key";
            i_pattern := u8 "sk-[a-zA-Z0-9]{48}" |}
         (check_file file_path (Some text)))
  /\ (nth_error (str_split text newline) k = Some (pre ++ u8 "AKIA" ++ body ++ post) ->
      List.length body = 16%nat ->
      In {| i_file := file_path; i_line := Z.of_nat k + 1;
            i_content := issue_content (pre ++ u8 "AKIA" ++ body ++ post);
            i_type := u8 "AWS Access Key";
            i_pattern := u8 "AKIA[0-9A-Z]{16}" |}
         (check_file file_path (Some text))).
Proof.
  intros Hb. split; [|split]; intros Hk Hlen.
  - apply (check_file_finds _ _ _ _ _ (literal "ghp_" ++ [times alnum 36]) _ Hk).
    + unfold sensitive_patterns. left. reflexivity.
    + now apply key_found.
  - apply (check_file_finds _ _ _ _ _ (literal "sk-" ++ [times alnum 48]) _ Hk).
    + unfold sensitive_patterns. right. left. reflexivity.
    + now apply key_found.
  - apply (check_file_finds _ _ _ _ _ (literal "AKIA" ++ [times alnum 16]) _ Hk).
    + unfold sensitive_patterns. do 2 right. left. reflexivity.
    + now apply key_found.
Qed.

(** X18. A line that assigns a quoted value to [password], [secret] or
    [token] is reported, with any spaces around the equals sign and either
    quote on either side, once the value has at least 3 characters (10
    for a token) none of which is a quote. *)
Theorem hardcoded_values_are_reported
  (file_path text : str) (k : nat) (pre spaces1 spaces2 : str)
  (q1 : N) (body : str) (q2 : N) (post : str) :
  forallb is_space spaces1 = true -> forallb is_space spaces2 = true ->
  quote q1 = true -> quote q2 = true ->
  forallb not_quote body = true ->
  let value := spaces1 ++ 61%N :: spaces2 ++ q1 :: body ++ q2 :: post in
  (nth_error (str_split text newline) k = Some (pre ++ u8 "password" ++ value) ->
   (3 <= List.length body)%nat ->
   In {| i_file := file_path; i_line := Z.of_nat k + 1;
         i_content := issue_content (pre ++ u8 "password" ++ value);
         i_type := u8 "하드코딩된 비밀번호";
         i_pattern := u8 "password" ++ assignment_source "3" |}
      (check_file file_path (Some text)))
  /\ (nth_error (str_split text newline) k = Some (pre ++ u8 "secret" ++ value) ->
      (3 <= List.length body)%nat ->
      In {| i_file := file_path; i_line := Z.of_nat k + 1;
            i_content := issue_content (pre ++ u8 "secret" ++ value);
            i_type := u8 "하드코딩된 시크릿";
            i_pattern := u8 "secret" ++ assignment_source "3" |}
         (check_file file_path (Some text)))
  /\ (nth_error (str_split text newline) k = Some (pre ++ u8 "token" ++ value) ->
      (10 <= List.length body)%nat ->
      In {| i_file := file_path; i_line := Z.of_nat k + 1;
            i_content := issue_content (pre ++ u8 "token" ++ value);
            i_type := u8 "하드코딩된 토큰";
            i_pattern := u8 "token" ++ assignment_source "10" |}
         (check_file file_path (Some text))).
Proof.
  intros H1 H2 Hq1 Hq2 Hb value. split; [|split]; intros Hk Hlen.
  - apply (check_file_finds _ _ _ _ _ (literal "password" ++ assignment 3) _ Hk).
    + unfold sensitive_patterns. do 3 right. left. reflexivity.
    + now apply secret_found.
  - apply (check_file_finds _ _ _ _ _ (literal "secret" ++ assignment 3) _ Hk).
    + unfold sensitive_patterns. do 4 right. left. reflexivity.
    + now apply secret_found.
  - apply (check_file_finds _ _ _ _ _ (literal "token" ++ assignment 10) _ Hk).
    + unfold sensitive_patterns. do 5 right. left. reflexivity.
    + now apply secret_found.
Qed.

(* ================================================================== *)
(** ** security_check.py: the scan of a directory *)

Lemma fs_entry_induction (P : fs_entry -> Prop) :
  (forall name size content, P (FsFile name size content)) ->
  (forall name children, Forall P children -> P (FsDir name children)) ->
  forall e, P e.
Proof.
  intros Hfile Hdir. fix IH 1.
  intros [name size content|name children]; [apply Hfile|].
  apply Hdir. induction children as [|c children IHc]; constructor;
    [apply IH|exact IHc].
Qed.

Local Notation kept_dirs dirs :=
  (Forall (fun d => existsb (str_eqb d) exclude_dirs = false) dirs).
Local Notation kept_file name :=
  (existsb (str_eqb name) exclude_files = false).
Local Notation path_below root dirs name :=
  (fold_left os_path_join (dirs ++ [name]) root).

Lemma check_files_in (root : str) (entries : list fs_entry) (x : issue) :
  In x (check_files root entries)
  <-> exists name size content,
        In (FsFile name size content) entries
        /\ kept_file name
        /\ In x (check_file (os_path_join root name) content).
Proof.
  induction entries as [|[name size content|name children] rest IH];
    cbn [check_files In].
  - split; [intros []|]. intros (? & ? & ? & [] & _).
  - destruct (existsb (str_eqb name) exclude_files) eqn:E.
    + rewrite IH. split.
      * intros (n & s & c & Hin & H). exists n, s, c. auto.
      * intros (n & s & c & [Heq|Hin] & Hk & H).
        -- injection Heq as <- <- <-. congruence.
        -- exists n, s, c. auto.
    + rewrite in_app_iff, IH. split.
      * intros [H|(n & s & c & Hin & H)].
        -- exists name, size, content. auto.
        -- exists n, s, c. auto.
      * intros (n & s & c & [Heq|Hin] & Hk & H).
        -- injection Heq as <- <- <-. now left.
        -- right. exists n, s, c. auto.
  - rewrite IH. split.
    + intros (n & s & c & Hin & H). exists n, s, c. auto.
    + intros (n & s & c & [Heq|Hin] & H); [discriminate|].
      exists n, s, c. auto.
Qed.

(** What the scan finds below the entries of one directory, given what it
    finds below each of them. *)
Lemma check_tree_in (entries : list fs_entry) :
  Forall (fun e => forall root x,
            In x (check_entry root e)
            <-> exists d children dirs name content,
                  e = FsDir d children
                  /\ file_at children dirs name content
                  /\ kept_dirs (d :: dirs) /\ kept_file name
                  /\ In x (check_file (path_below root (d :: dirs) name) content))
         entries ->
  forall root x,
    In x (check_files root entries ++ flat_map (check_entry root) entries)
    <-> exists dirs name content,
          file_at entries dirs name content
          /\ kept_dirs dirs /\ kept_file name
          /\ In x (check_file (path_below root dirs name) content).
Proof.
  intros Hall root x. rewrite Forall_forall in Hall.
  rewrite in_app_iff, check_files_in, in_flat_map. split.
  - intros [(name & size & content & Hin & Hk & H)|(e & He & H)].
    + exists [], name, content. repeat split; auto.
      econstructor; eauto.
    + apply (Hall e He) in H.
      destruct H as (d & children & dirs & name & content & -> & Hat & Hd & Hk & H).
      exists (d :: dirs), name, content. repeat split; auto.
      econstructor; eauto.
  - intros (dirs & name & content & Hat & Hd & Hk & H).
    inversion Hat as [? ? size ? Hin|? d children dirs' ? ? Hin Hat']; subst.
    + left. exists name, size, content. auto.
    + right. exists (FsDir d children). split; [exact Hin|].
      apply (Hall _ Hin). exists d, children, dirs', name, content. auto.
Qed.

Lemma check_entry_in : forall e root x,
  In x (check_entry root e)
  <-> exists d children dirs name content,
        e = FsDir d children
        /\ file_at children dirs name content
        /\ kept_dirs (d :: dirs) /\ kept_file name
        /\ In x (check_file (path_below root (d :: dirs) name) content).
Proof.
  apply (fs_entry_induction
           (fun e => forall root x,
              In x (check_entry root e)
              <-> exists d children dirs name content,
                    e = FsDir d children
                    /\ file_at children dirs name content
                    /\ kept_dirs (d :: dirs) /\ kept_file name
                    /\ In x (check_file (path_below root (d :: dirs) name)
                               content))).
  - intros name size content root x. simpl. split; [intros []|].
    intros (? & ? & ? & ? & ? & H & _). discriminate H.
  - intros name children Hall root x. cbn [check_entry].
    destruct (existsb (str_eqb name) exclude_dirs) eqn:E.
    + split; [intros []|].
      intros (d & ch & dirs & n & c & Heq & _ & Hd & _).
      injection Heq as <- <-. inversion Hd; subst. congruence.
    + rewrite (check_tree_in children Hall). split.
      * intros (dirs & n & c & Hat & Hd & Hk & H).
        exists name, children, dirs, n, c. repeat split; auto.
      * intros (d & ch & dirs & n & c & Heq & Hat & Hd & Hk & H).
        injection Heq as <- <-. inversion Hd; subst.
        exists dirs, n, c. auto.
Qed.

(** X19. The scan of a directory reports the findings of every file of
    the tree that is not named in [exclude_files] and that no directory
    of [exclude_dirs] lies above, each under the path joined from the
    directory down to the file, and of no other file; without the
    directory it reports nothing. *)
Theorem scan_covers_the_tree_but_the_excluded
  (directory : str) (top : list fs_entry) (x : issue) :
  (In x (check_directory directory (Some top))
   <-> exists dirs name content,
         file_at top dirs name content
         /\ Forall (fun d => existsb (str_eqb d) exclude_dirs = false) dirs
         /\ existsb (str_eqb name) exclude_files = false
         /\ In x (check_file (fold_left os_path_join (dirs ++ [name]) directory)
                    content))
  /\ check_directory directory None = [].
Proof.
  split; [|reflexivity]. unfold check_directory.
  apply check_tree_in. apply Forall_forall. intros e _. apply check_entry_in.
Qed.

(* ================================================================== *)
(** ** security_check.py: the grouping of the report *)

Local Notation of_type k :=
  (fun i : issue => str_eqb (i_type i) k).
Local Notation group_sizes groups :=
  (fold_right Nat.add 0%nat
     (map (fun g : str * list issue => List.length (snd g)) groups)).

Lemma str_eqb_refl (k : str) : str_eqb k k = true.
Proof. now apply str_eqb_eq. Qed.

Lemma group_append_keys (g : list (str * list issue)) (k : str) (i : issue) :
  map fst (group_append g k i)
  = if in_dec (list_eq_dec N.eq_dec) k (map fst g)
    then map fst g else map fst g ++ [k].
Proof.
  induction g as [|[k0 grp] g IH]; simpl; [reflexivity|].
  destruct (str_eqb k0 k) eqn:E.
  - apply str_eqb_eq in E. subst k0. simpl.
    destruct (list_eq_dec N.eq_dec k k); [|congruence].
    reflexivity.
  - assert (Hne : k0 <> k)
      by (intros ->; rewrite str_eqb_refl in E; discriminate).
    simpl. rewrite IH.
    destruct (list_eq_dec N.eq_dec k0 k); [congruence|].
    destruct (in_dec (list_eq_dec N.eq_dec) k (map fst g)); reflexivity.
Qed.

Lemma group_append_in (g : list (str * list issue)) (k : str) (i : issue)
  (k' : str) (grp' : list issue) :
  NoDup (map fst g) ->
  In (k', grp') (group_append g k i) ->
  (k' <> k /\ In (k', grp') g)
  \/ (k' = k /\ exists grp, In (k, grp) g /\ grp' = grp ++ [i])
  \/ (k' = k /\ ~ In k (map fst g) /\ grp' = [i]).
Proof.
  induction g as [|[k0 grp] g IH]; simpl; intros Hnd Hin.
  - destruct Hin as [[= <- <-]|[]]. right. right. auto.
  - inversion Hnd as [|? ? Hk0 Hnd']; subst.
    destruct (str_eqb k0 k) eqn:E.
    + apply str_eqb_eq in E. subst k0.
      destruct Hin as [[= <- <-]|Hin].
      * right. left. split; [reflexivity|]. exists grp. auto.
      * left. split; [|now right].
        intros ->. apply Hk0. apply in_map_iff. now exists (k, grp').
    + assert (Hne : k0 <> k)
        by (intros ->; rewrite str_eqb_refl in E; discriminate).
      destruct Hin as [[= <- <-]|Hin].
      * left. auto.
      * destruct (IH Hnd' Hin) as [[H1 H2]|[[H1 (g0 & H2 & H3)]|[H1 [H2 H3]]]].
        -- left. auto.
        -- right. left. split; [exact H1|]. exists g0. auto.
        -- right. right. repeat split; auto.
           intros [Heq|H]; [congruence|contradiction].
Qed.

Lemma group_append_sizes (g : list (str * list issue)) (k : str) (i : issue) :
  group_sizes (group_append g k i) = S (group_sizes g).
Proof.
  induction g as [|[k0 grp] g IH]; simpl; [reflexivity|].
  destruct (str_eqb k0 k); simpl.
  - rewrite length_app. simpl. lia.
  - rewrite IH. lia.
Qed.

Lemma issues_by_type_snoc (issues : list issue) (i : issue) :
  issues_by_type (issues ++ [i])
  = group_append (issues_by_type issues) (i_type i) i.
Proof. unfold issues_by_type. now rewrite fold_left_app. Qed.

Lemma filter_snoc (k : str) (issues : list issue) (i : issue) :
  filter (of_type k) (issues ++ [i])
  = filter (of_type k) issues ++ (if str_eqb (i_type i) k then [i] else []).
Proof. rewrite filter_app. reflexivity. Qed.

Lemma filter_none (k : str) (issues : list issue) :
  (forall j, In j issues -> i_type j <> k) ->
  filter (of_type k) issues = [].
Proof.
  induction issues as [|j issues IH]; intros H; simpl; [reflexivity|].
  destruct (str_eqb (i_type j) k) eqn:E.
  - apply str_eqb_eq in E. exfalso. apply (H j); [now left|exact E].
  - apply IH. intros j' Hj'. apply H. now right.
Qed.

Lemma issues_by_type_invariant (issues : list issue) :
  NoDup (map fst (issues_by_type issues))
  /\ (forall k, In k (map fst (issues_by_type issues))
                <-> exists i, In i issues /\ i_type i = k)
  /\ (forall k grp, In (k, grp) (issues_by_type issues) ->
                    grp = filter (of_type k) issues).
Proof.
  induction issues as [|i issues IH] using rev_ind.
  - simpl. split; [constructor|]. split.
    + intros k. split; [intros []|intros (? & [] & _)].
    + intros k grp [].
  - destruct IH as (Hnd & Hkeys & Hgrp).
    rewrite issues_by_type_snoc.
    pose proof (group_append_keys (issues_by_type issues) (i_type i) i) as Ek.
    destruct (in_dec (list_eq_dec N.eq_dec) (i_type i)
                (map fst (issues_by_type issues))) as [Hin|Hnin].
    + split; [now rewrite Ek|]. split.
      * intros k. rewrite Ek, Hkeys. split.
        -- intros (j & Hj & E). exists j. split; [|exact E].
           apply in_or_app. now left.
        -- intros (j & Hj & E). apply in_app_or in Hj.
           destruct Hj as [Hj|[<-|[]]]; [now exists j|].
           subst k. now apply Hkeys.
      * intros k grp H. rewrite filter_snoc.
        apply group_append_in in H; [|exact Hnd].
        destruct H as [[H1 H2]|[[-> (g0 & H2 & ->)]|[_ [H2 _]]]].
        -- rewrite (Hgrp _ _ H2).
           destruct (str_eqb (i_type i) k) eqn:E;
             [apply str_eqb_eq in E; congruence|now rewrite app_nil_r].
        -- rewrite (Hgrp _ _ H2). now rewrite str_eqb_refl.
        -- contradiction.
    + split.
      { rewrite Ek. apply NoDup_app; [exact Hnd|repeat constructor; intros []|].
        intros k Hk [<-|[]]. contradiction. }
      split.
      * intros k. rewrite Ek, in_app_iff, Hkeys. split.
        -- intros [(j & Hj & E)|[<-|[]]].
           ++ exists j. split; [|exact E]. apply in_or_app. now left.
           ++ exists i. split; [|reflexivity]. apply in_or_app. right. now left.
        -- intros (j & Hj & E). apply in_app_or in Hj.
           destruct Hj as [Hj|[<-|[]]]; [left; now exists j|].
           right. now left.
      * intros k grp H. rewrite filter_snoc.
        apply group_append_in in H; [|exact Hnd].
        destruct H as [[H1 H2]|[[-> (g0 & H2 & ->)]|[-> [_ ->]]]].
        -- rewrite (Hgrp _ _ H2).
           destruct (str_eqb (i_type i) k) eqn:E;
             [apply str_eqb_eq in E; congruence|now rewrite app_nil_r].
        -- exfalso. apply Hnin. apply in_map_iff. now exists (i_type i, g0).
        -- rewrite str_eqb_refl, filter_none; [reflexivity|].
           intros j Hj E. apply Hnin. apply Hkeys. now exists j.
Qed.

Lemma issues_by_type_sizes (issues : list issue) :
  group_sizes (issues_by_type issues) = List.length issues.
Proof.
  induction issues as [|i issues IH] using rev_ind; [reflexivity|].
  rewrite issues_by_type_snoc, group_append_sizes, IH, length_app.
  simpl. lia.
Qed.

(** X20. The report of the scan groups the findings by type: every type
    that occurs has one section, in the order of first occurrence of the
    types; a section holds exactly the findings of its type, in their
    order, and is never empty; the counts of the sections add up to the
    count of the heading. *)
Theorem findings_are_grouped_by_type (issues : list issue) :
  NoDup (map fst (issues_by_type issues))
  /\ (forall k, In k (map fst (issues_by_type issues))
                <-> exists i, In i issues /\ i_type i = k)
  /\ Forall (fun g => snd g = filter (of_type (fst g)) issues /\ snd g <> [])
       (issues_by_type issues)
  /\ group_sizes (issues_by_type issues) = List.length issues.
Proof.
  destruct (issues_by_type_invariant issues) as (Hnd & Hkeys & Hgrp).
  split; [exact Hnd|]. split; [exact Hkeys|].
  split; [|apply issues_by_type_sizes].
  apply Forall_forall. intros [k grp] Hin. simpl.
  pose proof (Hgrp _ _ Hin) as E. split; [exact E|].
  assert (Hk : In k (map fst (issues_by_type issues)))
    by (apply in_map_iff; now exists (k, grp)).
  apply Hkeys in Hk. destruct Hk as (i & Hi & Et).
  intros Hnil. rewrite Hnil in E.
  assert (Hf : In i (filter (of_type k) issues)).
  { apply filter_In. split; [exact Hi|]. now apply str_eqb_eq. }
  rewrite <- E in Hf. contradiction.
Qed.

(* ================================================================== *)
(** ** security_check.py: the text of the report *)

Lemma flat_map_in_split {A B : Type} (f : A -> list B) (x : A) (l : list A) :
  In x l -> exists before after, flat_map f l = before ++ f x ++ after.
Proof.
  intros H. apply in_split in H. destruct H as (l1 & l2 & ->).
  exists (flat_map f l1), (flat_map f l2).
  rewrite flat_map_app. reflexivity.
Qed.

Lemma issue_in_its_group (issues : list issue) (i : issue) :
  In i issues ->
  In (i_type i, filter (fun j : issue => str_eqb (i_type j) (i_type i)) issues)
     (issues_by_type issues)
  /\ In i (filter (fun j : issue => str_eqb (i_type j) (i_type i)) issues).
Proof.
  intros Hi.
  destruct (issues_by_type_invariant issues) as (_ & Hkeys & Hgrp).
  assert (Hk : In (i_type i) (map fst (issues_by_type issues)))
    by (apply Hkeys; now exists i).
  apply in_map_iff in Hk. destruct Hk as ([k grp] & Ek & Hin).
  simpl in Ek. subst k.
  rewrite <- (Hgrp _ _ Hin). split; [exact Hin|].
  rewrite (Hgrp _ _ Hin). apply filter_In. split; [exact Hi|].
  now apply str_eqb_eq.
Qed.

(** X21. Every finding is printed in the report of the scan: after the
    count of all findings, which opens the report, the text has the
    heading of the finding's type with the number of findings of that
    type, and below it the two lines of the finding, its file and line
    number and its content. *)
Theorem every_finding_is_printed (issues : list issue) (i : issue) :
  In i issues ->
  exists before between after,
    generate_security_report issues
    = int_str (Z.of_nat (List.length issues)) ++ before
      ++ (u8 "🚨 " ++ i_type i ++ u8 " ("
          ++ int_str (Z.of_nat (List.length
                          (filter (fun j : issue => str_eqb (i_type j) (i_type i))
                             issues)))
          ++ u8 "개):" ++ nl)
      ++ between
      ++ (u8 "   " ++ i_file i ++ u8 ":" ++ int_str (i_line i) ++ nl
          ++ u8 "      " ++ i_content i ++ nl)
      ++ after.
Proof.
  intros Hi. destruct (issue_in_its_group issues i Hi) as [Hg Hin].
  destruct (flat_map_in_split type_section _ _ Hg) as (b1 & a1 & E1).
  destruct (flat_map_in_split issue_lines _ _ Hin) as (b2 & a2 & E2).
  unfold generate_security_report.
  destruct issues as [|i0 issues']; [destruct Hi|].
  set (issues := i0 :: issues') in *.
  rewrite E1. unfold type_section at 1. cbn [fst snd]. rewrite E2.
  fold (issue_lines i).
  eexists (u8 "개의 보안 이슈 발견!" ++ nl ++ nl ++ b1), b2, _.
  rewrite <- !app_assoc. reflexivity.
Qed.

(* ================================================================== *)
(** ** main.py: findings stop the local analysis *)

Section LocalScanProperties.

Variable World : Type.
Variable ollama_post : str -> World -> ollama_outcome * World.
Variable cfg : Config.


End LocalScanProperties.

(* ================================================================== *)
(** ** The further properties on concrete runs *)


(** X10, witness. Five records with a maximum of three: the report counts
    three files. *)
Lemma five_records_three_results :
  0 <= MAX_FILES_PER_ANALYSIS cap3_config
  /\ match fst (analyze_multiple_files script scripted_post cap3_config
                  [file_a; file_b; file_c; file_a; file_b]
                  (repeat (answers (score_only "8")) 5)) with
     | Ok report =>
         total_files (summary report) = 3
         /\ total_files (summary report) = Z.of_nat (List.length (files report))
         /\ total_files (summary report) <= MAX_FILES_PER_ANALYSIS cap3_config
     | Raise _ => False
     end.
Proof.
  assert (Hmax : 0 <= MAX_FILES_PER_ANALYSIS cap3_config).
  { vm_compute. discriminate. }
  split; [exact Hmax|].
  destruct (never_more_than_the_maximum script scripted_post no_contents
              cap3_config Hmax) as [H _].
  specialize (H [file_a; file_b; file_c; file_a; file_b]
                (repeat (answers (score_only "8")) 5)).
  destruct (fst (analyze_multiple_files script scripted_post cap3_config
                   [file_a; file_b; file_c; file_a; file_b]
                   (repeat (answers (score_only "8")) 5)))
    as [report|e] eqn:E.
  - split; [|exact (H report eq_refl)].
    vm_compute in E. injection E as <-. reflexivity.
  - vm_compute in E. discriminate E.
Defined.

(** X11, witness. The response for [a.py] names [other.py] as its
    [file_path]: the result is stored under [a.py]. *)
Lemma response_path_is_overwritten :
  match fst (analyze_multiple_files script scripted_post default_config
               [file_a; file_b]
               [answers own_path_json; answers (score_only "8")]) with
  | Ok report =>
      map (fun d => dict_get d k_file_path) (files report)
      = [Some (PyStr (u8 "a.py")); Some (PyStr (u8 "b.py"))]
  | Raise _ => False
  end.
Proof.
  pose proof (results_carry_the_paths_of_their_records script scripted_post
                default_config [file_a; file_b]
                [answers own_path_json; answers (score_only "8")]) as H.
  destruct (fst (analyze_multiple_files script scripted_post default_config
                   [file_a; file_b]
                   [answers own_path_json; answers (score_only "8")]))
    as [report|e] eqn:E.
  - exact (H report eq_refl).
  - vm_compute in E. discriminate E.
Defined.

(** X12, witness. A score of 8, a failed call and a score of 6.0: three
    lines, marked with the check, the cross and the warning sign. *)
Lemma summary_lines_of_three_files :
  match fst (analyze_multiple_files script scripted_post default_config
               [file_a; file_b; file_c]
               [answers (score_only "8"); RequestException;
                answers (score_only "6.0")]) with
  | Ok report =>
      exists rows,
        file_rows (files report) = Ok rows
        /\ map row_status rows = [u8 "✅"; u8 "❌"; u8 "⚠️"]
        /\ Z.of_nat (List.length rows) = total_files (summary report)
        /\ fold_right Z.add 0 (map row_issues_count rows)
           = total_issues (summary report)
        /\ map row_file_path rows
           = [PyStr (u8 "a.py"); PyStr (u8 "b.py"); PyStr (u8 "c.py")]
  | Raise _ => False
  end.
Proof.
  pose proof (text_summary_of_a_returned_report script scripted_post
                default_config [file_a; file_b; file_c]
                [answers (score_only "8"); RequestException;
                 answers (score_only "6.0")]) as H.
  destruct (fst (analyze_multiple_files script scripted_post default_config
                   [file_a; file_b; file_c]
                   [answers (score_only "8"); RequestException;
                    answers (score_only "6.0")]))
    as [report|e] eqn:E.
  - destruct (H report eq_refl) as (rows & Hr & Hl & Hi & Hp & _).
    exists rows. split; [exact Hr|].
    split; [|split; [exact Hl|split; [exact Hi|exact Hp]]].
    vm_compute in E. injection E as <-.
    vm_compute in Hr. injection Hr as <-. reflexivity.
  - vm_compute in E. discriminate E.
Defined.

(** X13, witness. The decoded [{"issues": []}] stored for [a.py]. *)
Lemma unscored_file_is_marked_with_the_cross :
  file_row (dict_set [(k_issues, PyList [])] k_file_path (PyStr (u8 "a.py")))
  = Ok {| row_status := u8 "❌"; row_file_path := PyStr (u8 "a.py");
          row_score := PyInt 0; row_issues_count := 0 |}
  /\ score_of (dict_set [(k_issues, PyList [])] k_file_path (PyStr (u8 "a.py")))
     = PyFloat f5_0.
Proof.
  destruct failed_and_unscored_files_are_marked_low as (_ & _ & H).
  apply (H [(k_issues, PyList [])] (u8 "a.py") 0); reflexivity.
Defined.

(** X14, witness. Three files, the second answered with
    [{"overall_score": null}]: the batch raises, the result of the first
    file is lost and the third answer of the service is never asked
    for. *)
Lemma null_score_aborts_three_files :
  analyze_multiple_files script scripted_post default_config
    ([file_a] ++ file_b :: [file_c])
    [answers (score_only "8"); answers (score_only "null");
     answers (score_only "9")]
  = (Raise TypeError, [answers (score_only "9")]).
Proof.
  apply (uncountable_score_aborts_the_batch script scripted_post
           default_config [file_a] file_b [file_c]
           [dict_set [(k_overall_score, PyInt 8)] k_file_path
              (PyStr (u8 "a.py"))]
           (NInt 8)
           [answers (score_only "8"); answers (score_only "null");
            answers (score_only "9")]
           [answers (score_only "null"); answers (score_only "9")]
           [answers (score_only "9")]
           [(k_overall_score, PyNone)]).
  - vm_compute. discriminate.
  - vm_compute. reflexivity.
  - reflexivity.
  - vm_compute. reflexivity.
  - reflexivity.
Defined.

(** X15, witness. Two files with content and an empty one, and a service
    that refuses every connection. *)
Lemma refused_service_fails_every_file :
  exists report,
    fst (analyze_multiple_files unit refused_post default_config
           [file_a; file_empty; file_b] tt) = Ok report
    /\ files report
       = [dict_set _create_empty_result k_file_path (PyStr (u8 "a.py"));
          dict_set _create_empty_result k_file_path (PyStr (u8 "b.py"))]
    /\ total_files (summary report) = 2
    /\ total_issues (summary report) = 0
    /\ average_score (summary report) = NFloat f0_0.
Proof.
  assert (Hdown : forall prompt w,
             match fst (refused_post prompt w) with
             | RequestException => True
             | HttpResponse status_code _ => status_code <> 200
             end).
  { intros prompt w. exact I. }
  assert (Hmax : 0 <= MAX_FILES_PER_ANALYSIS default_config < 2 ^ 53).
  { split; vm_compute; [discriminate|reflexivity]. }
  exact (unreachable_service_gives_failure_records unit refused_post
           default_config Hdown [file_a; file_empty; file_b] tt Hmax).
Defined.

(** X17, witness. The second line of a settings file holds an AWS access
    key. *)
Lemma aws_key_in_the_second_line :
  forallb alnum aws_key_body = true
  /\ In {| i_file := u8 "settings.py"; i_line := Z.of_nat 1 + 1;
           i_content := issue_content (u8 "key = " ++ u8 "AKIA" ++ aws_key_body ++ []);
           i_type := u8 "AWS Access Key";
           i_pattern := u8 "AKIA[0-9A-Z]{16}" |}
        (check_file (u8 "settings.py") (Some aws_key_text)).
Proof.
  assert (Hb : forallb alnum aws_key_body = true) by reflexivity.
  split; [exact Hb|].
  destruct (access_keys_are_reported (u8 "settings.py") aws_key_text 1
              (u8 "key = ") aws_key_body [] Hb) as (_ & _ & H).
  apply H; reflexivity.
Defined.

(** X18, witness. A line that assigns [hunter2] to [password]. *)
Lemma password_in_the_first_line :
  In {| i_file := u8 "settings.py"; i_line := Z.of_nat 0 + 1;
        i_content := issue_content password_text;
        i_type := u8 "하드코딩된 비밀번호";
        i_pattern := u8 "password" ++ assignment_source "3" |}
     (check_file (u8 "settings.py") (Some password_text)).
Proof.
  destruct (hardcoded_values_are_reported (u8 "settings.py") password_text 0
              [] [32%N] [32%N] 34%N (u8 "hunter2") 34%N []
              eq_refl eq_refl eq_refl eq_refl eq_refl) as (H & _).
  apply H; [reflexivity|simpl; lia].
Defined.

(** X21, witness. The scan of a file with an access key and a password:
    the report of its two findings prints the password under the heading
    of its type. *)
Lemma password_finding_is_in_the_report :
  List.length (check_file (u8 "settings.py") (Some two_secrets_text)) = 2%nat
  /\ In password_finding (check_file (u8 "settings.py") (Some two_secrets_text))
  /\ exists before between after,
       generate_security_report
         (check_file (u8 "settings.py") (Some two_secrets_text))
       = u8 "2" ++ before
         ++ (u8 "🚨 하드코딩된 비밀번호 (1개):" ++ nl)
         ++ between
         ++ (u8 "   settings.py:3" ++ nl
             ++ u8 "      " ++ password_text ++ nl)
         ++ after.
Proof.
  assert (Hin : In password_finding
                  (check_file (u8 "settings.py") (Some two_secrets_text))).
  { vm_compute. right. left. reflexivity. }
  split; [vm_compute; reflexivity|]. split; [exact Hin|].
  destruct (every_finding_is_printed _ _ Hin) as (before & between & after & E).
  exists before, between, after. rewrite E. vm_compute. reflexivity.
Defined.

